(** * car_scraper: reconciliation of inventory rows against marketplace listings

    A shallow embedding of [car_scraper.py] and the properties of its
    reconciliation engine, provider clients and batch loop.

    Conventions of the embedding.
    - A Python [str] is a [string] of ASCII characters; [lower] and [strip]
      act on ASCII letters and ASCII white space only.
    - Python integers are [Z].  A float is kept as the text [str()] prints
      for it, the only thing the program ever does with one besides testing
      it for zero and NaN.
    - A [dict] is an association list in insertion order; a lookup takes the
      first binding of a key.
    - An exception is a value [Exn type message]; code that can raise returns
      a [res].
    - The libraries are taken as they are today: a session of requests that
      mounts a urllib3 [Retry], and pandas 3, where an assignment into a
      column never changes the dtype of the column. *)

From Stdlib Require Import ZArith List String Ascii Bool Lia.
From Stdlib Require Import Numbers.DecimalString Numbers.DecimalPos.
Import ListNotations.
Open Scope string_scope.
Open Scope Z_scope.
Set Warnings "-register-all".
Set Default Proof Using "Type".

(* ===================================================================== *)
(** * Python strings *)
(* ===================================================================== *)

Module PyStr.

Definition code (c : ascii) : Z := Z.of_N (N_of_ascii c).

(** [str.isspace] on ASCII: tab, LF, VT, FF, CR, the separators 28..31 and
    the blank. *)
Definition is_space (c : ascii) : bool :=
  let n := code c in
  ((9 <=? n) && (n <=? 13)) || ((28 <=? n) && (n <=? 32)).

Fixpoint lstrip (s : string) : string :=
  match s with
  | String c s' => if is_space c then lstrip s' else s
  | EmptyString => EmptyString
  end.

(** [rstrip]: a character is dropped when it is a space and everything to
    its right has been dropped. *)
Fixpoint rstrip (s : string) : string :=
  match s with
  | String c s' =>
      match rstrip s' with
      | EmptyString => if is_space c then EmptyString else String c EmptyString
      | r => String c r
      end
  | EmptyString => EmptyString
  end.

(** [s.strip()] *)
Definition strip (s : string) : string := rstrip (lstrip s).

Definition lower_char (c : ascii) : ascii :=
  let n := code c in
  if (65 <=? n) && (n <=? 90) then ascii_of_N (Z.to_N (n + 32)) else c.

(** [s.lower()] *)
Fixpoint lower (s : string) : string :=
  match s with
  | String c s' => String (lower_char c) (lower s')
  | EmptyString => EmptyString
  end.

(** [s.replace(',', '')] *)
Fixpoint remove_commas (s : string) : string :=
  match s with
  | String c s' => if Ascii.eqb c "," then remove_commas s' else String c (remove_commas s')
  | EmptyString => EmptyString
  end.

Definition digit_of (c : ascii) : option Z :=
  let n := code c in
  if (48 <=? n) && (n <=? 57) then Some (n - 48) else None.

(** The digits of an [int()] literal: decimal digits, with single
    underscores allowed between two digits.  [prev] tells whether the
    previous character was a digit. *)
Fixpoint parse_digits (s : string) (acc : Z) (prev : bool) : option Z :=
  match s with
  | String c s' =>
      if Ascii.eqb c "_" then
        if prev then parse_digits s' acc false else None
      else
        match digit_of c with
        | Some d => parse_digits s' (10 * acc + d) true
        | None => None
        end
  | EmptyString => if prev then Some acc else None
  end.

(** The white space [int()] skips around a literal: tab, LF, VT, FF, CR and
    the blank.  The separators 28..31, which [strip] drops, are not among
    it. *)
Definition is_int_space (c : ascii) : bool :=
  let n := code c in
  ((9 <=? n) && (n <=? 13)) || (n =? 32).

Fixpoint int_lstrip (s : string) : string :=
  match s with
  | String c s' => if is_int_space c then int_lstrip s' else s
  | EmptyString => EmptyString
  end.

Fixpoint int_rstrip (s : string) : string :=
  match s with
  | String c s' =>
      match int_rstrip s' with
      | EmptyString => if is_int_space c then EmptyString else String c EmptyString
      | r => String c r
      end
  | EmptyString => EmptyString
  end.

(** [int(s)] for a string [s]: the white space around the literal is
    skipped, one sign is allowed; [None] stands for [ValueError]. *)
Definition py_int (s : string) : option Z :=
  match int_rstrip (int_lstrip s) with
  | String "+" r => parse_digits r 0 false
  | String "-" r => option_map Z.opp (parse_digits r 0 false)
  | t => parse_digits t 0 false
  end.

(** [str(n)] for an integer. *)
Definition str_of_Z (z : Z) : string := NilEmpty.string_of_int (Z.to_int z).

(** [sub in s] for two strings. *)
Fixpoint contains (sub s : string) : bool :=
  if String.prefix sub s then true
  else match s with
       | String _ s' => contains sub s'
       | EmptyString => false
       end.

Definition dquote : ascii := ascii_of_N 34.

Definition hex_digit (n : Z) : ascii :=
  if n <? 10 then ascii_of_N (Z.to_N (48 + n)) else ascii_of_N (Z.to_N (87 + n)).

Fixpoint has_char (c : ascii) (s : string) : bool :=
  match s with
  | String d s' => Ascii.eqb c d || has_char c s'
  | EmptyString => false
  end.

Fixpoint escape (q : ascii) (s : string) : string :=
  match s with
  | String c s' =>
      let n := code c in
      let rest := escape q s' in
      if Ascii.eqb c "\" then String "\" (String "\" rest)
      else if Ascii.eqb c q then String "\" (String c rest)
      else if n =? 9 then String "\" (String "t" rest)
      else if n =? 10 then String "\" (String "n" rest)
      else if n =? 13 then String "\" (String "r" rest)
      else if (n <? 32) || (n =? 127) then
        String "\" (String "x" (String (hex_digit (n / 16)) (String (hex_digit (n mod 16)) rest)))
      else String c rest
  | EmptyString => EmptyString
  end.

(** [repr(s)] for a string: single quotes, unless the text has a single
    quote and no double quote. *)
Definition repr (s : string) : string :=
  let q : ascii := if has_char "'" s && negb (has_char dquote s) then dquote else "'"%char in
  String q (escape q s ++ String q EmptyString).

End PyStr.

(* ===================================================================== *)
(** * Python values, exceptions *)
(* ===================================================================== *)

Module Py.
Import PyStr.

(** An exception: its class and the text [str(e)] gives. *)
Inductive exn : Type := Exn (type : string) (msg : string).

Definition exn_msg (e : exn) : string := match e with Exn _ m => m end.

Inductive res (A : Type) : Type :=
| Ok (a : A)
| Raise (e : exn).
Arguments Ok {A} a.
Arguments Raise {A} e.

(** What a CSV cell holds once pandas has read it, and the leaves of a JSON
    document. *)
Inductive scalar : Type :=
| SNone
| SBool (b : bool)
| SInt (z : Z)
| SFloat (text : string)
| SStr (s : string).

(** What [response.json()] returns. *)
Inductive json : Type :=
| JAtom (a : scalar)
| JList (l : list json)
| JDict (d : list (string * json)).

Definition JNone : json := JAtom SNone.
Definition JStr (s : string) : json := JAtom (SStr s).

(** A CSV row as [row.to_dict()] gives it. *)
Definition row : Type := list (string * scalar).

Section Dict.
Context {V : Type}.

(** [d.get(k)]; [None] when the key is absent. *)
Fixpoint dict_get (d : list (string * V)) (k : string) : option V :=
  match d with
  | (k', v) :: d' => if String.eqb k k' then Some v else dict_get d' k
  | [] => None
  end.

(** [k in d] *)
Definition dict_has (d : list (string * V)) (k : string) : bool :=
  match dict_get d k with Some _ => true | None => false end.

(** [d[k] = v]: an existing key keeps its place, a new one goes last. *)
Fixpoint dict_set (d : list (string * V)) (k : string) (v : V) : list (string * V) :=
  match d with
  | (k', v') :: d' => if String.eqb k k' then (k', v) :: d' else (k', v') :: dict_set d' k v
  | [] => [(k, v)]
  end.

End Dict.

Definition type_name_scalar (a : scalar) : string :=
  match a with
  | SNone => "NoneType"
  | SBool _ => "bool"
  | SInt _ => "int"
  | SFloat _ => "float"
  | SStr _ => "str"
  end.

Definition type_name (v : json) : string :=
  match v with
  | JAtom a => type_name_scalar a
  | JList _ => "list"
  | JDict _ => "dict"
  end.

(** [bool(x)] *)
Definition truthy_scalar (a : scalar) : bool :=
  match a with
  | SNone => false
  | SBool b => b
  | SInt z => negb (z =? 0)
  | SFloat t => negb (String.eqb t "0.0" || String.eqb t "-0.0")
  | SStr s => negb (String.eqb s "")
  end.

Definition truthy (v : json) : bool :=
  match v with
  | JAtom a => truthy_scalar a
  | JList l => match l with [] => false | _ => true end
  | JDict d => match d with [] => false | _ => true end
  end.

(** [x is None] *)
Definition is_none (v : json) : bool :=
  match v with JAtom SNone => true | _ => false end.

(** [pd.isna(x)] for a scalar. *)
Definition pd_isna (a : scalar) : bool :=
  match a with
  | SNone => true
  | SFloat t => String.eqb t "nan"
  | _ => false
  end.

(** [str(x)] for a scalar. *)
Definition str_scalar (a : scalar) : string :=
  match a with
  | SNone => "None"
  | SBool true => "True"
  | SBool false => "False"
  | SInt z => str_of_Z z
  | SFloat t => t
  | SStr s => s
  end.

Definition repr_scalar (a : scalar) : string :=
  match a with
  | SStr s => repr s
  | _ => str_scalar a
  end.

(** [repr(x)]: lists and dicts print their items with [repr], separated by
    a comma and a blank. *)
Fixpoint py_repr (v : json) : string :=
  match v with
  | JAtom a => repr_scalar a
  | JList l =>
      "[" ++ String.concat ", " (List.map py_repr l) ++ "]"
  | JDict d =>
      "{" ++ String.concat ", "
               ((fix items (d : list (string * json)) : list string :=
                   match d with
                   | (k, x) :: d' => (repr k ++ ": " ++ py_repr x) :: items d'
                   | [] => []
                   end) d) ++ "}"
  end.

(** [str(x)] *)
Definition py_str (v : json) : string :=
  match v with
  | JAtom a => str_scalar a
  | _ => py_repr v
  end.

End Py.

(* ===================================================================== *)
(** * Reconciliation engine and URL derivation *)
(* ===================================================================== *)

Module Reconcile.
Import PyStr Py.

Notation "'let!' x ':=' e 'in' k" :=
  (match e with Ok x => k | Raise err => Raise err end)
  (at level 10, x name, e at level 100, k at level 200, only parsing).

(** [v.get(k, default)]: only a dict has the method. *)
Definition py_get (v : json) (k : string) (default : json) : res json :=
  match v with
  | JDict d => Ok (match dict_get d k with Some x => x | None => default end)
  | _ => Raise (Exn "AttributeError" ("'" ++ type_name v ++ "' object has no attribute 'get'"))
  end.

(** [v.lower()]: only a str has the method. *)
Definition py_lower (v : json) : res string :=
  match v with
  | JAtom (SStr s) => Ok (lower s)
  | _ => Raise (Exn "AttributeError" ("'" ++ type_name v ++ "' object has no attribute 'lower'"))
  end.

(** The walk along [api_path]: [for key in api_path: ...], which stops with
    [None] at the first key that is missing or whose holder is no dict. *)
Fixpoint api_path_value (api_value : json) (api_path : list string) : json :=
  match api_path with
  | key :: rest =>
      match api_value with
      | JDict d =>
          match dict_get d key with
          | Some x => api_path_value x rest
          | None => JNone
          end
      | _ => JNone
      end
  | [] => api_value
  end.

(** ** AutoTrader *)

Definition autotrader_comparison_fields : list (string * list string) :=
  [ ("Fuel", ["vehicle"; "fuel_type"]);
    ("Model", ["model"]);
    ("Seats", ["vehicle"; "seats"]);
    ("Doors", ["vehicle"; "doors"]);
    ("Transmission", ["vehicle"; "transmission_type"]);
    ("Tansmission", ["vehicle"; "transmission_type"]);
    ("Price", ["price"; "advertised_price"]) ].

(** One turn of the loop over [comparison_fields.items()]: the list
    [mismatched] before the turn gives the list after it. *)
Definition autotrader_compare_field (csv_data : row) (vehicle_data : json)
    (mismatched : list string) (field : string * list string) : list string :=
  let '(csv_field, api_path) := field in
  match dict_get csv_data csv_field with
  | Some cell =>
      if truthy_scalar cell then
        let api_value := api_path_value vehicle_data api_path in
        if String.eqb csv_field "Price" && negb (is_none api_value) && truthy_scalar cell then
          match py_int (remove_commas (strip (str_scalar cell))) with
          | Some csv_price =>
              match py_int (remove_commas (strip (py_str api_value))) with
              | Some api_price =>
                  if Z.abs (csv_price - api_price) >? 100 then
                    mismatched ++ [csv_field ++ ": CSV=" ++ str_of_Z csv_price
                                     ++ ", API=" ++ str_of_Z api_price]
                  else mismatched
              | None => mismatched ++ [csv_field ++ ": Couldn't compare"]
              end
          | None => mismatched ++ [csv_field ++ ": Couldn't compare"]
          end
        else if negb (is_none api_value) then
          let csv_value := strip (str_scalar cell) in
          let api_value_str := strip (py_str api_value) in
          if negb (String.eqb (lower csv_value) (lower api_value_str)) then
            mismatched ++ [csv_field ++ ": CSV=" ++ csv_value ++ ", API=" ++ api_value_str]
          else mismatched
        else mismatched
      else mismatched
  | None => mismatched
  end.

Definition autotrader_compare_data (csv_data : row) (vehicle_data : json)
  : res (string * list string) :=
  if negb (truthy vehicle_data) then Ok ("Not Found", [])
  else
    let! status := py_get vehicle_data "status" JNone in
    let! early :=
      (if truthy status then
         let! low := py_lower status in
         if negb (String.eqb low "live") then
           if String.eqb low "sold" then Ok (Some ("Sold", @nil string))
           else if String.eqb low "on offer" then Ok (Some ("On Offer", @nil string))
           else Ok None
         else Ok None
       else Ok None) in
    match early with
    | Some r => Ok r
    | None =>
        let mismatched :=
          fold_left (autotrader_compare_field csv_data vehicle_data)
                    autotrader_comparison_fields [] in
        match mismatched with
        | _ :: _ => Ok ("Mismatched", mismatched)
        | [] => Ok ("Found", [])
        end
    end.

(** ** Carsguide *)

Definition carsguide_comparison_fields : list (string * list string) :=
  [ ("Fuel", ["vehicle"; "fuel_type"]);
    ("Model", ["model"]);
    ("Seats", ["vehicle"; "seats"]);
    ("Doors", ["vehicle"; "doors"]);
    ("Transmission", ["vehicle"; "transmission_type"]);
    ("Tansmission", ["vehicle"; "transmission_type"]);
    ("Price", ["price"; "advertised_price"]) ].

Definition carsguide_compare_field (csv_data : row) (vehicle_data : json)
    (mismatched : list string) (field : string * list string) : list string :=
  let '(csv_field, api_path) := field in
  match dict_get csv_data csv_field with
  | Some cell =>
      if truthy_scalar cell then
        let api_value := api_path_value vehicle_data api_path in
        if String.eqb csv_field "Price" && negb (is_none api_value) && truthy_scalar cell then
          match py_int (remove_commas (strip (str_scalar cell))) with
          | Some csv_price =>
              match py_int (remove_commas (strip (py_str api_value))) with
              | Some api_price =>
                  if Z.abs (csv_price - api_price) >? 100 then
                    mismatched ++ [csv_field ++ ": CSV=" ++ str_of_Z csv_price
                                     ++ ", API=" ++ str_of_Z api_price]
                  else mismatched
              | None => mismatched ++ [csv_field ++ ": Couldn't compare"]
              end
          | None => mismatched ++ [csv_field ++ ": Couldn't compare"]
          end
        else if negb (is_none api_value) then
          let csv_value := strip (str_scalar cell) in
          let api_value_str := strip (py_str api_value) in
          if negb (String.eqb (lower csv_value) (lower api_value_str)) then
            mismatched ++ [csv_field ++ ": CSV=" ++ csv_value ++ ", API=" ++ api_value_str]
          else mismatched
        else mismatched
      else mismatched
  | None => mismatched
  end.

Definition carsguide_compare_data (csv_data : row) (vehicle_data : json)
  : res (string * list string) :=
  if negb (truthy vehicle_data) then Ok ("Not Found", [])
  else
    let! status := py_get vehicle_data "status" JNone in
    let! early :=
      (if truthy status then
         let! low := py_lower status in
         if negb (String.eqb low "live") then
           if String.eqb low "sold" then Ok (Some ("Sold", @nil string))
           else if String.eqb low "on offer" then Ok (Some ("On Offer", @nil string))
           else Ok None
         else Ok None
       else Ok None) in
    match early with
    | Some r => Ok r
    | None =>
        let mismatched :=
          fold_left (carsguide_compare_field csv_data vehicle_data)
                    carsguide_comparison_fields [] in
        match mismatched with
        | _ :: _ => Ok ("Mismatched", mismatched)
        | [] => Ok ("Found", [])
        end
    end.

(** ** URL of a listing *)

Definition extract_vehicle_url (vehicle_data : json) (site_type : string) : res json :=
  if negb (truthy vehicle_data) then Ok (JStr "")
  else
    let! first := py_get vehicle_data "url" (JStr "") in
    let! url_path :=
      (if truthy first then Ok first else py_get vehicle_data "url_cg" (JStr "")) in
    if negb (truthy url_path) then Ok (JStr "")
    else if String.eqb site_type "autotrader" then
      Ok (JStr ("https://www.autotrader.com.au/" ++ py_str url_path))
    else if String.eqb site_type "carsguide" then
      Ok (JStr ("https://www.carsguide.com.au/" ++ py_str url_path))
    else Ok url_path.

End Reconcile.

(* ===================================================================== *)
(** * Effects: state and exceptions *)
(* ===================================================================== *)

Module Eff.
Import Py.

(** A computation over a state [S]: it ends with a value or an exception,
    and the state it has reached is kept in both cases, as in Python. *)
Definition M (S A : Type) : Type := S -> res A * S.

Definition ret {S A} (a : A) : M S A := fun s => (Ok a, s).

Definition raise {S A} (e : exn) : M S A := fun s => (Raise e, s).

Definition bind {S A B} (m : M S A) (k : A -> M S B) : M S B :=
  fun s => match m s with
           | (Ok a, s') => k a s'
           | (Raise e, s') => (Raise e, s')
           end.

(** [try: m  except Exception as e: h e] *)
Definition catch {S A} (m : M S A) (h : exn -> M S A) : M S A :=
  fun s => match m s with
           | (Ok a, s') => (Ok a, s')
           | (Raise e, s') => h e s'
           end.

(** A pure step that may raise. *)
Definition lift_res {S A} (r : res A) : M S A := fun s => (r, s).

Declare Scope eff_scope.
Delimit Scope eff_scope with eff.
Notation "x <- m ;; k" := (bind m (fun x => k))
  (at level 61, m at next level, right associativity) : eff_scope.
Notation "m ;; k" := (bind m (fun _ => k))
  (at level 61, right associativity) : eff_scope.

End Eff.

(* ===================================================================== *)
(** * HTTP transport as the program sees it *)
(* ===================================================================== *)

Module Http.
Import PyStr Py Eff.
Open Scope eff_scope.

Record request : Type := Request {
  req_url : string;
  req_params : list (string * string);
  req_headers : list (string * string)
}.

(** A response: its status code and what [response.json()] gives, which is
    an exception when the body is no JSON. *)
Record response : Type := Response {
  status_code : Z;
  json_body : res json
}.

(** What a run does to the outside: the calls of [session.get], each with
    its request, the sleeps the program takes (with the bounds of the random
    draw) and the JSON files it writes.  One call of [session.get] is one
    event, however many times the library sends the request under it. *)
Inductive event : Type :=
| EvGet (r : request)
| EvSleep (lo hi : Z)
| EvSave (filename : string) (data : json).

(** The events of a run, the newest first. *)
Definition trace : Type := list event.

(** The network: the answer a request ends with, after the events so far,
    once the library has made its resends and followed the redirects; an
    exception stands for a transport failure (time-out, refused
    connection). *)
Definition network : Type := trace -> request -> res response.

(** The retry strategy of [create_session]: [Retry(total=5,
    backoff_factor=1, status_forcelist=[...], allowed_methods=["GET"])],
    mounted for https, the scheme of every URL of the program. *)
Definition retry_total : nat := 5.

Definition status_forcelist : list Z := [403; 429; 500; 502; 503; 504].

Definition forced (status : Z) : bool := existsb (Z.eqb status) status_forcelist.

(** [create_session()]: what [get] gives on the session it returns.  A GET
    that is answered with a status of the force list is sent again by the
    adapter, [retry_total] times at most; when the status is still there the
    call raises [RetryError], whose text, which the program only logs, is cut
    here to its cause.  So a response with such a status never reaches the
    caller. *)
Definition create_session (net : network) : network :=
  fun tr r =>
    match net tr r with
    | Ok response =>
        if forced (status_code response) then
          Raise (Exn "RetryError"
                   ("too many " ++ str_of_Z (status_code response) ++ " error responses"))
        else Ok response
    | Raise e => Raise e
    end.

(** [session.get(url, params=params, headers=headers, timeout=30)] on the
    session of [create_session], the only session the program makes. *)
Definition session_get (net : network) (url : string)
    (params headers : list (string * string)) : M trace response :=
  fun tr =>
    let r := Request url params headers in (create_session net tr r, EvGet r :: tr).

(** [time.sleep(random.uniform(lo, hi))] *)
Definition sleep_uniform (lo hi : Z) : M trace unit :=
  fun tr => (Ok tt, EvSleep lo hi :: tr).

(** [add_delay(min_seconds, max_seconds)] *)
Definition add_delay (min_seconds max_seconds : Z) : M trace unit :=
  sleep_uniform min_seconds max_seconds.

(** [save_json_file(data, filename)], with the file name less its time
    stamp: a failure to write is caught inside and only changes the returned
    flag, which no caller reads. *)
Definition save_json_file (data : json) (filename : string) : M trace unit :=
  fun tr => (Ok tt, EvSave filename data :: tr).

Definition quoted (s : string) : string := String dquote (s ++ String dquote EmptyString).

Definition get_default_headers : list (string * string) :=
  [ ("accept", "*/*");
    ("accept-language", "en-US,en;q=0.9");
    ("priority", "u=1, i");
    ("sec-ch-ua", quoted "Not;A=Brand" ++ ";v=" ++ quoted "99" ++ ", "
                  ++ quoted "Google Chrome" ++ ";v=" ++ quoted "139" ++ ", "
                  ++ quoted "Chromium" ++ ";v=" ++ quoted "139");
    ("sec-ch-ua-mobile", "?0");
    ("sec-ch-ua-platform", quoted "Windows");
    ("sec-fetch-dest", "empty");
    ("sec-fetch-mode", "cors");
    ("sec-fetch-site", "same-site");
    ("user-agent", "Mozilla/5.0 (Windows NT 10.0; Win64; x64) AppleWebKit/537.36 (KHTML, like Gecko) Chrome/139.0.0.0 Safari/537.36") ].

End Http.

(* ===================================================================== *)
(** * Provider clients *)
(* ===================================================================== *)

Module Provider.
Import PyStr Py Reconcile Eff Http.
Open Scope eff_scope.

(** [k in csv_row and csv_row[k] and not pd.isna(csv_row[k])]: the cell
    when the three tests pass. *)
Definition usable_cell (csv_row : row) (k : string) : option scalar :=
  match dict_get csv_row k with
  | Some cell => if truthy_scalar cell && negb (pd_isna cell) then Some cell else None
  | None => None
  end.

Definition build_fallback_search_params (csv_row : row) (dealer_id : string)
    (source : option string) : list (string * string) :=
  let params :=
    [ ("dealer_id", dealer_id); ("ipLookup", "1");
      ("sorting_variation", "smart_sort_3"); ("paginate", "26") ] in
  let params :=
    match source with
    | Some src => if negb (String.eqb src "") then dict_set params "source" src else params
    | None => params
    end in
  let params :=
    match usable_cell csv_row "Make" with
    | Some cell => dict_set params "make" (strip (str_scalar cell))
    | None => params
    end in
  let params :=
    match usable_cell csv_row "Model" with
    | Some cell => dict_set params "model" (strip (str_scalar cell))
    | None => params
    end in
  let params :=
    match usable_cell csv_row "Year" with
    | Some cell => dict_set params "manu_year" (strip (str_scalar cell))
    | None => params
    end in
  let params :=
    match usable_cell csv_row "Price" with
    | Some cell =>
        match py_int (remove_commas (strip (str_scalar cell))) with
        | Some price =>
            dict_set (dict_set params "priceFrom" (str_of_Z (price - 100)))
                     "priceTo" (str_of_Z (price + 100))
        | None => params
        end
    | None => params
    end in
  let params :=
    match usable_cell csv_row "KM" with
    | Some cell =>
        match py_int (remove_commas (strip (str_scalar cell))) with
        | Some km =>
            dict_set (dict_set params "odometerFrom" (str_of_Z (km - 100)))
                     "odometerTo" (str_of_Z (km + 100))
        | None => params
        end
    | None => params
    end in
  params.

(** [len(v)] *)
Definition py_len (v : json) : res Z :=
  match v with
  | JList l => Ok (Z.of_nat (List.length l))
  | JDict d => Ok (Z.of_nat (List.length d))
  | JAtom (SStr s) => Ok (Z.of_nat (String.length s))
  | _ => Raise (Exn "TypeError" ("object of type '" ++ type_name v ++ "' has no len()"))
  end.

(** [v[k]] for a string [k] *)
Definition py_getitem (v : json) (k : string) : res json :=
  match v with
  | JDict d =>
      match dict_get d k with
      | Some x => Ok x
      | None => Raise (Exn "KeyError" (repr k))
      end
  | JList _ => Raise (Exn "TypeError" "list indices must be integers or slices, not str")
  | JAtom (SStr _) => Raise (Exn "TypeError" "string indices must be integers, not 'str'")
  | _ => Raise (Exn "TypeError" ("'" ++ type_name v ++ "' object is not subscriptable"))
  end.

(** [result.get('data') and len(result['data']) > 0] *)
Definition has_data (result : json) : res bool :=
  let! data := py_get result "data" JNone in
  if truthy data then
    let! item := py_getitem result "data" in
    let! n := py_len item in
    Ok (n >? 0)
  else Ok false.

(** [if csv_row:] for the optional argument. *)
Definition row_given (csv_row : option row) : option row :=
  match csv_row with
  | Some [] => None
  | Some r => Some r
  | None => None
  end.

(** ** AutoTrader *)

Definition autotrader_main_url : string := "https://www.autotrader.com.au/".

Definition autotrader_get_cookies (net : network) : M trace bool :=
  catch
    (response <- session_get net autotrader_main_url [] get_default_headers ;;
     if status_code response =? 200 then ret true else ret false)
    (fun _ => ret false).

Definition base_url : string := "https://listings.platform.autotrader.com.au/api/v3/search".

Definition autotrader_retry_agent : string :=
  "Mozilla/5.0 (Windows NT 10.0; Win64; x64) AppleWebKit/537.36 (KHTML, like Gecko) Chrome/139.0.0.0 Safari/537.36 Edg/139.0.0.0".

Definition autotrader_search_vehicle (net : network) (stock_no dealer_id : string)
    (csv_row : option row) : M trace json :=
  ok <- autotrader_get_cookies net ;;
  if negb ok then ret JNone
  else
    add_delay 1 3 ;;
    let params := [("stock_no", stock_no); ("dealer_id", dealer_id)] in
    catch
      (let headers :=
         dict_set get_default_headers "referer" "https://www.autotrader.com.au/cars/search" in
       response <- session_get net base_url params headers ;;
       if status_code response =? 200 then
         result <- lift_res (json_body response) ;;
         found <- lift_res (has_data result) ;;
         if found then ret result
         else
           fallback <-
             match row_given csv_row with
             | Some csv_row =>
                 add_delay 1 2 ;;
                 let fallback_params := build_fallback_search_params csv_row dealer_id None in
                 fallback_response <- session_get net base_url fallback_params headers ;;
                 if status_code fallback_response =? 200 then
                   fallback_result <- lift_res (json_body fallback_response) ;;
                   fallback_found <- lift_res (has_data fallback_result) ;;
                   if fallback_found then ret (Some fallback_result) else ret None
                 else ret None
             | None => ret None
             end ;;
           match fallback with
           | Some fallback_result => ret fallback_result
           | None => ret result
           end
       else if status_code response =? 403 then
         sleep_uniform 5 8 ;;
         let headers := dict_set headers "user-agent" autotrader_retry_agent in
         _ <- autotrader_get_cookies net ;;
         response <- session_get net base_url params headers ;;
         if status_code response =? 200 then lift_res (json_body response)
         else ret JNone
       else ret JNone)
      (fun _ => ret JNone).

(** ** Carsguide *)

Definition carsguide_main_url : string := "https://www.carsguide.com.au/".

Definition carsguide_get_cookies (net : network) : M trace bool :=
  catch
    (response <- session_get net carsguide_main_url [] get_default_headers ;;
     if status_code response =? 200 then ret true else ret false)
    (fun _ => ret false).

Definition carsguide_retry_agent : string :=
  "Mozilla/5.0 (X11; Linux x86_64) AppleWebKit/537.36 (KHTML, like Gecko) Chrome/139.0.0.0 Safari/537.36".

Definition carsguide_search_vehicle (net : network) (stock_no dealer_id : string)
    (make : option string) (csv_row : option row) : M trace json :=
  ok <- carsguide_get_cookies net ;;
  if negb ok then ret JNone
  else
    add_delay 1 3 ;;
    let params :=
      [ ("stock_no", stock_no); ("dealer_id", dealer_id); ("source", "CG");
        ("ipLookup", "1"); ("sorting_variation", "smart_sort_3"); ("paginate", "26") ] in
    let params :=
      match make with
      | Some mk => if negb (String.eqb mk "") then dict_set params "make" mk else params
      | None => params
      end in
    catch
      (let headers := dict_set get_default_headers "referrer" "https://www.carsguide.com.au/" in
       let headers := dict_set headers "sec-fetch-site" "cross-site" in
       response <- session_get net base_url params headers ;;
       if status_code response =? 200 then
         result <- lift_res (json_body response) ;;
         found <- lift_res (has_data result) ;;
         if found then ret result
         else
           fallback <-
             match row_given csv_row with
             | Some csv_row =>
                 add_delay 1 2 ;;
                 let fallback_params :=
                   build_fallback_search_params csv_row dealer_id (Some "CG") in
                 fallback_response <- session_get net base_url fallback_params headers ;;
                 if status_code fallback_response =? 200 then
                   fallback_result <- lift_res (json_body fallback_response) ;;
                   fallback_found <- lift_res (has_data fallback_result) ;;
                   if fallback_found then ret (Some fallback_result) else ret None
                 else ret None
             | None => ret None
             end ;;
           match fallback with
           | Some fallback_result => ret fallback_result
           | None => ret result
           end
       else if status_code response =? 403 then
         sleep_uniform 5 8 ;;
         let headers := dict_set headers "user-agent" carsguide_retry_agent in
         _ <- carsguide_get_cookies net ;;
         response <- session_get net base_url params headers ;;
         if status_code response =? 200 then lift_res (json_body response)
         else ret JNone
       else ret JNone)
      (fun _ => ret JNone).

(** ** The requests of a lookup, by name *)

Definition autotrader_bootstrap : request :=
  Request autotrader_main_url [] get_default_headers.

Definition autotrader_headers : list (string * string) :=
  dict_set get_default_headers "referer" "https://www.autotrader.com.au/cars/search".

Definition autotrader_primary (stock_no dealer_id : string) : request :=
  Request base_url [("stock_no", stock_no); ("dealer_id", dealer_id)] autotrader_headers.

Definition autotrader_fallback (csv_row : row) (dealer_id : string) : request :=
  Request base_url (build_fallback_search_params csv_row dealer_id None) autotrader_headers.

Definition autotrader_retry (stock_no dealer_id : string) : request :=
  Request base_url [("stock_no", stock_no); ("dealer_id", dealer_id)]
          (dict_set autotrader_headers "user-agent" autotrader_retry_agent).

Definition carsguide_bootstrap : request :=
  Request carsguide_main_url [] get_default_headers.

Definition carsguide_headers : list (string * string) :=
  dict_set (dict_set get_default_headers "referrer" "https://www.carsguide.com.au/")
           "sec-fetch-site" "cross-site".

Definition carsguide_params (stock_no dealer_id : string) (make : option string)
  : list (string * string) :=
  let params :=
    [ ("stock_no", stock_no); ("dealer_id", dealer_id); ("source", "CG");
      ("ipLookup", "1"); ("sorting_variation", "smart_sort_3"); ("paginate", "26") ] in
  match make with
  | Some mk => if negb (String.eqb mk "") then dict_set params "make" mk else params
  | None => params
  end.

Definition carsguide_primary (stock_no dealer_id : string) (make : option string) : request :=
  Request base_url (carsguide_params stock_no dealer_id make) carsguide_headers.

Definition carsguide_fallback (csv_row : row) (dealer_id : string) : request :=
  Request base_url (build_fallback_search_params csv_row dealer_id (Some "CG"))
          carsguide_headers.

Definition carsguide_retry (stock_no dealer_id : string) (make : option string) : request :=
  Request base_url (carsguide_params stock_no dealer_id make)
          (dict_set carsguide_headers "user-agent" carsguide_retry_agent).

(** ** The protocol of a lookup, with its requests as parameters *)

(** Both clients follow one protocol (see [autotrader_is_lookup] and
    [carsguide_is_lookup] below); [fallback] is the fallback request when a
    row was given. *)
Definition send (net : network) (r : request) : M trace response :=
  fun tr => (create_session net tr r, EvGet r :: tr).

Definition lookup (net : network) (bootstrap primary retry : request)
    (fallback : option request) : M trace json :=
  ok <- catch (response <- send net bootstrap ;;
               if status_code response =? 200 then ret true else ret false)
              (fun _ => ret false) ;;
  if negb ok then ret JNone
  else
    add_delay 1 3 ;;
    catch
      (response <- send net primary ;;
       if status_code response =? 200 then
         result <- lift_res (json_body response) ;;
         found <- lift_res (has_data result) ;;
         if found then ret result
         else
           fallback_outcome <-
             match fallback with
             | Some fallback_request =>
                 add_delay 1 2 ;;
                 fallback_response <- send net fallback_request ;;
                 if status_code fallback_response =? 200 then
                   fallback_result <- lift_res (json_body fallback_response) ;;
                   fallback_found <- lift_res (has_data fallback_result) ;;
                   if fallback_found then ret (Some fallback_result) else ret None
                 else ret None
             | None => ret None
             end ;;
           match fallback_outcome with
           | Some fallback_result => ret fallback_result
           | None => ret result
           end
       else if status_code response =? 403 then
         sleep_uniform 5 8 ;;
         _ <- catch (response <- send net bootstrap ;;
                     if status_code response =? 200 then ret true else ret false)
                    (fun _ => ret false) ;;
         response <- send net retry ;;
         if status_code response =? 200 then lift_res (json_body response)
         else ret JNone
       else ret JNone)
      (fun _ => ret JNone).

(** The primary query of a lookup that starts after [tr0] succeeds and
    brings no listing. *)
Definition primary_empty (net : network) (tr0 : trace) (bootstrap primary : request)
    (result : json) : Prop :=
  exists resp0 resp1,
    net tr0 bootstrap = Ok resp0 /\ status_code resp0 = 200 /\
    net (EvSleep 1 3 :: EvGet bootstrap :: tr0) primary = Ok resp1 /\
    status_code resp1 = 200 /\
    json_body resp1 = Ok result /\ has_data result = Ok false.

End Provider.

(* ===================================================================== *)
(** * Batch loop over the CSV rows *)
(* ===================================================================== *)

Module Batch.
Import PyStr Py Reconcile Eff Http Provider.
Open Scope eff_scope.

(** The DataFrame: its rows in order, each with all the columns. *)
Definition frame : Type := list row.

(** The state of a batch run: the DataFrame and the events so far. *)
Definition state : Type := (frame * trace)%type.

Definition lift_net {A} (m : M trace A) : M state A :=
  fun st => let '(r, tr) := m (snd st) in (r, (fst st, tr)).

Fixpoint frame_set (df : frame) (index : nat) (col : string) (v : scalar) : frame :=
  match df, index with
  | r :: df', O => dict_set r col v :: df'
  | r :: df', S i => r :: frame_set df' i col v
  | [], _ => []
  end.

(** The cells of a column, from the first row on. *)
Definition column (df : frame) (col : string) : list scalar :=
  flat_map (fun r => match dict_get r col with Some a => [a] | None => [] end) df.

Definition is_bool (a : scalar) : bool := match a with SBool _ => true | _ => false end.

Definition is_int (a : scalar) : bool := match a with SInt _ => true | _ => false end.

(** A number or a boolean. *)
Definition is_number (a : scalar) : bool :=
  match a with SBool _ | SInt _ | SFloat _ => true | _ => false end.

(** The dtype of a column that holds no text, as pandas infers it when it
    reads the file: [bool] for booleans, [int64] for integers, [float64] as
    soon as a cell is a float, which is what an empty cell is read as.
    [None] stands for a column of strings or objects, that is, one with a
    text in it or one the program has added, and for a column that is not
    there. *)
Definition numeric_dtype (df : frame) (col : string) : option string :=
  match column df col with
  | [] => None
  | cells =>
      if forallb is_number cells then
        Some (if forallb is_bool cells then "bool"
              else if forallb is_int cells then "int64"
              else "float64")
      else None
  end.

(** [df.at[index, col] = value] for a text [value].  An assignment does not
    change the dtype of a column: a text that goes into a column of numbers
    or of booleans raises [TypeError] and leaves the frame as it was. *)
Definition df_at_set (index : nat) (col value : string) : M state unit :=
  fun st =>
    match numeric_dtype (fst st) col with
    | Some dtype =>
        (Raise (Exn "TypeError"
                  ("Invalid value '" ++ value ++ "' for dtype '" ++ dtype ++ "'")), st)
    | None => (Ok tt, (frame_set (fst st) index col (SStr value), snd st))
    end.

(** [if col not in df.columns: df[col] = ''] *)
Definition add_column (col : string) (df : frame) : frame :=
  List.map (fun r => if dict_has r col then r else dict_set r col (SStr "")) df.

(** [row.get(k, default)] *)
Definition row_get (r : row) (k : string) (default : scalar) : scalar :=
  match dict_get r k with Some v => v | None => default end.

(** [k in v] for a string [k] *)
Definition py_contains (k : string) (v : json) : res bool :=
  match v with
  | JDict d => Ok (dict_has d k)
  | JList l =>
      Ok (existsb (fun x => match x with JAtom (SStr s) => String.eqb s k | _ => false end) l)
  | JAtom (SStr s) => Ok (contains k s)
  | _ => Raise (Exn "TypeError" ("argument of type '" ++ type_name v ++ "' is not iterable"))
  end.

(** [v[0]] *)
Definition py_first (v : json) : res json :=
  match v with
  | JList (x :: _) => Ok x
  | JList [] => Raise (Exn "IndexError" "list index out of range")
  | JDict _ => Raise (Exn "KeyError" "0")
  | JAtom (SStr (String c _)) => Ok (JStr (String c EmptyString))
  | JAtom (SStr EmptyString) => Raise (Exn "IndexError" "string index out of range")
  | _ => Raise (Exn "TypeError" ("'" ++ type_name v ++ "' object is not subscriptable"))
  end.

Definition autotrader_extract_vehicle_data (api_data : json) : res json :=
  if negb (truthy api_data) then Ok JNone
  else
    let! has := py_contains "data" api_data in
    if negb has then Ok JNone
    else
      let! data := py_getitem api_data "data" in
      if negb (truthy data) then Ok JNone
      else
        let! first := py_first data in
        py_getitem first "_source".

Definition carsguide_extract_vehicle_data (api_data : json) : res json :=
  if negb (truthy api_data) then Ok JNone
  else
    let! has := py_contains "data" api_data in
    if negb has then Ok JNone
    else
      let! data := py_getitem api_data "data" in
      if negb (truthy data) then Ok JNone
      else
        let! first := py_first data in
        py_getitem first "_source".

(** [result and 'data' in result] *)
Definition usable_result (result : json) : res bool :=
  if truthy result then py_contains "data" result else Ok false.

(** Storing a derived URL in a cell.  With the site types of this loop
    [extract_vehicle_url] only gives strings (see [extract_vehicle_url_str]
    below), so the second case is never met. *)
Definition store_url (index : nat) (col : string) (url : json) : M state unit :=
  match url with
  | JAtom (SStr s) => df_at_set index col s
  | _ => raise (Exn "TypeError" "unsupported cell value")
  end.

(** "Process AutoTrader result": what the loop writes for the outcome of
    the AutoTrader lookup. *)
Definition process_autotrader_result (save_results : bool) (index : nat)
    (car_dict : row) (combined_stock_no : string) (autotrader_result : json)
  : M state unit :=
  usable <- lift_res (usable_result autotrader_result) ;;
  if usable then
    data <- lift_res (py_getitem autotrader_result "data") ;;
    n <- lift_res (py_len data) ;;
    if n =? 0 then
      df_at_set index "Autotrader" "Not Found" ;;
      df_at_set index "Autotrader Notes" "Vehicle not found in AutoTrader API" ;;
      df_at_set index "Autotrader URL" ""
    else
      (if save_results then
         lift_net (save_json_file autotrader_result ("autotrader_" ++ combined_stock_no))
       else ret tt) ;;
      autotrader_vehicle_data <- lift_res (autotrader_extract_vehicle_data autotrader_result) ;;
      cmp <- lift_res (autotrader_compare_data car_dict autotrader_vehicle_data) ;;
      let '(at_status, at_mismatches) := cmp in
      at_url <- lift_res (extract_vehicle_url autotrader_vehicle_data "autotrader") ;;
      df_at_set index "Autotrader" at_status ;;
      df_at_set index "Autotrader Notes" (String.concat "; " at_mismatches) ;;
      store_url index "Autotrader URL" at_url
  else
    df_at_set index "Autotrader" "API Error" ;;
    df_at_set index "Autotrader Notes" "Failed to retrieve data from AutoTrader API" ;;
    df_at_set index "Autotrader URL" "".

(** "Process Carsguide result" *)
Definition process_carsguide_result (save_results : bool) (index : nat)
    (car_dict : row) (combined_stock_no : string) (carsguide_result : json)
  : M state unit :=
  usable <- lift_res (usable_result carsguide_result) ;;
  if usable then
    data <- lift_res (py_getitem carsguide_result "data") ;;
    n <- lift_res (py_len data) ;;
    if n =? 0 then
      df_at_set index "Carsguide" "Not Found" ;;
      df_at_set index "Carsguide Notes" "Vehicle not found in Carsguide API" ;;
      df_at_set index "Carsguide URL" ""
    else
      (if save_results then
         lift_net (save_json_file carsguide_result ("carsguide_" ++ combined_stock_no))
       else ret tt) ;;
      carsguide_vehicle_data <- lift_res (carsguide_extract_vehicle_data carsguide_result) ;;
      cmp <- lift_res (carsguide_compare_data car_dict carsguide_vehicle_data) ;;
      let '(cg_status, cg_mismatches) := cmp in
      cg_url <- lift_res (extract_vehicle_url carsguide_vehicle_data "carsguide") ;;
      df_at_set index "Carsguide" cg_status ;;
      df_at_set index "Carsguide Notes" (String.concat "; " cg_mismatches) ;;
      store_url index "Carsguide URL" cg_url
  else
    df_at_set index "Carsguide" "API Error" ;;
    df_at_set index "Carsguide Notes" "Failed to retrieve data from Carsguide API" ;;
    df_at_set index "Carsguide URL" "".

(** What the loop writes for a row it does not search. *)
Definition record_not_searched (index : nat) : M state unit :=
  df_at_set index "Autotrader" "Not Searched" ;;
  df_at_set index "Autotrader Notes" "Missing Year or StockNo" ;;
  df_at_set index "Autotrader URL" "" ;;
  df_at_set index "Carsguide" "Not Searched" ;;
  df_at_set index "Carsguide Notes" "Missing Year or StockNo" ;;
  df_at_set index "Carsguide URL" "".

(** The body of the [try] of one turn of the loop. *)
Definition process_row_body (net : network) (save_results : bool)
    (index : nat) (row : row) : M state unit :=
  let year := str_scalar (row_get row "Year" (SStr "")) in
  let stock_no := str_scalar (row_get row "StockNo" (SStr "")) in
  let make := str_scalar (row_get row "Make" (SStr "")) in
  if negb (truthy_scalar (SStr year)) || negb (truthy_scalar (SStr stock_no))
     || pd_isna (SStr year) || pd_isna (SStr stock_no) then
    record_not_searched index
  else
    let combined_stock_no := year ++ stock_no in
    let dealer_id := "12751" in
    let car_dict := row in
    (* --- Search AutoTrader --- *)
    autotrader_result <-
      lift_net (autotrader_search_vehicle net combined_stock_no dealer_id (Some car_dict)) ;;
    process_autotrader_result save_results index car_dict combined_stock_no
                              autotrader_result ;;
    lift_net (add_delay 1 2) ;;
    (* --- Search Carsguide --- *)
    carsguide_result <-
      lift_net (carsguide_search_vehicle net combined_stock_no dealer_id
                  (if truthy_scalar (SStr make) && negb (pd_isna (SStr make))
                   then Some make else None)
                  (Some car_dict)) ;;
    process_carsguide_result save_results index car_dict combined_stock_no
                             carsguide_result ;;
    lift_net (add_delay 1 2).

(** The [except Exception as e:] of the loop. *)
Definition record_error (index : nat) (e : exn) : M state unit :=
  df_at_set index "Autotrader" "Error" ;;
  df_at_set index "Autotrader Notes" ("Error processing: " ++ exn_msg e) ;;
  df_at_set index "Autotrader URL" "" ;;
  df_at_set index "Carsguide" "Error" ;;
  df_at_set index "Carsguide Notes" ("Error processing: " ++ exn_msg e) ;;
  df_at_set index "Carsguide URL" "".

(** One turn of [for index, row in df.iterrows():]. *)
Definition process_row (net : network) (save_results : bool)
    (index : nat) (row : row) : M state unit :=
  catch (process_row_body net save_results index row) (record_error index).

(** The loop, over the rows as they were when it started. *)
Fixpoint process_rows (net : network) (save_results : bool)
    (index : nat) (rows : list row) : M state unit :=
  match rows with
  | row :: rest =>
      process_row net save_results index row ;;
      process_rows net save_results (S index) rest
  | [] => ret tt
  end.

Definition add_output_columns (df : frame) : frame :=
  add_column "Carsguide URL"
    (add_column "Carsguide Notes"
       (add_column "Carsguide"
          (add_column "Autotrader URL"
             (add_column "Autotrader Notes"
                (add_column "Autotrader" df))))).

(** [process_csv_file], from the loaded DataFrame to the one that is saved,
    with the events of the run. *)
Definition process_csv_file (net : network) (save_results : bool) (df : frame)
  : res unit * state :=
  let df := add_output_columns df in
  process_rows net save_results 0 df (df, []).

End Batch.

(* ===================================================================== *)
(** * The reconciliation engine over a store of objects *)
(* ===================================================================== *)

(** The same function once more, this time with its arguments as
    references into a store of mutable objects, so that what it reads,
    allocates and updates is explicit.  [Store.autotrader_compare_data] is
    related to [Reconcile.autotrader_compare_data] below. *)

Module Store.
Import PyStr Py Reconcile Eff.
Open Scope eff_scope.

Inductive obj : Type :=
| ORow (r : row)            (* a dict of CSV cells *)
| OJson (v : json)          (* a value from an API response *)
| OList (l : list string).  (* a list of str *)

(** An object lives at its position in the store. *)
Definition loc : Type := nat.
Definition heap : Type := list obj.

Fixpoint update (h : heap) (l : loc) (o : obj) : heap :=
  match h, l with
  | _ :: h', O => o :: h'
  | x :: h', S l' => x :: update h' l' o
  | [], _ => []
  end.

Definition dangling {A} : M heap A := raise (Exn "SystemError" "dangling reference").

Definition alloc (o : obj) : M heap loc :=
  fun h => (Ok (List.length h), (h ++ [o])%list).

Definition read_row (l : loc) : M heap row :=
  fun h => match nth_error h l with
           | Some (ORow r) => (Ok r, h)
           | _ => dangling h
           end.

Definition read_json (l : loc) : M heap json :=
  fun h => match nth_error h l with
           | Some (OJson v) => (Ok v, h)
           | _ => dangling h
           end.

Definition read_list (l : loc) : M heap (list string) :=
  fun h => match nth_error h l with
           | Some (OList xs) => (Ok xs, h)
           | _ => dangling h
           end.

(** [xs.append(s)] on the list object at [l]. *)
Definition list_append (l : loc) (s : string) : M heap unit :=
  fun h => match nth_error h l with
           | Some (OList xs) => (Ok tt, update h l (OList (xs ++ [s])))
           | _ => dangling h
           end.

Fixpoint for_each {A} (body : A -> M heap unit) (items : list A) : M heap unit :=
  match items with
  | x :: rest => body x ;; for_each body rest
  | [] => ret tt
  end.

Definition autotrader_compare_field (csv_data vehicle_data mismatched : loc)
    (field : string * list string) : M heap unit :=
  let '(csv_field, api_path) := field in
  csv <- read_row csv_data ;;
  match dict_get csv csv_field with
  | Some cell =>
      if truthy_scalar cell then
        vehicle <- read_json vehicle_data ;;
        let api_value := api_path_value vehicle api_path in
        if String.eqb csv_field "Price" && negb (is_none api_value) && truthy_scalar cell then
          match py_int (remove_commas (strip (str_scalar cell))) with
          | Some csv_price =>
              match py_int (remove_commas (strip (py_str api_value))) with
              | Some api_price =>
                  if Z.abs (csv_price - api_price) >? 100 then
                    list_append mismatched
                      (csv_field ++ ": CSV=" ++ str_of_Z csv_price
                         ++ ", API=" ++ str_of_Z api_price)
                  else ret tt
              | None => list_append mismatched (csv_field ++ ": Couldn't compare")
              end
          | None => list_append mismatched (csv_field ++ ": Couldn't compare")
          end
        else if negb (is_none api_value) then
          let csv_value := strip (str_scalar cell) in
          let api_value_str := strip (py_str api_value) in
          if negb (String.eqb (lower csv_value) (lower api_value_str)) then
            list_append mismatched
              (csv_field ++ ": CSV=" ++ csv_value ++ ", API=" ++ api_value_str)
          else ret tt
        else ret tt
      else ret tt
  | None => ret tt
  end.

(** The result is the status and a reference to the list of notes. *)
Definition autotrader_compare_data (csv_data vehicle_data : loc) : M heap (string * loc) :=
  vehicle <- read_json vehicle_data ;;
  if negb (truthy vehicle) then
    (empty <- alloc (OList []) ;; ret ("Not Found", empty))
  else
    status <- lift_res (py_get vehicle "status" JNone) ;;
    early <- lift_res
      (if truthy status then
         let! low := py_lower status in
         if negb (String.eqb low "live") then
           if String.eqb low "sold" then Ok (Some "Sold")
           else if String.eqb low "on offer" then Ok (Some "On Offer")
           else Ok None
         else Ok None
       else Ok None) ;;
    match early with
    | Some verdict => empty <- alloc (OList []) ;; ret (verdict, empty)
    | None =>
        mismatched <- alloc (OList []) ;;
        for_each (autotrader_compare_field csv_data vehicle_data mismatched)
                 autotrader_comparison_fields ;;
        notes <- read_list mismatched ;;
        match notes with
        | _ :: _ => ret ("Mismatched", mismatched)
        | [] => empty <- alloc (OList []) ;; ret ("Found", empty)
        end
    end.

(** What a caller sees of a result: the status and the notes in the list
    the reference leads to. *)
Definition observe (out : res (string * loc) * heap) : res (string * list string) :=
  match out with
  | (Ok (status, l), h) =>
      match nth_error h l with
      | Some (OList notes) => Ok (status, notes)
      | _ => Raise (Exn "SystemError" "dangling reference")
      end
  | (Raise e, _) => Raise e
  end.

End Store.

(* ===================================================================== *)
(** * Vocabulary for the provider clients *)
(* ===================================================================== *)

Module ProviderSpec.
Import PyStr Py Reconcile Eff Http Provider.

(** The text a cell is sent as. *)
Definition sent_text (cell : scalar) : string := strip (str_scalar cell).

(** The integer a cell is read as. *)
Definition read_int (cell : scalar) : option Z :=
  py_int (remove_commas (strip (str_scalar cell))).

(** The steps of [build_fallback_search_params], one function each. *)
Definition step_source (source : option string) (p : list (string * string)) :=
  match source with
  | Some src => if negb (String.eqb src "") then dict_set p "source" src else p
  | None => p
  end.

Definition step_text (o : option scalar) (k : string) (p : list (string * string)) :=
  match o with
  | Some cell => dict_set p k (strip (str_scalar cell))
  | None => p
  end.

Definition step_range (o : option scalar) (k1 k2 : string) (p : list (string * string)) :=
  match o with
  | Some cell =>
      match py_int (remove_commas (strip (str_scalar cell))) with
      | Some n => dict_set (dict_set p k1 (str_of_Z (n - 100))) k2 (str_of_Z (n + 100))
      | None => p
      end
  | None => p
  end.

Definition range_of (cell : option scalar) (delta : Z) : option string :=
  match cell with
  | Some c => option_map (fun n => str_of_Z (n + delta)) (read_int c)
  | None => None
  end.

(** The courses a lookup can take, each with its events, the newest first:
    no cookies; a primary query and nothing after it; an empty primary query
    and the fallback query. *)
Definition lookup_courses (bootstrap primary : request) (fallback : option request)
  : list trace :=
  [ [EvGet bootstrap];
    [EvGet primary; EvSleep 1 3; EvGet bootstrap] ]
  ++ match fallback with
     | Some fallback_request =>
         [[EvGet fallback_request; EvSleep 1 2; EvGet primary; EvSleep 1 3; EvGet bootstrap]]
     | None => []
     end.

(** A client: its lookup and the requests the lookup can send. *)
Record client : Type := Client {
  run : M trace json;
  bootstrap : request;
  primary : request;
  retry : request;
  fallback : option request
}.

Definition autotrader_client (net : network) (stock_no dealer_id : string)
    (csv_row : option row) : client :=
  Client (autotrader_search_vehicle net stock_no dealer_id csv_row)
         autotrader_bootstrap
         (autotrader_primary stock_no dealer_id)
         (autotrader_retry stock_no dealer_id)
         (option_map (fun r => autotrader_fallback r dealer_id) (row_given csv_row)).

Definition carsguide_client (net : network) (stock_no dealer_id : string)
    (make : option string) (csv_row : option row) : client :=
  Client (carsguide_search_vehicle net stock_no dealer_id make csv_row)
         carsguide_bootstrap
         (carsguide_primary stock_no dealer_id make)
         (carsguide_retry stock_no dealer_id make)
         (option_map (fun r => carsguide_fallback r dealer_id) (row_given csv_row)).

End ProviderSpec.

(* ===================================================================== *)
(** * Vocabulary for the batch loop *)
(* ===================================================================== *)

Module BatchSpec.
Import PyStr Py Reconcile Eff Http Provider Batch.
Implicit Types (df : frame) (r : row) (index : nat) (col : string).

(** The result columns. *)
Definition autotrader_columns : list string :=
  ["Autotrader"; "Autotrader Notes"; "Autotrader URL"].

Definition carsguide_columns : list string :=
  ["Carsguide"; "Carsguide Notes"; "Carsguide URL"].

Definition result_columns : list string := autotrader_columns ++ carsguide_columns.

(** The values a status column can take. *)
Definition statuses : list string :=
  [ "Not Searched"; "Not Found"; "API Error"; "Error";
    "Found"; "Mismatched"; "Sold"; "On Offer" ].

(** [df'] is [df] but for the columns [cols] of row [index]. *)
Definition same_but (cols : list string) index df df' : Prop :=
  List.length df' = List.length df /\
  forall j r, nth_error df j = Some r ->
    exists r', nth_error df' j = Some r' /\
               (j <> index -> r' = r) /\
               (forall k, ~ In k cols -> dict_get r' k = dict_get r k).

(** Row [index], if there is one, has a status in column [col]. *)
Definition explicit index col df : Prop :=
  forall r, nth_error df index = Some r ->
    exists s, dict_get r col = Some (SStr s) /\ In s statuses.

(** Row [j] of [df'] is row [j] of [df] but for the result columns. *)
Definition row_kept (df df' : frame) (j : nat) : Prop :=
  forall r, nth_error df j = Some r ->
    exists r', nth_error df' j = Some r' /\
               forall k, ~ In k result_columns -> dict_get r' k = dict_get r k.

Definition row_explicit (df' : frame) (j : nat) : Prop :=
  explicit j "Autotrader" df' /\ explicit j "Carsguide" df'.

(** [df'] has the columns of [df], each with the dtype it has in [df]. *)
Definition dtypes_kept df df' : Prop :=
  forall col, numeric_dtype df' col = numeric_dtype df col.

(** The six result columns are columns of strings. *)
Definition text_columns df : bool :=
  forallb (fun col => match numeric_dtype df col with None => true | Some _ => false end)
          result_columns.

(** The frame after six cells of row [index] have been written. *)
Definition six_cells index (a an au c cn cu : string) df : frame :=
  frame_set
    (frame_set
       (frame_set
          (frame_set
             (frame_set (frame_set df index "Autotrader" (SStr a))
                index "Autotrader Notes" (SStr an))
             index "Autotrader URL" (SStr au))
          index "Carsguide" (SStr c))
       index "Carsguide Notes" (SStr cn))
    index "Carsguide URL" (SStr cu).

(** The frame after the three cells of a provider have been written. *)
Definition three_cells index (c1 c2 c3 v1 v2 v3 : string) df : frame :=
  frame_set (frame_set (frame_set df index c1 (SStr v1)) index c2 (SStr v2))
    index c3 (SStr v3).

End BatchSpec.

(* ===================================================================== *)
(** * Rows, listings and networks used as examples *)
(* ===================================================================== *)

Module Examples.
Import PyStr Py Reconcile Eff Http Provider Batch.
Import Store.

Definition csv_20000 : row := [("Model", SStr "Corolla"); ("Price", SStr "20,000")].

Definition listing_priced (price : Z) : list (string * json) :=
  [ ("status", JStr "live"); ("model", JStr "corolla");
    ("price", JDict [("advertised_price", JAtom (SInt price))]) ].

Definition csv_priced : row := [("Model", SStr "Corolla"); ("Price", SInt 20000)].

Definition listing_unpriced : list (string * json) :=
  [("status", JStr "Live"); ("model", JStr "COROLLA")].

Definition csv_corolla : row :=
  [ ("Model", SStr "Corolla"); ("Fuel", SStr "Petrol"); ("Price", SInt 20000) ].

Definition listing_other_car (status : string) : list (string * json) :=
  [ ("status", JStr status); ("model", JStr "Camry");
    ("vehicle", JDict [("fuel_type", JStr "Diesel")]);
    ("price", JDict [("advertised_price", JAtom (SInt 35000))]) ].

Definition csv_manual : row := [("Transmission", SStr "Manual"); ("Tansmission", SStr "Manual")].

Definition listing_vehicle_group : json :=
  JDict [ ("status", JStr "live");
          ("vehicle", JDict [("transmission_type", JStr "Automatic")]) ].

Definition store_example : heap :=
  [ OList ["kept"];
    ORow [("Model", SStr "Corolla"); ("Price", SInt 20000)];
    OJson (JDict [ ("status", JStr "live"); ("model", JStr "Camry");
                   ("price", JDict [("advertised_price", JAtom (SInt 20050))]) ]) ].

Definition not_json : exn := Exn "JSONDecodeError" "Expecting value: line 1 column 1 (char 0)".

Definition listing_live : json :=
  JDict [ ("status", JStr "live"); ("model", JStr "Corolla"); ("url", JStr "cars/123") ].

Definition one_listing : json := JDict [("data", JList [JDict [("_source", listing_live)]])].

Definition no_listing : json := JDict [("data", JList [])].

Definition is_long_pause (ev : event) : bool :=
  match ev with
  | EvSleep lo hi => (lo =? 5) && (hi =? 8)
  | _ => false
  end.

(** A server whose last word on a search is a 403 until the client has
    paused for 5 to 8, and one listing afterwards. *)
Definition net_refuses_once : network :=
  fun tr r =>
    if String.eqb (req_url r) base_url then
      if existsb is_long_pause tr then Ok (Response 200 (Ok one_listing))
      else Ok (Response 403 (Raise not_json))
    else Ok (Response 200 (Raise not_json)).

Definition row_2020 : row :=
  [ ("Year", SInt 2020); ("StockNo", SStr "A1"); ("Make", SStr "Toyota");
    ("Model", SStr "Corolla"); ("Price", SStr "20,000"); ("KM", SInt 35000) ].

(** A server where the search by stock number finds nothing and whose last
    word on every other search is a 500. *)
Definition net_fallback_down : network :=
  fun tr r =>
    if String.eqb (req_url r) base_url then
      if dict_has (req_params r) "stock_no" then Ok (Response 200 (Ok no_listing))
      else Ok (Response 500 (Raise not_json))
    else Ok (Response 200 (Raise not_json)).

(** A network where the search by stock number finds nothing and every
    other search is answered with a 404. *)
Definition net_fallback_missing : network :=
  fun tr r =>
    if String.eqb (req_url r) base_url then
      if dict_has (req_params r) "stock_no" then Ok (Response 200 (Ok no_listing))
      else Ok (Response 404 (Raise not_json))
    else Ok (Response 200 (Raise not_json)).

(** A network whose searches by stock number are answered with an empty
    object. *)
Definition net_empty_object : network :=
  fun tr r =>
    if String.eqb (req_url r) base_url then
      if dict_has (req_params r) "stock_no" then Ok (Response 200 (Ok (JDict [])))
      else Ok (Response 404 (Raise not_json))
    else Ok (Response 200 (Raise not_json)).

Definition row_new_car : row :=
  [ ("Year", SInt 2024); ("StockNo", SStr "N7"); ("Make", SStr " Toyota");
    ("Price", SInt 0); ("KM", SInt 0) ].

(** A network whose search answers have no list of listings. *)
Definition net_null_data : network :=
  fun tr r =>
    if String.eqb (req_url r) base_url then Ok (Response 200 (Ok (JDict [("data", JNone)])))
    else Ok (Response 200 (Raise not_json)).

Definition frame_2020 : frame := add_output_columns [row_2020].

Definition row_2020_loaded : row := List.hd [] frame_2020.

(** What pandas gives for a CSV line whose Year cell is empty. *)
Definition row_nan_year : row :=
  [ ("Year", SFloat "nan"); ("StockNo", SStr "A123"); ("Make", SStr "Toyota");
    ("Model", SStr "Corolla") ].

(** What pandas gives for a line of a CSV file that already has the six
    result columns, all of them empty. *)
Definition row_2020_again : row :=
  (row_2020 ++
   [ ("Autotrader", SFloat "nan"); ("Autotrader Notes", SFloat "nan");
     ("Autotrader URL", SFloat "nan"); ("Carsguide", SFloat "nan");
     ("Carsguide Notes", SFloat "nan"); ("Carsguide URL", SFloat "nan") ])%list.

(** A network that has the same listing for every search. *)
Definition net_one_listing : network :=
  fun tr r =>
    if String.eqb (req_url r) base_url then Ok (Response 200 (Ok one_listing))
    else Ok (Response 200 (Raise not_json)).

Definition searched (ev : event) : option (list (string * string)) :=
  match ev with
  | EvGet r => if String.eqb (req_url r) base_url then Some (req_params r) else None
  | _ => None
  end.

End Examples.

(* ===================================================================== *)
(** * Display of one listing *)
(* ===================================================================== *)

Module Display.
Import PyStr Py Reconcile.

(** The line feed and the carriage return. *)
Definition LF : string := String (ascii_of_N 10) EmptyString.
Definition CR : string := String (ascii_of_N 13) EmptyString.

(** [s * n] *)
Fixpoint times (s : string) (n : nat) : string :=
  match n with
  | O => EmptyString
  | S n' => s ++ times s n'
  end.

(** [s.center(width)]: the blanks that do not split evenly go to the right
    when [width] is even, as it is here. *)
Definition center (s : string) (width : nat) : string :=
  let n := String.length s in
  if (width <=? n)%nat then s
  else
    let marg := (width - n)%nat in
    let left := (marg / 2 + (if Nat.odd marg && Nat.odd width then 1 else 0))%nat in
    times " " left ++ s ++ times " " (marg - left).

(** [s.replace(old, new)] for a non-empty [old]: the occurrences are taken
    from the left and do not overlap; [skip] counts the characters of a
    replaced occurrence still to pass. *)
Fixpoint replace_from (old new s : string) (skip : nat) : string :=
  match s with
  | String c s' =>
      match skip with
      | S k => replace_from old new s' k
      | O =>
          if String.prefix old s
          then new ++ replace_from old new s' (String.length old - 1)
          else String c (replace_from old new s' 0)
      end
  | EmptyString => EmptyString
  end.

Definition replace (old new s : string) : string := replace_from old new s 0.

(** [v.replace(old, new)]: only a str has the method. *)
Definition py_replace (v : json) (old new : string) : res string :=
  match v with
  | JAtom (SStr s) => Ok (replace old new s)
  | _ => Raise (Exn "AttributeError" ("'" ++ type_name v ++ "' object has no attribute 'replace'"))
  end.

(** A comma before every group of three digits, counted from the right. *)
Fixpoint group_digits (digits : string) : string :=
  match digits with
  | String c rest =>
      let n := String.length rest in
      if (0 <? n)%nat && (n mod 3 =? 0)%nat
      then String c (String "," (group_digits rest))
      else String c (group_digits rest)
  | EmptyString => EmptyString
  end.

(** The digits a text starts with, and what follows them. *)
Fixpoint leading_digits (s : string) : string * string :=
  match s with
  | String c s' =>
      match digit_of c with
      | Some _ => let '(d, rest) := leading_digits s' in (String c d, rest)
      | None => (EmptyString, s)
      end
  | EmptyString => (EmptyString, EmptyString)
  end.

(** The thousands separators of [format(x, ',')] in the text of a number:
    after the sign, in the digits before the point or the exponent. *)
Definition group_number (text : string) : string :=
  match text with
  | String "-" r => let '(d, rest) := leading_digits r in "-" ++ group_digits d ++ rest
  | _ => let '(d, rest) := leading_digits text in group_digits d ++ rest
  end.

(** [format(v, ',')], the [{...:,}] of an f-string: numbers only; a bool
    counts as the integer it is. *)
Definition format_comma (v : json) : res string :=
  match v with
  | JAtom (SInt z) => Ok (group_number (str_of_Z z))
  | JAtom (SBool b) => Ok (if b then "1" else "0")
  | JAtom (SFloat t) => Ok (group_number t)
  | JAtom (SStr _) => Raise (Exn "ValueError" "Cannot specify ',' with 's'.")
  | _ => Raise (Exn "TypeError"
                  ("unsupported format string passed to " ++ type_name v ++ ".__format__"))
  end.

Definition na : json := JStr "N/A".

(** [details.append(line)] *)
Definition add_line (details : list string) (line : string) : list string :=
  (details ++ [line])%list.

(** [len(description) > max_desc_length] and the cut that follows. *)
Definition truncate_description (description : string) : string :=
  let max_desc_length := 500%nat in
  if (max_desc_length <? String.length description)%nat
  then substring 0 max_desc_length description ++ "... [Description truncated]"
  else description.

Definition escaped_crlf : string := "\r\n".

Definition autotrader_format_vehicle_details (vehicle_data : json) : res string :=
  if negb (truthy vehicle_data) then Ok "No vehicle data available"
  else
    let details := [LF ++ times "=" 60] in
    let! stock_no := py_get vehicle_data "stock_no" na in
    let details := add_line details (center ("VEHICLE DETAILS - Stock #" ++ py_str stock_no) 60) in
    let details := add_line details (times "=" 60) in
    let! make := py_get vehicle_data "make" na in
    let details := add_line details ("Make:           " ++ py_str make) in
    let! model := py_get vehicle_data "model" na in
    let details := add_line details ("Model:          " ++ py_str model) in
    let! variant := py_get vehicle_data "variant" na in
    let details := add_line details ("Variant:        " ++ py_str variant) in
    let! manu_year := py_get vehicle_data "manu_year" na in
    let details := add_line details ("Year:           " ++ py_str manu_year) in
    let! price := py_get vehicle_data "price" (JDict []) in
    let! advertised_price := py_get price "advertised_price" na in
    let! price_text := format_comma advertised_price in
    let details := add_line details ("Price:          $" ++ price_text) in
    let! colour_body := py_get vehicle_data "colour_body" na in
    let details := add_line details ("Color:          " ++ py_str colour_body) in
    let! odometer := py_get vehicle_data "odometer" na in
    let! odometer_text := format_comma odometer in
    let details := add_line details ("Odometer:       " ++ odometer_text ++ " km") in
    let! rego := py_get vehicle_data "rego" na in
    let details := add_line details ("Registration:   " ++ py_str rego) in
    let! vin := py_get vehicle_data "vin" na in
    let details := add_line details ("VIN:            " ++ py_str vin) in
    let! location_city := py_get vehicle_data "location_city" na in
    let! location_state := py_get vehicle_data "location_state" na in
    let details :=
      add_line details ("Location:       " ++ py_str location_city ++ ", " ++ py_str location_state) in
    (* Get vehicle specifications *)
    let! vehicle_specs := py_get vehicle_data "vehicle" (JDict []) in
    let! details :=
      (if truthy vehicle_specs then
         let details := add_line details (LF ++ times "-" 60) in
         let details := add_line details (center "SPECIFICATIONS" 60) in
         let details := add_line details (times "-" 60) in
         let! body_type := py_get vehicle_specs "body_type" na in
         let details := add_line details ("Body Type:      " ++ py_str body_type) in
         let! transmission_type := py_get vehicle_specs "transmission_type" na in
         let details := add_line details ("Transmission:   " ++ py_str transmission_type) in
         let! fuel_type := py_get vehicle_specs "fuel_type" na in
         let details := add_line details ("Fuel Type:      " ++ py_str fuel_type) in
         let! engine_size := py_get vehicle_specs "engine_size" na in
         let details := add_line details ("Engine Size:    " ++ py_str engine_size ++ " L") in
         let! cylinders := py_get vehicle_specs "cylinders" na in
         let details := add_line details ("Cylinders:      " ++ py_str cylinders) in
         let! drive_type := py_get vehicle_specs "drive_type" na in
         let details := add_line details ("Drive Type:     " ++ py_str drive_type) in
         let! seats := py_get vehicle_specs "seats" na in
         let details := add_line details ("Seats:          " ++ py_str seats) in
         let! doors := py_get vehicle_specs "doors" na in
         Ok (add_line details ("Doors:          " ++ py_str doors))
       else Ok details) in
    (* Description *)
    let! has_description := py_get vehicle_data "description" JNone in
    let! details :=
      (if truthy has_description then
         let details := add_line details (LF ++ times "-" 60) in
         let details := add_line details (center "DESCRIPTION" 60) in
         let details := add_line details (times "-" 60) in
         let! raw := py_get vehicle_data "description" na in
         let! unescaped := py_replace raw escaped_crlf LF in
         let description := replace (CR ++ LF) LF unescaped in
         Ok (add_line details (truncate_description description))
       else Ok details) in
    let details := add_line details (LF ++ times "=" 60) in
    Ok (String.concat LF details).

Definition carsguide_format_vehicle_details (vehicle_data : json) : res string :=
  if negb (truthy vehicle_data) then Ok "No vehicle data available"
  else
    let details := [LF ++ times "=" 60] in
    let! stock_no := py_get vehicle_data "stock_no" na in
    let details :=
      add_line details (center ("CARSGUIDE VEHICLE DETAILS - Stock #" ++ py_str stock_no) 60) in
    let details := add_line details (times "=" 60) in
    let! make := py_get vehicle_data "make" na in
    let details := add_line details ("Make:           " ++ py_str make) in
    let! model := py_get vehicle_data "model" na in
    let details := add_line details ("Model:          " ++ py_str model) in
    let! variant := py_get vehicle_data "variant" na in
    let details := add_line details ("Variant:        " ++ py_str variant) in
    let! manu_year := py_get vehicle_data "manu_year" na in
    let details := add_line details ("Year:           " ++ py_str manu_year) in
    let! price := py_get vehicle_data "price" (JDict []) in
    let! advertised_price := py_get price "advertised_price" na in
    let! price_text := format_comma advertised_price in
    let details := add_line details ("Price:          $" ++ price_text) in
    let! colour_body := py_get vehicle_data "colour_body" na in
    let details := add_line details ("Color:          " ++ py_str colour_body) in
    let! odometer := py_get vehicle_data "odometer" na in
    let! odometer_text := format_comma odometer in
    let details := add_line details ("Odometer:       " ++ odometer_text ++ " km") in
    let! rego := py_get vehicle_data "rego" na in
    let details := add_line details ("Registration:   " ++ py_str rego) in
    let! vin := py_get vehicle_data "vin" na in
    let details := add_line details ("VIN:            " ++ py_str vin) in
    let! location_city := py_get vehicle_data "location_city" na in
    let! location_state := py_get vehicle_data "location_state" na in
    let details :=
      add_line details ("Location:       " ++ py_str location_city ++ ", " ++ py_str location_state) in
    (* Get vehicle specifications *)
    let! vehicle_specs := py_get vehicle_data "vehicle" (JDict []) in
    let! details :=
      (if truthy vehicle_specs then
         let details := add_line details (LF ++ times "-" 60) in
         let details := add_line details (center "SPECIFICATIONS" 60) in
         let details := add_line details (times "-" 60) in
         let! body_type := py_get vehicle_specs "body_type" na in
         let details := add_line details ("Body Type:      " ++ py_str body_type) in
         let! transmission_type := py_get vehicle_specs "transmission_type" na in
         let details := add_line details ("Transmission:   " ++ py_str transmission_type) in
         let! fuel_type := py_get vehicle_specs "fuel_type" na in
         let details := add_line details ("Fuel Type:      " ++ py_str fuel_type) in
         let! engine_size := py_get vehicle_specs "engine_size" na in
         let details := add_line details ("Engine Size:    " ++ py_str engine_size ++ " L") in
         let! cylinders := py_get vehicle_specs "cylinders" na in
         let details := add_line details ("Cylinders:      " ++ py_str cylinders) in
         let! drive_type := py_get vehicle_specs "drive_type" na in
         let details := add_line details ("Drive Type:     " ++ py_str drive_type) in
         let! seats := py_get vehicle_specs "seats" na in
         let details := add_line details ("Seats:          " ++ py_str seats) in
         let! doors := py_get vehicle_specs "doors" na in
         Ok (add_line details ("Doors:          " ++ py_str doors))
       else Ok details) in
    (* Description *)
    let! has_description := py_get vehicle_data "description" JNone in
    let! details :=
      (if truthy has_description then
         let details := add_line details (LF ++ times "-" 60) in
         let details := add_line details (center "DESCRIPTION" 60) in
         let details := add_line details (times "-" 60) in
         let! raw := py_get vehicle_data "description" na in
         let! unescaped := py_replace raw escaped_crlf LF in
         let description := replace (CR ++ LF) LF unescaped in
         Ok (add_line details (truncate_description description))
       else Ok details) in
    let details := add_line details (LF ++ times "=" 60) in
    Ok (String.concat LF details).

End Display.

(* ===================================================================== *)
(** * Command line *)
(* ===================================================================== *)

Module Cli.
Import PyStr Py Reconcile Eff Http Provider Batch Display.
Open Scope eff_scope.

(** What [parser.parse_args()] gives. *)
Record args : Type := Args {
  args_csv : option string;
  args_stock_no : option string;
  args_api : string;
  args_make : option string;
  args_save : bool;
  args_output : option string;
  args_verbose : bool;
  args_dealer_id : string
}.

(** [if x:] for an optional text. *)
Definition given (x : option string) : bool :=
  match x with
  | Some s => negb (String.eqb s "")
  | None => false
  end.

(** What is written to the standard output. *)
Inductive printed : Type :=
| Printed (text : string)
| Help.

(** The state of a single search: the events and the output so far, the
    newest first. *)
Definition world : Type := (trace * list printed)%type.

Definition on_net {A} (m : M trace A) : M world A :=
  fun w => let '(r, tr) := m (fst w) in (r, (tr, snd w)).

Definition print (text : string) : M world unit :=
  fun w => (Ok tt, (fst w, Printed text :: snd w)).

Definition print_help : M world unit :=
  fun w => (Ok tt, (fst w, Help :: snd w)).

(** [result and 'data' in result and len(result['data']) > 0] *)
Definition found_listing (result : json) : res bool :=
  let! usable := usable_result result in
  if usable then
    let! data := py_getitem result "data" in
    let! n := py_len data in
    Ok (n >? 0)
  else Ok false.

(** "Search AutoTrader if requested": the search and the display of what
    it finds. *)
Definition search_autotrader (net : network) (save : bool) (stock_no dealer_id : string)
  : M world unit :=
  print (LF ++ times "=" 60) ;;
  print "SEARCHING AUTOTRADER" ;;
  print (times "=" 60) ;;
  autotrader_result <- on_net (autotrader_search_vehicle net stock_no dealer_id None) ;;
  found <- lift_res (found_listing autotrader_result) ;;
  if found then
    (if save then
       on_net (save_json_file autotrader_result ("autotrader_data_" ++ stock_no))
     else ret tt) ;;
    vehicle_data <- lift_res (autotrader_extract_vehicle_data autotrader_result) ;;
    vehicle_details <- lift_res (autotrader_format_vehicle_details vehicle_data) ;;
    print vehicle_details
  else print "No vehicle found in AutoTrader or API error occurred".

(** "Search Carsguide if requested" *)
Definition search_carsguide (net : network) (save : bool) (stock_no dealer_id : string)
    (make : option string) : M world unit :=
  print (LF ++ times "=" 60) ;;
  print "SEARCHING CARSGUIDE" ;;
  print (times "=" 60) ;;
  carsguide_result <- on_net (carsguide_search_vehicle net stock_no dealer_id make None) ;;
  found <- lift_res (found_listing carsguide_result) ;;
  if found then
    (if save then
       on_net (save_json_file carsguide_result ("carsguide_data_" ++ stock_no))
     else ret tt) ;;
    vehicle_data <- lift_res (carsguide_extract_vehicle_data carsguide_result) ;;
    vehicle_details <- lift_res (carsguide_format_vehicle_details vehicle_data) ;;
    print vehicle_details
  else print "No vehicle found in Carsguide or API error occurred".

(** [main] from "Single vehicle processing" on. *)
Definition main_single (net : network) (a : args) : M world unit :=
  if negb (given (args_stock_no a)) then print_help
  else
    let stock_no := match args_stock_no a with Some s => s | None => "" end in
    let dealer_id := args_dealer_id a in
    let make := args_make a in
    (if existsb (String.eqb (args_api a)) ["autotrader"; "both"] then
       search_autotrader net (args_save a) stock_no dealer_id
     else ret tt) ;;
    (if existsb (String.eqb (args_api a)) ["carsguide"; "both"] then
       search_carsguide net (args_save a) stock_no dealer_id make
     else ret tt).

(** [main]: with [--csv] the batch run over the file as [pd.read_csv] gives
    it ([loaded]; nothing is run when the file cannot be read), and the
    single search otherwise.  What the batch run and its summary print is
    left out. *)
Definition main (net : network) (a : args) (loaded : res frame)
  : option (res unit * state) + res unit * world :=
  if given (args_csv a) then
    inl (match loaded with
         | Ok df => Some (process_csv_file net (args_save a) df)
         | Raise _ => None
         end)
  else inr (main_single net a ([], [])).

End Cli.

(* ===================================================================== *)
(** * Vocabulary for numbers and their text *)
(* ===================================================================== *)

Module NumberSpec.
Import PyStr Py.

(** The text of a number: decimal digits only. *)
Fixpoint all_digits (s : string) : bool :=
  match s with
  | String c s' => match digit_of c with Some _ => all_digits s' | None => false end
  | EmptyString => true
  end.

(** A text without white space. *)
Fixpoint no_blank (s : string) : bool :=
  match s with
  | String c s' => negb (is_space c) && no_blank s'
  | EmptyString => true
  end.

(** A character that [int()] does not read and that neither [strip] nor the
    removal of the commas takes away. *)
Definition stops_int (c : ascii) : bool :=
  match digit_of c with
  | Some _ => false
  | None =>
      negb (is_space c || Ascii.eqb c "_" || Ascii.eqb c "," || Ascii.eqb c "+"
            || Ascii.eqb c "-")
  end.

(** A cell and a row with their texts in lower case. *)
Definition lower_cell (cell : scalar) : scalar :=
  match cell with
  | SStr s => SStr (lower s)
  | _ => cell
  end.

Definition lower_row (r : row) : row :=
  List.map (fun kv => (fst kv, lower_cell (snd kv))) r.

End NumberSpec.

(* ===================================================================== *)
(** * Vocabulary for the events of a run *)
(* ===================================================================== *)

Module TraceSpec.
Import PyStr Py Eff Http Provider Batch.

Definition is_request (ev : event) : bool :=
  match ev with EvGet _ => true | _ => false end.

(** A request to the search API. *)
Definition is_search (ev : event) : bool :=
  match ev with
  | EvGet r => String.eqb (req_url r) base_url
  | _ => false
  end.

(** A pause of one time unit at least. *)
Definition is_pause (ev : event) : bool :=
  match ev with
  | EvSleep lo _ => 1 <=? lo
  | _ => false
  end.

Definition is_save (ev : event) : bool :=
  match ev with EvSave _ _ => true | _ => false end.

Definition count (p : event -> bool) (tr : trace) : nat := List.length (filter p tr).

(** The four courses the code of a lookup has, each with its events, the
    newest first: no cookies; a primary query and nothing after it; a
    primary query answered with a 403 and its retry; an empty primary query
    and the fallback query. *)
Definition lookup_runs (bootstrap primary retry : request) (fallback : option request)
  : list trace :=
  [ [EvGet bootstrap];
    [EvGet primary; EvSleep 1 3; EvGet bootstrap];
    [EvGet retry; EvGet bootstrap; EvSleep 5 8; EvGet primary; EvSleep 1 3; EvGet bootstrap] ]
  ++ match fallback with
     | Some fallback_request =>
         [[EvGet fallback_request; EvSleep 1 2; EvGet primary; EvSleep 1 3; EvGet bootstrap]]
     | None => []
     end.

(** The headers a request can carry: those of the bootstrap, and those of
    the searches of each provider, before and after a refusal. *)
Definition header_sets : list (list (string * string)) :=
  [ get_default_headers;
    autotrader_headers;
    dict_set autotrader_headers "user-agent" autotrader_retry_agent;
    carsguide_headers;
    dict_set carsguide_headers "user-agent" carsguide_retry_agent ].

(** The names a fallback query can carry. *)
Definition fallback_keys : list string :=
  [ "dealer_id"; "ipLookup"; "sorting_variation"; "paginate"; "source"; "make"; "model";
    "manu_year"; "priceFrom"; "priceTo"; "odometerFrom"; "odometerTo" ].

(** The keys of the parameters: each once, each among the twelve names. *)
Definition tidy (p : list (string * string)) : Prop :=
  NoDup (List.map fst p) /\ incl (List.map fst p) fallback_keys.

(** No two searches without a pause between them.  The events are read from
    the newest on; [pending] tells that a search has been met and no pause
    since. *)
Fixpoint paced_from (pending : bool) (tr : trace) : bool :=
  match tr with
  | ev :: tr' =>
      if is_search ev then negb pending && paced_from true tr'
      else if is_pause ev then paced_from false tr'
      else paced_from pending tr'
  | [] => true
  end.

Definition paced (tr : trace) : bool := paced_from false tr.

(** A relation between the events before and after a piece of a batch run,
    with the number of lookups in between: what it takes to hold of a whole
    run. *)
Record step_closed (net : network) (save_results : bool)
    (R : nat -> trace -> trace -> Prop) : Prop := StepClosed {
  rule_refl : forall tr, R O tr tr;
  rule_trans : forall n m a b c, R n a b -> R m b c -> R (n + m)%nat a c;
  rule_weaken : forall n m a b, (n <= m)%nat -> R n a b -> R m a b;
  rule_autotrader : forall stock_no dealer_id csv_row tr,
      R 1%nat tr (snd (autotrader_search_vehicle net stock_no dealer_id csv_row tr));
  rule_carsguide : forall stock_no dealer_id make csv_row tr,
      R 1%nat tr (snd (carsguide_search_vehicle net stock_no dealer_id make csv_row tr));
  rule_save : save_results = true -> forall filename data tr,
      R O tr (EvSave filename data :: tr);
  rule_delay : forall tr, R O tr (EvSleep 1 2 :: tr)
}.

End TraceSpec.

(* ===================================================================== *)
(** * Vocabulary for the result cells of a row *)
(* ===================================================================== *)

Module OutcomeSpec.
Import PyStr Py Batch.

Definition autotrader_site : string := "https://www.autotrader.com.au/".
Definition carsguide_site : string := "https://www.carsguide.com.au/".

(** The status, notes and URL the loop writes for a provider it has
    searched: [site] is the domain of the provider and [api] its name in
    the notes. *)
Definition listed (site api status notes url : string) : Prop :=
  (status = "API Error" /\
   notes = "Failed to retrieve data from " ++ api ++ " API" /\ url = "") \/
  (status = "Not Found" /\
   (notes = "Vehicle not found in " ++ api ++ " API" \/ notes = "") /\ url = "") \/
  (In status ["Found"; "Sold"; "On Offer"] /\ notes = "" /\
   (url = "" \/ String.prefix site url = true)) \/
  (status = "Mismatched" /\ notes <> "" /\
   (url = "" \/ String.prefix site url = true)).

(** The cells a block leaves when it ends normally. *)
Definition block_cells (c1 c2 c3 site api : string) (r : row) (df' : frame) (index : nat)
  : Prop :=
  exists r' status notes url,
    nth_error df' index = Some r' /\
    dict_get r' c1 = Some (SStr status) /\
    dict_get r' c2 = Some (SStr notes) /\
    dict_get r' c3 = Some (SStr url) /\
    listed site api status notes url /\
    forall k, k <> c1 -> k <> c2 -> k <> c3 -> dict_get r' k = dict_get r k.

(** The six result cells of a row once the loop has been through it: not
    searched, failed, or searched with both providers. *)
Definition row_outcome (r : row) : Prop :=
  exists at_status at_notes at_url cg_status cg_notes cg_url,
    dict_get r "Autotrader" = Some (SStr at_status) /\
    dict_get r "Autotrader Notes" = Some (SStr at_notes) /\
    dict_get r "Autotrader URL" = Some (SStr at_url) /\
    dict_get r "Carsguide" = Some (SStr cg_status) /\
    dict_get r "Carsguide Notes" = Some (SStr cg_notes) /\
    dict_get r "Carsguide URL" = Some (SStr cg_url) /\
    ((at_status = "Not Searched" /\ cg_status = "Not Searched" /\
      at_notes = "Missing Year or StockNo" /\ cg_notes = "Missing Year or StockNo" /\
      at_url = "" /\ cg_url = "") \/
     (at_status = "Error" /\ cg_status = "Error" /\
      String.prefix "Error processing: " at_notes = true /\ cg_notes = at_notes /\
      at_url = "" /\ cg_url = "") \/
     (listed autotrader_site "AutoTrader" at_status at_notes at_url /\
      listed carsguide_site "Carsguide" cg_status cg_notes cg_url)).

(** A row without a Year or without a StockNo. *)
Definition blank_key (r : row) : Prop :=
  row_get r "Year" (SStr "") = SStr "" \/ row_get r "StockNo" (SStr "") = SStr "".

End OutcomeSpec.

(* ===================================================================== *)
(** * Vocabulary for the display of a listing *)
(* ===================================================================== *)

Module DisplaySpec.
Import PyStr Py Reconcile Display.

(** A number, for the thousands separators. *)
Definition numeric (v : json) : bool :=
  match v with
  | JAtom (SInt _) | JAtom (SBool _) | JAtom (SFloat _) => true
  | _ => false
  end.

Definition is_dict (v : json) : bool := match v with JDict _ => true | _ => false end.

Definition is_str (v : json) : bool := match v with JAtom (SStr _) => true | _ => false end.

(** The listings that can be displayed: the missing one; and a dict whose
    price is a dict with a number as advertised price, whose odometer is a
    number, whose specifications, if any, are a dict, and whose description,
    if any, is a text. *)
Definition printable (vehicle_data : json) : bool :=
  negb (truthy vehicle_data) ||
  match vehicle_data with
  | JDict d =>
      match dict_get d "price" with
      | Some (JDict price) =>
          match dict_get price "advertised_price" with
          | Some x => numeric x
          | None => false
          end
      | _ => false
      end
      && match dict_get d "odometer" with
         | Some x => numeric x
         | None => false
         end
      && match dict_get d "vehicle" with
         | Some x => negb (truthy x) || is_dict x
         | None => true
         end
      && match dict_get d "description" with
         | Some x => negb (truthy x) || is_str x
         | None => true
         end
  | _ => false
  end.

(** [d.get(k, default)] on the pairs of a dict. *)
Definition value (d : list (string * json)) (k : string) (default : json) : json :=
  match dict_get d k with
  | Some x => x
  | None => default
  end.

(** The lines that come first, under a title. *)
Definition head_lines (title : string) (d : list (string * json))
    (price_text odometer_text : string) : list string :=
  [ LF ++ times "=" 60;
    center (title ++ py_str (value d "stock_no" na)) 60;
    times "=" 60;
    "Make:           " ++ py_str (value d "make" na);
    "Model:          " ++ py_str (value d "model" na);
    "Variant:        " ++ py_str (value d "variant" na);
    "Year:           " ++ py_str (value d "manu_year" na);
    "Price:          $" ++ price_text;
    "Color:          " ++ py_str (value d "colour_body" na);
    "Odometer:       " ++ odometer_text ++ " km";
    "Registration:   " ++ py_str (value d "rego" na);
    "VIN:            " ++ py_str (value d "vin" na);
    "Location:       " ++ py_str (value d "location_city" na) ++ ", "
      ++ py_str (value d "location_state" na) ].

(** The lines of the specifications and of the description. *)
Definition specs_lines (vehicle_specs : json) : res (list string) :=
  if truthy vehicle_specs then
    let! body_type := py_get vehicle_specs "body_type" na in
    let! transmission_type := py_get vehicle_specs "transmission_type" na in
    let! fuel_type := py_get vehicle_specs "fuel_type" na in
    let! engine_size := py_get vehicle_specs "engine_size" na in
    let! cylinders := py_get vehicle_specs "cylinders" na in
    let! drive_type := py_get vehicle_specs "drive_type" na in
    let! seats := py_get vehicle_specs "seats" na in
    let! doors := py_get vehicle_specs "doors" na in
    Ok [ LF ++ times "-" 60; center "SPECIFICATIONS" 60; times "-" 60;
         "Body Type:      " ++ py_str body_type;
         "Transmission:   " ++ py_str transmission_type;
         "Fuel Type:      " ++ py_str fuel_type;
         "Engine Size:    " ++ py_str engine_size ++ " L";
         "Cylinders:      " ++ py_str cylinders;
         "Drive Type:     " ++ py_str drive_type;
         "Seats:          " ++ py_str seats;
         "Doors:          " ++ py_str doors ]
  else Ok [].

Definition description_lines (d : list (string * json)) : res (list string) :=
  if truthy (value d "description" JNone) then
    let! unescaped := py_replace (value d "description" na) escaped_crlf LF in
    Ok [ LF ++ times "-" 60; center "DESCRIPTION" 60; times "-" 60;
         truncate_description (replace (CR ++ LF) LF unescaped) ]
  else Ok [].

(** The display of a dict that is not empty, under a title. *)
Definition format_dict (title : string) (d : list (string * json)) : res string :=
  let! advertised_price := py_get (value d "price" (JDict [])) "advertised_price" na in
  let! price_text := format_comma advertised_price in
  let! odometer_text := format_comma (value d "odometer" na) in
  let! specs := specs_lines (value d "vehicle" (JDict [])) in
  let! description := description_lines d in
  let last := LF ++ times "=" 60 in
  Ok (String.concat LF
        (head_lines title d price_text odometer_text ++ specs ++ description ++ [last])%list).

End DisplaySpec.

(* ===================================================================== *)
(** * More rows, listings and runs used as examples *)
(* ===================================================================== *)

Module Scenarios.
Import PyStr Py Reconcile Eff Http Provider Batch Display Cli Examples.

(** The frame a batch run over [row_2020] leaves when every search finds
    the same listing, and its only row. *)
Definition frame_2020_done : frame :=
  fst (snd (process_csv_file net_one_listing false [row_2020])).

Definition row_2020_done : row := List.hd [] frame_2020_done.

(** A row without a Year. *)
Definition row_no_year : row := [("StockNo", SStr "A1"); ("Make", SStr "Toyota")].

Definition row_no_year_done : row :=
  List.hd [] (fst (snd (process_csv_file net_one_listing false [row_no_year]))).

(** The command line [--stock_no A1], and the same for one provider. *)
Definition args_A1 : args := Args None (Some "A1") "both" None false None false "12751".

Definition args_A1_autotrader : args :=
  Args None (Some "A1") "autotrader" None false None false "12751".

End Scenarios.

(* ===================================================================== *)
(** * Properties *)
(* ===================================================================== *)

Module DictFacts.
Import Py.

Section Facts.
Context {V : Type}.
Implicit Types (d : list (string * V)) (k : string) (v : V).

Lemma dict_get_set_same d k v : dict_get (dict_set d k v) k = Some v.
Proof.
  induction d as [|[k' v'] d IH]; simpl.
  - now rewrite String.eqb_refl.
  - destruct (String.eqb k k') eqn:E; simpl; rewrite E; auto.
Qed.

Lemma dict_get_set_other d k k' v :
  k <> k' -> dict_get (dict_set d k v) k' = dict_get d k'.
Proof.
  intros Hne. induction d as [|[k0 v0] d IH]; simpl.
  - destruct (String.eqb_spec k' k); congruence.
  - destruct (String.eqb_spec k k0) as [->|Hk]; simpl.
    + destruct (String.eqb_spec k' k0); congruence.
    + now rewrite IH.
Qed.

Lemma dict_get_some_cons d k v : dict_get d k = Some v -> exists x d', d = x :: d'.
Proof. destruct d; simpl; [discriminate | eauto]. Qed.

End Facts.
End DictFacts.

Module ReconcileFacts.
Import PyStr Py Reconcile DictFacts.

(** The verdict once the loop has run. *)
Lemma autotrader_compare_live csv_data d s :
  dict_get d "status" = Some (JStr s) ->
  lower s <> "sold" -> lower s <> "on offer" ->
  autotrader_compare_data csv_data (JDict d) =
    match fold_left (autotrader_compare_field csv_data (JDict d))
                    autotrader_comparison_fields [] with
    | [] => Ok ("Found", [])
    | m => Ok ("Mismatched", m)
    end.
Proof.
  intros Hs Hsold Hoffer.
  destruct (dict_get_some_cons _ _ _ Hs) as (x & d' & ->).
  unfold autotrader_compare_data.
  cbn [truthy negb py_get]. rewrite Hs.
  cbn [JStr truthy truthy_scalar py_lower].
  destruct (String.eqb_spec (lower s) "sold"); [contradiction|].
  destruct (String.eqb_spec (lower s) "on offer"); [contradiction|].
  destruct (negb (s =? "")%string), (negb (lower s =? "live")%string);
    destruct (fold_left _ _ _); reflexivity.
Qed.

(** A turn of the loop only appends. *)
Lemma autotrader_compare_field_app csv_data vehicle_data mismatched field :
  autotrader_compare_field csv_data vehicle_data mismatched field =
  (mismatched ++ autotrader_compare_field csv_data vehicle_data [] field)%list.
Proof.
  unfold autotrader_compare_field. destruct field as [csv_field api_path].
  repeat match goal with
         | |- context [match ?x with _ => _ end] => destruct x
         end; simpl; now rewrite ?app_nil_r.
Qed.

Lemma autotrader_notes_flat_map csv_data vehicle_data fields acc :
  fold_left (autotrader_compare_field csv_data vehicle_data) fields acc =
  (acc ++ flat_map (autotrader_compare_field csv_data vehicle_data []) fields)%list.
Proof.
  revert acc. induction fields as [|f fields IH]; intros acc; simpl.
  - now rewrite app_nil_r.
  - rewrite IH, autotrader_compare_field_app, <- app_assoc. reflexivity.
Qed.

(** Every note of a field starts with the name of the field. *)
Lemma autotrader_note_shape csv_data vehicle_data csv_field api_path :
  Forall (fun n => exists rest, n = csv_field ++ ": " ++ rest)
         (autotrader_compare_field csv_data vehicle_data [] (csv_field, api_path)).
Proof.
  unfold autotrader_compare_field.
  repeat match goal with
         | |- context [match ?x with _ => _ end] => destruct x
         end; simpl; repeat constructor; eexists; reflexivity.
Qed.

Lemma filter_notes_other csv_data vehicle_data p csv_field api_path :
  (forall rest, String.prefix p (csv_field ++ ": " ++ rest) = false) ->
  filter (String.prefix p)
         (autotrader_compare_field csv_data vehicle_data [] (csv_field, api_path)) = [].
Proof.
  intros Hp.
  pose proof (autotrader_note_shape csv_data vehicle_data csv_field api_path) as Hs.
  induction Hs as [|n l [rest ->] _ IH]; cbn [filter]; [reflexivity|].
  now rewrite Hp.
Qed.

Lemma filter_notes_own csv_data vehicle_data csv_field api_path :
  filter (String.prefix (csv_field ++ ": "))
         (autotrader_compare_field csv_data vehicle_data [] (csv_field, api_path)) =
  autotrader_compare_field csv_data vehicle_data [] (csv_field, api_path).
Proof.
  pose proof (autotrader_note_shape csv_data vehicle_data csv_field api_path) as Hs.
  induction Hs as [|n l [rest ->] _ IH]; cbn [filter]; [reflexivity|].
  assert (H : String.prefix (csv_field ++ ": ") (csv_field ++ ": " ++ rest) = true).
  { clear. induction csv_field as [|c f IHf]; simpl.
    - now destruct rest.
    - destruct (ascii_dec c c); [exact IHf | contradiction]. }
  rewrite H, IH. reflexivity.
Qed.

(** The Price notes of a comparison. *)
Lemma price_notes csv_data d :
  filter (String.prefix "Price: ")
         (fold_left (autotrader_compare_field csv_data (JDict d))
                    autotrader_comparison_fields []) =
  autotrader_compare_field csv_data (JDict d) [] ("Price", ["price"; "advertised_price"]).
Proof.
  rewrite autotrader_notes_flat_map. unfold autotrader_comparison_fields.
  cbn [flat_map app]. rewrite !filter_app.
  rewrite !filter_notes_other by (intros; reflexivity).
  cbn [filter app]. rewrite app_nil_r.
  apply (filter_notes_own csv_data (JDict d) "Price").
Qed.

Lemma flat_map_agree {A B} (f g : A -> list B) (l : list A) :
  (forall a, In a l -> f a = g a) -> flat_map f l = flat_map g l.
Proof.
  induction l as [|a l IH]; intros H; simpl; [reflexivity|].
  rewrite (H a) by now left. rewrite IH; [reflexivity|].
  intros b Hb. apply H. now right.
Qed.

Lemma field_path_unique f p p' :
  In (f, p) autotrader_comparison_fields ->
  In (f, p') autotrader_comparison_fields -> p = p'.
Proof.
  unfold autotrader_comparison_fields. simpl.
  intros H H'.
  repeat match goal with
         | H : _ \/ _ |- _ => destruct H
         | H : False |- _ => destruct H
         | H : (_, _) = (_, _) |- _ => inversion H; clear H; subst
         end; try reflexivity; discriminate.
Qed.

(** A field whose listing value is missing adds no note. *)
Lemma absent_field_no_note csv_data vehicle_data csv_field api_path :
  is_none (api_path_value vehicle_data api_path) = true ->
  autotrader_compare_field csv_data vehicle_data [] (csv_field, api_path) = [].
Proof.
  intros Hnone. unfold autotrader_compare_field. rewrite Hnone.
  destruct (dict_get csv_data csv_field) as [cell|]; [|reflexivity].
  destruct (truthy_scalar cell); [|reflexivity].
  now rewrite andb_false_r.
Qed.

Lemma blank_field_same csv_data vehicle_data csv_field f p :
  (f = csv_field -> is_none (api_path_value vehicle_data p) = true) ->
  autotrader_compare_field (dict_set csv_data csv_field (SStr "")) vehicle_data [] (f, p) =
  autotrader_compare_field csv_data vehicle_data [] (f, p).
Proof.
  intros H. destruct (string_dec csv_field f) as [->|Hne].
  - rewrite (absent_field_no_note csv_data) by auto.
    unfold autotrader_compare_field. now rewrite dict_get_set_same.
  - unfold autotrader_compare_field. now rewrite dict_get_set_other.
Qed.

(** With the two site types of the batch loop the URL is always a string. *)
Lemma extract_vehicle_url_str vehicle_data site_type url :
  site_type = "autotrader" \/ site_type = "carsguide" ->
  extract_vehicle_url vehicle_data site_type = Ok url -> exists s, url = JStr s.
Proof.
  intros Hsite. unfold extract_vehicle_url.
  destruct (negb (truthy vehicle_data)); [intros [= <-]; eauto|].
  destruct (py_get vehicle_data "url" (JStr "")) as [first|e]; [|discriminate].
  destruct (if truthy first then _ else _) as [url_path|e]; [|discriminate].
  destruct (negb (truthy url_path)); [intros [= <-]; eauto|].
  destruct Hsite as [-> | ->]; cbn [String.eqb Ascii.eqb Bool.eqb]; intros [= <-]; eauto.
Qed.

End ReconcileFacts.

Module ReconcileClaims.
Import PyStr Py Reconcile DictFacts ReconcileFacts Examples.



Example price_within_100 :
  autotrader_compare_data csv_20000 (JDict (listing_priced 20050)) = Ok ("Found", []).
Proof. reflexivity. Qed.

Example price_beyond_100 :
  autotrader_compare_data csv_20000 (JDict (listing_priced 20200))
  = Ok ("Mismatched", ["Price: CSV=20000, API=20200"]).
Proof. reflexivity. Qed.

Example price_unreadable :
  autotrader_compare_data [("Price", SFloat "20000.0")] (JDict (listing_priced 20000))
  = Ok ("Mismatched", ["Price: Couldn't compare"]).
Proof. reflexivity. Qed.

(** A separator (the character 31) that only shows at the head of the text
    once a comma is gone: [strip] had nothing to trim, and [int] does not
    skip it. *)
Example price_after_separator :
  autotrader_compare_data [("Price", SStr ("," ++ String (ascii_of_N 31) "5"))]
    (JDict (listing_priced 5))
  = Ok ("Mismatched", ["Price: Couldn't compare"]).
Proof. reflexivity. Qed.

(** C10: in the comparison of a live listing, a field of the field map
    whose path leads to no value in the listing gets no note, whatever the
    row holds for it, and the result is the one the row gives with that
    field blanked; a listing where every mapped path is missing is Found.
    With the Price path this says that a listing without an advertised
    price gets no Price note. *)
Theorem absent_path_skipped csv_data d s :
  dict_get d "status" = Some (JStr s) -> lower s = "live" ->
  (forall csv_field api_path,
      In (csv_field, api_path) autotrader_comparison_fields ->
      is_none (api_path_value (JDict d) api_path) = true ->
      exists status notes,
        autotrader_compare_data csv_data (JDict d) = Ok (status, notes) /\
        carsguide_compare_data csv_data (JDict d) = Ok (status, notes) /\
        filter (String.prefix (csv_field ++ ": ")) notes = [] /\
        autotrader_compare_data (dict_set csv_data csv_field (SStr "")) (JDict d)
          = Ok (status, notes)) /\
  ((forall csv_field api_path,
       In (csv_field, api_path) autotrader_comparison_fields ->
       is_none (api_path_value (JDict d) api_path) = true) ->
   autotrader_compare_data csv_data (JDict d) = Ok ("Found", []) /\
   carsguide_compare_data csv_data (JDict d) = Ok ("Found", [])).
Proof.
  intros Hst Hlive.
  assert (Hcmp : forall csv, autotrader_compare_data csv (JDict d) =
            match fold_left (autotrader_compare_field csv (JDict d))
                            autotrader_comparison_fields [] with
            | [] => Ok ("Found", [])
            | m => Ok ("Mismatched", m)
            end).
  { intros csv. apply (autotrader_compare_live csv d s Hst); rewrite Hlive; discriminate. }
  change (carsguide_compare_data csv_data (JDict d))
    with (autotrader_compare_data csv_data (JDict d)).
  split.
  - intros csv_field api_path Hin Hnone.
    assert (Hsame : fold_left (autotrader_compare_field (dict_set csv_data csv_field (SStr "")) (JDict d))
                      autotrader_comparison_fields [] =
                    fold_left (autotrader_compare_field csv_data (JDict d))
                      autotrader_comparison_fields []).
    { rewrite !autotrader_notes_flat_map. cbn [app].
      apply flat_map_agree. intros [f p] Hf. apply blank_field_same.
      intros ->. now rewrite (field_path_unique _ _ _ Hf Hin). }
    assert (Hnote : filter (String.prefix (csv_field ++ ": "))
                      (fold_left (autotrader_compare_field csv_data (JDict d))
                         autotrader_comparison_fields []) = []).
    { rewrite autotrader_notes_flat_map. cbn [app].
      clear Hsame. revert Hin Hnone. unfold autotrader_comparison_fields.
      cbn [flat_map In]. intros Hin Hnone. rewrite !filter_app. cbn [filter].
      repeat match goal with
             | H : _ \/ _ |- _ => destruct H as [H|H]
             | H : False |- _ => destruct H
             end;
        inversion Hin; subst csv_field api_path;
        rewrite !(absent_field_no_note csv_data (JDict d) _ _ Hnone);
        rewrite ?filter_notes_other by (intros; reflexivity);
        reflexivity. }
    rewrite (Hcmp (dict_set csv_data csv_field (SStr ""))), Hsame, Hcmp.
    clear Hsame.
    destruct (fold_left (autotrader_compare_field csv_data (JDict d)) _ _) as [|n notes];
      eauto 10.
  - intros Hall. rewrite Hcmp, autotrader_notes_flat_map. cbn [app].
    assert (H0 : flat_map (autotrader_compare_field csv_data (JDict d) [])
                   autotrader_comparison_fields = []).
    { revert Hall. generalize autotrader_comparison_fields as l.
      induction l as [|[f p] l IH]; intros Hall; [reflexivity|].
      cbn [flat_map]. rewrite absent_field_no_note by (apply (Hall f); now left).
      apply IH. intros f' p' Hin. apply (Hall f'). now right. }
    rewrite H0. split; reflexivity.
Qed.

Lemma absent_path_skipped_witness :
  exists status notes,
    autotrader_compare_data csv_priced (JDict listing_unpriced) = Ok (status, notes) /\
    carsguide_compare_data csv_priced (JDict listing_unpriced) = Ok (status, notes) /\
    filter (String.prefix ("Price" ++ ": ")) notes = [] /\
    autotrader_compare_data (dict_set csv_priced "Price" (SStr "")) (JDict listing_unpriced)
      = Ok (status, notes).
Proof.
  refine (proj1 (absent_path_skipped csv_priced listing_unpriced "Live" eq_refl eq_refl)
            "Price" ["price"; "advertised_price"] _ eq_refl).
  simpl. tauto.
Defined.




(** C8: the two comparison functions agree on every row and listing;
    their field maps are the same list, in which 'Transmission' and
    'Tansmission' both lead to the transmission type of the specifications
    of the vehicle, the group that a listing keeps under the key
    "vehicle". *)
Theorem providers_compare_alike :
  (forall csv_data vehicle_data,
      autotrader_compare_data csv_data vehicle_data =
      carsguide_compare_data csv_data vehicle_data) /\
  autotrader_comparison_fields = carsguide_comparison_fields /\
  dict_get autotrader_comparison_fields "Transmission" = Some ["vehicle"; "transmission_type"] /\
  dict_get autotrader_comparison_fields "Tansmission" = Some ["vehicle"; "transmission_type"] /\
  dict_get carsguide_comparison_fields "Transmission" = Some ["vehicle"; "transmission_type"] /\
  dict_get carsguide_comparison_fields "Tansmission" = Some ["vehicle"; "transmission_type"].
Proof.
  split.
  - (* the two definitions, written from the two functions, are the same term *)
    intros csv_data vehicle_data. reflexivity.
  - repeat split.
Qed.

(** A row that has both columns gets a note under each name. *)
Example both_spellings_are_compared :
  autotrader_compare_data csv_manual listing_vehicle_group =
    Ok ("Mismatched", [ "Transmission: CSV=Manual, API=Automatic";
                        "Tansmission: CSV=Manual, API=Automatic" ]) /\
  carsguide_compare_data csv_manual listing_vehicle_group =
    Ok ("Mismatched", [ "Transmission: CSV=Manual, API=Automatic";
                        "Tansmission: CSV=Manual, API=Automatic" ]).
Proof. split; reflexivity. Qed.

(** C7: for a listing that is a dict and either site, the URL is the domain
    of the site followed by the text of [url] when that is present and not
    empty, else by the text of [url_cg] when that is; it is the empty string
    when neither is, and for a missing listing. *)
Theorem url_derivation d site_type domain :
  In (site_type, domain)
     [ ("autotrader", "https://www.autotrader.com.au/");
       ("carsguide", "https://www.carsguide.com.au/") ] ->
  (forall u, dict_get d "url" = Some u -> truthy u = true ->
             extract_vehicle_url (JDict d) site_type = Ok (JStr (domain ++ py_str u))) /\
  (forall u, (forall x, dict_get d "url" = Some x -> truthy x = false) ->
             dict_get d "url_cg" = Some u -> truthy u = true ->
             extract_vehicle_url (JDict d) site_type = Ok (JStr (domain ++ py_str u))) /\
  ((forall x, dict_get d "url" = Some x -> truthy x = false) ->
   (forall x, dict_get d "url_cg" = Some x -> truthy x = false) ->
   extract_vehicle_url (JDict d) site_type = Ok (JStr "")) /\
  extract_vehicle_url JNone site_type = Ok (JStr "").
Proof.
  intros Hsite.
  assert (Hdom : forall url_path,
             (if String.eqb site_type "autotrader" then
                Ok (JStr ("https://www.autotrader.com.au/" ++ py_str url_path))
              else if String.eqb site_type "carsguide" then
                Ok (JStr ("https://www.carsguide.com.au/" ++ py_str url_path))
              else Ok url_path) = Ok (JStr (domain ++ py_str url_path))).
  { intros url_path. simpl in Hsite.
    destruct Hsite as [H|[H|[]]]; inversion H; subst; reflexivity. }
  repeat split.
  - intros u Hu Ht. destruct (dict_get_some_cons _ _ _ Hu) as (x & d' & Hd).
    unfold extract_vehicle_url. rewrite Hd. cbn [truthy negb py_get]. rewrite <- Hd, Hu, Ht.
    cbn iota. rewrite Ht. cbn [negb]. apply Hdom.
  - intros u Hno Hu Ht. destruct (dict_get_some_cons _ _ _ Hu) as (x & d' & Hd).
    unfold extract_vehicle_url. rewrite Hd. cbn [truthy negb py_get]. rewrite <- Hd.
    destruct (dict_get d "url") as [v|] eqn:Ev.
    + rewrite (Hno v eq_refl), Hu, Ht. cbn [negb]. apply Hdom.
    + cbn [JStr truthy truthy_scalar String.eqb negb]. rewrite Hu, Ht. cbn [negb]. apply Hdom.
  - intros Hno Hno'. unfold extract_vehicle_url.
    destruct d as [|x d']; [reflexivity|]. cbn [truthy negb py_get].
    destruct (dict_get (x :: d') "url") as [v|] eqn:Ev.
    + rewrite (Hno v eq_refl).
      destruct (dict_get (x :: d') "url_cg") as [w|] eqn:Ew.
      * now rewrite (Hno' w eq_refl).
      * reflexivity.
    + cbn [JStr truthy truthy_scalar String.eqb negb].
      destruct (dict_get (x :: d') "url_cg") as [w|] eqn:Ew.
      * now rewrite (Hno' w eq_refl).
      * reflexivity.
Qed.

Lemma url_derivation_witness :
  extract_vehicle_url (JDict [("url", JStr "cars/123")]) "autotrader"
  = Ok (JStr "https://www.autotrader.com.au/cars/123").
Proof.
  refine (proj1 (url_derivation [("url", JStr "cars/123")] "autotrader"
                   "https://www.autotrader.com.au/" _) (JStr "cars/123") eq_refl eq_refl).
  simpl. tauto.
Defined.

Example url_from_url_cg :
  extract_vehicle_url (JDict [("url", JNone); ("url_cg", JStr "buy/9")]) "carsguide"
  = Ok (JStr "https://www.carsguide.com.au/buy/9").
Proof. reflexivity. Qed.

End ReconcileClaims.

Module StoreFacts.
Import PyStr Py Reconcile Eff DictFacts.
Import Store.
Implicit Types (h ext : heap) (o : obj) (l c v m : loc).

Lemma nth_error_update_same h l o o' :
  nth_error h l = Some o -> nth_error (update h l o') l = Some o'.
Proof.
  revert l. induction h as [|x h IH]; intros [|l]; simpl; try discriminate; auto.
Qed.

Lemma nth_error_update_other h l l' o :
  l <> l' -> nth_error (update h l o) l' = nth_error h l'.
Proof.
  revert l l'. induction h as [|x h IH]; intros [|l] [|l'] Hne; simpl; auto; try congruence.
Qed.

Lemma update_same h l o : nth_error h l = Some o -> update h l o = h.
Proof.
  revert l. induction h as [|x h IH]; intros [|l]; simpl; try discriminate.
  - now intros [= ->].
  - intros H. now rewrite IH.
Qed.

Lemma update_twice h l o o' : update (update h l o) l o' = update h l o'.
Proof.
  revert l. induction h as [|x h IH]; intros [|l]; simpl; auto. now rewrite IH.
Qed.

Lemma update_last h o o' : update (h ++ [o])%list (List.length h) o' = (h ++ [o'])%list.
Proof. induction h as [|x h IH]; simpl; [reflexivity | now rewrite IH]. Qed.

Lemma nth_error_last h o : nth_error (h ++ [o])%list (List.length h) = Some o.
Proof. induction h; simpl; auto. Qed.

Lemma nth_error_keep h ext l o :
  nth_error h l = Some o -> nth_error (h ++ ext)%list l = Some o.
Proof.
  intros H. rewrite nth_error_app1; [assumption|].
  apply nth_error_Some. congruence.
Qed.

(** One turn of the loop on the store does to the list object what the
    turn on values does to the list. *)
Lemma compare_field_on_store h c v m r j acc field :
  nth_error h c = Some (ORow r) -> nth_error h v = Some (OJson j) ->
  nth_error h m = Some (OList acc) ->
  Store.autotrader_compare_field c v m field h =
  (Ok tt, update h m (OList (Reconcile.autotrader_compare_field r j acc field))).
Proof.
  intros Hc Hv Hm. destruct field as [csv_field api_path].
  unfold Store.autotrader_compare_field, Reconcile.autotrader_compare_field.
  unfold bind at 1. unfold read_row at 1. rewrite Hc.
  destruct (dict_get r csv_field) as [cell|]; [|unfold ret; now rewrite update_same].
  destruct (truthy_scalar cell); [|unfold ret; now rewrite update_same].
  unfold bind, read_json. rewrite Hv.
  repeat match goal with
         | |- context [match ?x with _ => _ end] =>
             lazymatch x with
             | nth_error _ _ => fail
             | _ => destruct x
             end
         end;
    unfold ret, list_append; rewrite ?Hm, ?update_same by assumption; reflexivity.
Qed.

Lemma for_each_on_store c v m r j fields : forall h acc,
  nth_error h c = Some (ORow r) -> nth_error h v = Some (OJson j) ->
  nth_error h m = Some (OList acc) -> m <> c -> m <> v ->
  for_each (Store.autotrader_compare_field c v m) fields h =
  (Ok tt, update h m (OList (fold_left (Reconcile.autotrader_compare_field r j) fields acc))).
Proof.
  induction fields as [|f fields IH]; intros h acc Hc Hv Hm Hmc Hmv; simpl.
  - unfold ret. now rewrite update_same.
  - unfold bind. rewrite (compare_field_on_store h c v m r j acc f Hc Hv Hm).
    rewrite (IH _ (Reconcile.autotrader_compare_field r j acc f)).
    + now rewrite update_twice.
    + now rewrite nth_error_update_other.
    + now rewrite nth_error_update_other.
    + now apply nth_error_update_same with (o := OList acc).
    + assumption.
    + assumption.
Qed.

(** The function on the store computes what the function on values
    computes, and only adds objects to the store. *)
Lemma compare_data_on_store h c v r j :
  nth_error h c = Some (ORow r) -> nth_error h v = Some (OJson j) ->
  exists ext,
    snd (Store.autotrader_compare_data c v h) = (h ++ ext)%list /\
    observe (Store.autotrader_compare_data c v h) = Reconcile.autotrader_compare_data r j.
Proof.
  intros Hc Hv.
  assert (Hlc : c <> List.length h).
  { intros ->. rewrite (proj2 (nth_error_None h (List.length h)) (Nat.le_refl _)) in Hc.
    discriminate. }
  assert (Hlv : v <> List.length h).
  { intros ->. rewrite (proj2 (nth_error_None h (List.length h)) (Nat.le_refl _)) in Hv.
    discriminate. }
  destruct (Store.autotrader_compare_data c v h) as [out h1] eqn:E.
  revert E. unfold Store.autotrader_compare_data, Reconcile.autotrader_compare_data.
  unfold bind at 1. unfold read_json at 1. rewrite Hv.
  destruct (negb (truthy j)).
  { unfold bind, alloc, ret. intros [= <- <-]. exists [OList []].
    cbn [snd observe]. now rewrite nth_error_last. }
  unfold bind at 1. unfold lift_res at 1.
  destruct (py_get j "status" JNone) as [status|e];
    [|intros [= <- <-]; exists []; cbn [snd observe]; now rewrite app_nil_r].
  unfold bind at 1. unfold lift_res at 1.
  assert (Hloop :
    (bind (alloc (OList []))
         (fun mismatched =>
            bind (for_each (Store.autotrader_compare_field c v mismatched)
                    autotrader_comparison_fields)
              (fun _ => bind (read_list mismatched)
                 (fun notes => match notes with
                               | _ :: _ => ret ("Mismatched", mismatched)
                               | [] => bind (alloc (OList [])) (fun empty => ret ("Found", empty))
                               end))) h) = (out, h1) ->
    exists ext, snd (out, h1) = (h ++ ext)%list /\
      observe (out, h1) =
      match fold_left (Reconcile.autotrader_compare_field r j) autotrader_comparison_fields [] with
      | [] => Ok ("Found", [])
      | _ :: _ =>
          Ok ("Mismatched",
              fold_left (Reconcile.autotrader_compare_field r j) autotrader_comparison_fields [])
      end).
  { unfold bind at 1. unfold alloc at 1. unfold bind at 1.
    rewrite (for_each_on_store c v (List.length h) r j autotrader_comparison_fields
               (h ++ [OList []])%list []);
      auto using nth_error_keep, nth_error_last.
    rewrite update_last. unfold bind at 1. unfold read_list. rewrite nth_error_last.
    generalize (fold_left (Reconcile.autotrader_compare_field r j)
                  autotrader_comparison_fields []).
    intros [|n notes].
    - unfold bind, alloc, ret. intros [= <- <-].
      exists [OList []; OList []]. cbn [snd observe].
      change [OList []; OList []] with ([OList []] ++ [OList []])%list.
      rewrite app_assoc, nth_error_last. auto.
    - unfold ret. intros [= <- <-]. exists [OList (n :: notes)].
      cbn [snd observe]. rewrite nth_error_last. auto. }
  assert (Hearly : forall verdict,
    bind (alloc (OList [])) (fun empty => ret (verdict, empty)) h = (out, h1) ->
    exists ext, snd (out, h1) = (h ++ ext)%list /\
                observe (out, h1) = Ok (verdict, [])).
  { intros verdict. unfold bind, alloc, ret. intros [= <- <-]. exists [OList []].
    cbn [snd observe]. now rewrite nth_error_last. }
  destruct (truthy status); [|exact Hloop].
  destruct (py_lower status) as [low|e];
    [|intros [= <- <-]; exists []; cbn [snd observe]; now rewrite app_nil_r].
  destruct (negb (String.eqb low "live")); [|exact Hloop].
  destruct (String.eqb low "sold"); [exact (Hearly "Sold")|].
  destruct (String.eqb low "on offer"); [exact (Hearly "On Offer")|].
  exact Hloop.
Qed.

End StoreFacts.

Module StoreClaims.
Import PyStr Py Reconcile Eff DictFacts Examples.
Import Store StoreFacts.
Implicit Types (h : heap) (o : obj) (l : loc).

(** C9: with the row and the listing as objects in a store, a call gives the
    status and notes that the function on values gives for what the two
    objects hold, so nothing else in the store and no earlier call matters;
    a second call on the store the first one left gives the same; and every
    object that was in the store, the two arguments among them, is still
    there unchanged after each call. *)
Theorem compare_data_pure h csv_data vehicle_data r j :
  nth_error h csv_data = Some (ORow r) ->
  nth_error h vehicle_data = Some (OJson j) ->
  let first := Store.autotrader_compare_data csv_data vehicle_data h in
  let second := Store.autotrader_compare_data csv_data vehicle_data (snd first) in
  observe first = Reconcile.autotrader_compare_data r j /\
  observe second = observe first /\
  (forall h' csv_data' vehicle_data',
      nth_error h' csv_data' = Some (ORow r) ->
      nth_error h' vehicle_data' = Some (OJson j) ->
      observe (Store.autotrader_compare_data csv_data' vehicle_data' h') = observe first) /\
  (forall l o, nth_error h l = Some o -> nth_error (snd first) l = Some o) /\
  (forall l o, nth_error h l = Some o -> nth_error (snd second) l = Some o).
Proof.
  intros Hc Hv first second.
  destruct (compare_data_on_store h csv_data vehicle_data r j Hc Hv) as (ext & Hext & Hobs).
  fold first in Hext, Hobs.
  assert (Hc1 : nth_error (snd first) csv_data = Some (ORow r))
    by (rewrite Hext; now apply nth_error_keep).
  assert (Hv1 : nth_error (snd first) vehicle_data = Some (OJson j))
    by (rewrite Hext; now apply nth_error_keep).
  destruct (compare_data_on_store (snd first) csv_data vehicle_data r j Hc1 Hv1)
    as (ext2 & Hext2 & Hobs2).
  fold second in Hext2, Hobs2.
  repeat split.
  - exact Hobs.
  - now rewrite Hobs2, Hobs.
  - intros h' c' v' Hc' Hv'.
    destruct (compare_data_on_store h' c' v' r j Hc' Hv') as (ext' & _ & Hobs').
    now rewrite Hobs', Hobs.
  - intros l o Hl. rewrite Hext. now apply nth_error_keep.
  - intros l o Hl. rewrite Hext2, Hext. now apply nth_error_keep, nth_error_keep.
Qed.

Lemma compare_data_pure_witness :
  observe (Store.autotrader_compare_data 1%nat 2%nat store_example)
    = Ok ("Mismatched", ["Model: CSV=Corolla, API=Camry"]) /\
  observe (Store.autotrader_compare_data 1%nat 2%nat
             (snd (Store.autotrader_compare_data 1%nat 2%nat store_example)))
    = observe (Store.autotrader_compare_data 1%nat 2%nat store_example).
Proof.
  pose proof (compare_data_pure store_example 1%nat 2%nat _ _ eq_refl eq_refl) as H.
  cbv zeta in H. destruct H as (H1 & H2 & _). split; [exact H1 | exact H2].
Defined.

End StoreClaims.

Module ProviderFacts.
Import PyStr Py Reconcile Eff Http Provider ProviderSpec Batch DictFacts.

Lemma autotrader_is_lookup net stock_no dealer_id csv_row :
  autotrader_search_vehicle net stock_no dealer_id csv_row =
  lookup net autotrader_bootstrap (autotrader_primary stock_no dealer_id)
         (autotrader_retry stock_no dealer_id)
         (option_map (fun r => autotrader_fallback r dealer_id) (row_given csv_row)).
Proof.
  unfold autotrader_search_vehicle, lookup.
  destruct (row_given csv_row); reflexivity.
Qed.

Lemma carsguide_is_lookup net stock_no dealer_id make csv_row :
  carsguide_search_vehicle net stock_no dealer_id make csv_row =
  lookup net carsguide_bootstrap (carsguide_primary stock_no dealer_id make)
         (carsguide_retry stock_no dealer_id make)
         (option_map (fun r => carsguide_fallback r dealer_id) (row_given csv_row)).
Proof.
  unfold carsguide_search_vehicle, lookup.
  destruct (row_given csv_row); reflexivity.
Qed.

Ltac run_monad :=
  cbv beta iota zeta delta [bind ret catch raise lift_res send add_delay sleep_uniform].

(** Use what is known of the network and of the responses. *)
Ltac known :=
  repeat first
    [ progress cbv beta iota zeta
    | match goal with
      | H : ?net ?t ?r = _ |- context [?net ?t ?r] => rewrite H
      | H : status_code ?a = _ |- context [status_code ?a] => rewrite H
      | H : (status_code ?a =? _) = _ |- context [status_code ?a =? _] => rewrite H
      | H : json_body ?a = _ |- context [json_body ?a] => rewrite H
      | H : has_data ?a = _ |- context [has_data ?a] => rewrite H
      end
    | progress cbn [Z.eqb Pos.eqb negb fst snd] ].

(** Ask the network for the next outcome the goal depends on. *)
Ltac ask_net :=
  match goal with
  | |- context [match ?net ?t ?r with Ok _ => _ | Raise _ => _ end] =>
      lazymatch type of net with
      | network => let E := fresh "Enet" in destruct (net t r) eqn:E
      end
  end; known.

Ltac ask_status :=
  match goal with
  | |- context [status_code ?a =? ?n] =>
      let E := fresh "Est" in destruct (status_code a =? n) eqn:E
  end; known.

(** The events of [l] that come before its tail [tl]. *)
Ltac prefix_of l tl :=
  lazymatch l with
  | tl => constr:(@nil event)
  | ?x :: ?l' => let p := prefix_of l' tl in constr:((x :: p)%list)
  end.

Lemma status_not (a : response) (n : Z) : status_code a <> n -> (status_code a =? n) = false.
Proof. intros H. now apply Z.eqb_neq. Qed.

(** ** The session *)

(** The session hands over a response exactly when the network gives one
    whose status is not on the force list. *)
Lemma session_gives net tr r resp :
  create_session net tr r = Ok resp <->
  net tr r = Ok resp /\ forced (status_code resp) = false.
Proof.
  unfold create_session. split.
  - destruct (net tr r) as [a|e]; [|discriminate].
    destruct (forced (status_code a)) eqn:E; [discriminate|].
    intros [= <-]. auto.
  - intros [-> ->]. reflexivity.
Qed.

Lemma session_200 net tr r resp :
  net tr r = Ok resp -> status_code resp = 200 -> create_session net tr r = Ok resp.
Proof. intros H S. apply session_gives. split; [assumption|]. now rewrite S. Qed.

Lemma session_raises net tr r :
  (forall resp, net tr r = Ok resp -> forced (status_code resp) = true) ->
  exists e, create_session net tr r = Raise e.
Proof.
  intros H. unfold create_session. destruct (net tr r) as [a|e]; [|eauto].
  rewrite (H a eq_refl). eauto.
Qed.

Lemma not_forced_403 (a : response) :
  forced (status_code a) = false -> (status_code a =? 403) = false.
Proof.
  intros H. destruct (status_code a =? 403) eqn:E; [|reflexivity].
  apply Z.eqb_eq in E. rewrite E in H. discriminate H.
Qed.

(** A response the session has handed over has no 403: the branch of the
    clients for it is never entered. *)
Ltac no_forced :=
  match goal with
  | E : create_session _ _ _ = Ok ?a, S : (status_code ?a =? 403) = true |- _ =>
      exfalso; apply session_gives in E; destruct E as [_ E];
      apply not_forced_403 in E; congruence
  end.

Section Lookup.
Variable net : network.
Variables bootstrap primary retry : request.
Variable fallback : option request.
Variable tr0 : trace.

Let run := lookup net bootstrap primary retry fallback tr0.
Let tr1 : trace := EvSleep 1 3 :: EvGet bootstrap :: tr0.
Let tr3 : trace := EvSleep 1 2 :: EvGet primary :: tr1.

(** No cookies: the lookup ends at once with the error sentinel. *)
Lemma lookup_no_cookies :
  (forall resp, net tr0 bootstrap = Ok resp -> status_code resp <> 200) ->
  run = (Ok JNone, EvGet bootstrap :: tr0).
Proof.
  intros Hboot. subst run. unfold lookup. run_monad.
  ask_net; [|reflexivity].
  match goal with
  | E : create_session _ _ _ = Ok ?a |- _ =>
      apply session_gives in E; destruct E as [E _];
      rewrite (status_not _ _ (Hboot _ E))
  end.
  known. reflexivity.
Qed.

(** A primary query that does not bring a 200 ends the lookup, whatever
    else it brings. *)
Lemma lookup_primary_failed resp0 :
  net tr0 bootstrap = Ok resp0 -> status_code resp0 = 200 ->
  (forall resp1, net tr1 primary = Ok resp1 -> status_code resp1 <> 200) ->
  run = (Ok JNone, EvGet primary :: tr1).
Proof.
  intros H0 S0 H1. subst run tr1 tr3.
  pose proof (session_200 _ _ _ _ H0 S0) as H0'.
  unfold lookup. run_monad. known.
  ask_net; [|reflexivity].
  match goal with
  | E : create_session _ _ _ = Ok ?a |- _ =>
      apply session_gives in E; destruct E as [E F];
      rewrite (status_not _ _ (H1 _ E)), (not_forced_403 _ F)
  end.
  known. reflexivity.
Qed.

(** A fallback query that is answered with another status than 200 is no
    error: the lookup gives back the empty result of the primary query. *)
Lemma lookup_fallback_refused result fallback_request resp2 :
  primary_empty net tr0 bootstrap primary result ->
  fallback = Some fallback_request ->
  net tr3 fallback_request = Ok resp2 -> forced (status_code resp2) = false ->
  status_code resp2 <> 200 ->
  run = (Ok result, EvGet fallback_request :: tr3).
Proof.
  intros (resp0 & resp1 & H0 & S0 & H1 & S1 & J1 & D1) Hfb H2 F2 S2.
  pose proof (session_200 _ _ _ _ H0 S0) as H0'.
  pose proof (session_200 _ _ _ _ H1 S1) as H1'.
  pose proof (proj2 (session_gives _ _ _ _) (conj H2 F2)) as H2'.
  subst run tr1 tr3. unfold lookup. run_monad. known. rewrite Hfb. known.
  rewrite (status_not _ _ S2). known. reflexivity.
Qed.

(** A fallback query that raises, as it does when the status it is answered
    with is on the force list, ends the lookup with the error sentinel. *)
Lemma lookup_fallback_raised result fallback_request :
  primary_empty net tr0 bootstrap primary result ->
  fallback = Some fallback_request ->
  (forall resp2, net tr3 fallback_request = Ok resp2 -> forced (status_code resp2) = true) ->
  run = (Ok JNone, EvGet fallback_request :: tr3).
Proof.
  intros (resp0 & resp1 & H0 & S0 & H1 & S1 & J1 & D1) Hfb H2.
  pose proof (session_200 _ _ _ _ H0 S0) as H0'.
  pose proof (session_200 _ _ _ _ H1 S1) as H1'.
  destruct (session_raises _ _ _ H2) as [e H2'].
  subst run tr1 tr3. unfold lookup. run_monad. known. rewrite Hfb. known.
  reflexivity.
Qed.

(** A lookup never raises, and its events are those of one of the three
    courses. *)
Lemma lookup_three_courses :
  exists v new,
    run = (Ok v, (new ++ tr0)%list) /\
    In new (lookup_courses bootstrap primary fallback).
Proof.
  subst run tr1 tr3. unfold lookup, lookup_courses. run_monad.
  repeat first
    [ no_forced | ask_net | ask_status
    | match goal with
      | |- context [match json_body ?a with Ok _ => _ | Raise _ => _ end] =>
          destruct (json_body a); known
      | |- context [match has_data ?a with Ok _ => _ | Raise _ => _ end] =>
          destruct (has_data a) as [[|]|]; known
      | |- context [match fallback with Some _ => _ | None => _ end] =>
          destruct fallback; known
      end ];
    match goal with
    | |- exists v new, (Ok ?x, ?l) = _ /\ _ =>
        let p := prefix_of l tr0 in exists x, p; split; [reflexivity | cbn; tauto]
    end.
Qed.

(** The requests of a lookup; the fallback request is among them exactly
    when there is one to send and the primary query came back empty. *)
Lemma lookup_fallback_sent fallback_request :
  fallback = Some fallback_request ->
  fallback_request <> bootstrap -> fallback_request <> primary ->
  fallback_request <> retry ->
  exists new,
    snd run = (new ++ tr0)%list /\
    (In (EvGet fallback_request) new <->
     exists result, primary_empty net tr0 bootstrap primary result).
Proof.
  intros Hfb Nb Np Nr. subst run tr1 tr3. unfold lookup, primary_empty. run_monad.
  rewrite Hfb. known.
  repeat first
    [ no_forced | ask_net | ask_status
    | match goal with
      | |- context [match json_body ?a with Ok _ => _ | Raise _ => _ end] =>
          let E := fresh "Ejs" in destruct (json_body a) eqn:E; known
      | |- context [match has_data ?a with Ok _ => _ | Raise _ => _ end] =>
          let E := fresh "Ehd" in destruct (has_data a) as [[|]|] eqn:E; known
      end ];
    repeat match goal with
           | H : (_ =? _) = true |- _ => apply Z.eqb_eq in H
           | H : (_ =? _) = false |- _ => apply Z.eqb_neq in H
           end;
    match goal with
    | |- exists new, ?l = _ /\ _ =>
        let p := prefix_of l tr0 in exists p
    end;
    (split; [reflexivity|]);
    (split;
     [ cbn [In]; intros Hin;
       repeat match goal with
              | H : _ \/ _ |- _ => destruct H as [H|H]
              | H : False |- _ => destruct H
              | H : EvGet _ = EvGet _ |- _ => injection H as H
              | H : EvSleep _ _ = EvGet _ |- _ => discriminate H
              end;
       try congruence;
       repeat match goal with
              | E : create_session _ _ _ = Ok _ |- _ =>
                  apply session_gives in E; destruct E as [E _]
              end;
       eauto 12
     | intros (result & resp0 & resp1 & H0 & S0 & H1 & S1 & J1 & D1);
       try (cbn [In]; tauto); exfalso;
       pose proof (session_200 _ _ _ _ H0 S0);
       pose proof (session_200 _ _ _ _ H1 S1);
       congruence ]).
Qed.

End Lookup.

Lemma dict_set_keeps_head (k0 v0 k v : string) (d : list (string * string)) :
  String.eqb k k0 = false -> dict_set ((k0, v0) :: d) k v = (k0, v0) :: dict_set d k v.
Proof. intros H. simpl. now rewrite H. Qed.

Lemma build_fallback_steps csv_row dealer_id source :
  build_fallback_search_params csv_row dealer_id source =
  step_range (usable_cell csv_row "KM") "odometerFrom" "odometerTo"
    (step_range (usable_cell csv_row "Price") "priceFrom" "priceTo"
       (step_text (usable_cell csv_row "Year") "manu_year"
          (step_text (usable_cell csv_row "Model") "model"
             (step_text (usable_cell csv_row "Make") "make"
                (step_source source
                   [ ("dealer_id", dealer_id); ("ipLookup", "1");
                     ("sorting_variation", "smart_sort_3"); ("paginate", "26") ]))))).
Proof. reflexivity. Qed.

Section Head.
Variables k0 v0 : string.

Let headed (p : list (string * string)) : Prop := exists rest, p = (k0, v0) :: rest.

Lemma headed_set p k v : String.eqb k k0 = false -> headed p -> headed (dict_set p k v).
Proof. intros H [rest ->]. rewrite dict_set_keeps_head by assumption. now eexists. Qed.

Lemma headed_text o p k :
  String.eqb k k0 = false -> headed p -> headed (step_text o k p).
Proof. intros H Hp. destruct o; [now apply headed_set | exact Hp]. Qed.

Lemma headed_range o p k1 k2 :
  String.eqb k1 k0 = false -> String.eqb k2 k0 = false -> headed p ->
  headed (step_range o k1 k2 p).
Proof.
  intros H1 H2 Hp. unfold step_range. destruct o as [cell|]; [|exact Hp].
  destruct (py_int _); [|exact Hp]. now apply headed_set, headed_set.
Qed.

Lemma headed_source source p :
  String.eqb "source" k0 = false -> headed p -> headed (step_source source p).
Proof.
  intros H Hp. unfold step_source. destruct source as [src|]; [|exact Hp].
  destruct (negb _); [now apply headed_set | exact Hp].
Qed.

End Head.

Lemma fallback_params_head csv_row dealer_id source :
  exists rest, build_fallback_search_params csv_row dealer_id source
               = ("dealer_id", dealer_id) :: rest.
Proof.
  rewrite build_fallback_steps.
  apply headed_range; [reflexivity..|].
  apply headed_range; [reflexivity..|].
  do 3 (apply headed_text; [reflexivity|]).
  apply headed_source; [reflexivity|].
  now eexists.
Qed.

Lemma carsguide_params_head stock_no dealer_id make :
  exists rest, carsguide_params stock_no dealer_id make = ("stock_no", stock_no) :: rest.
Proof.
  unfold carsguide_params.
  repeat match goal with
         | |- context [match ?x with _ => _ end] => destruct x
         end; cbn [dict_set String.eqb Ascii.eqb Bool.eqb]; eauto.
Qed.

Lemma autotrader_fallback_distinct csv_row stock_no dealer_id :
  autotrader_fallback csv_row dealer_id <> autotrader_bootstrap /\
  autotrader_fallback csv_row dealer_id <> autotrader_primary stock_no dealer_id /\
  autotrader_fallback csv_row dealer_id <> autotrader_retry stock_no dealer_id.
Proof.
  unfold autotrader_fallback, autotrader_bootstrap, autotrader_primary, autotrader_retry.
  destruct (fallback_params_head csv_row dealer_id None) as [rest ->].
  repeat split; discriminate.
Qed.

Lemma carsguide_fallback_distinct csv_row stock_no dealer_id make :
  carsguide_fallback csv_row dealer_id <> carsguide_bootstrap /\
  carsguide_fallback csv_row dealer_id <> carsguide_primary stock_no dealer_id make /\
  carsguide_fallback csv_row dealer_id <> carsguide_retry stock_no dealer_id make.
Proof.
  unfold carsguide_fallback, carsguide_bootstrap, carsguide_primary, carsguide_retry.
  destruct (fallback_params_head csv_row dealer_id (Some "CG")) as [rest ->].
  destruct (carsguide_params_head stock_no dealer_id make) as [rest' ->].
  repeat split; discriminate.
Qed.

(** A step that sets other keys leaves a key as it was. *)
Lemma get_skip_text o p k k' :
  String.eqb k k' = false -> dict_get (step_text o k p) k' = dict_get p k'.
Proof.
  intros H%String.eqb_neq. destruct o; [now apply dict_get_set_other | reflexivity].
Qed.

Lemma get_skip_range o p k1 k2 k' :
  String.eqb k1 k' = false -> String.eqb k2 k' = false ->
  dict_get (step_range o k1 k2 p) k' = dict_get p k'.
Proof.
  intros H1%String.eqb_neq H2%String.eqb_neq. unfold step_range.
  destruct o as [cell|]; [|reflexivity].
  destruct (py_int _); [|reflexivity].
  now rewrite !dict_get_set_other.
Qed.

Lemma get_skip_source source p k' :
  String.eqb "source" k' = false -> dict_get (step_source source p) k' = dict_get p k'.
Proof.
  intros H%String.eqb_neq. unfold step_source. destruct source as [src|]; [|reflexivity].
  destruct (negb _); [now apply dict_get_set_other | reflexivity].
Qed.

Lemma get_text o p k :
  dict_get p k = None -> dict_get (step_text o k p) k = option_map sent_text o.
Proof. intros H. destruct o; [apply dict_get_set_same | exact H]. Qed.

Lemma get_range_from o p k1 k2 :
  String.eqb k2 k1 = false -> dict_get p k1 = None ->
  dict_get (step_range o k1 k2 p) k1 = range_of o (-100).
Proof.
  intros H1%String.eqb_neq H2. unfold step_range, range_of, read_int.
  destruct o as [cell|]; [|exact H2].
  destruct (py_int _); [|exact H2].
  rewrite dict_get_set_other by assumption. apply dict_get_set_same.
Qed.

Lemma get_range_to o p k1 k2 :
  dict_get p k2 = None -> dict_get (step_range o k1 k2 p) k2 = range_of o 100.
Proof.
  intros H2. unfold step_range, range_of, read_int. destruct o as [cell|]; [|exact H2].
  destruct (py_int _); [|exact H2]. apply dict_get_set_same.
Qed.

Ltac skip_steps :=
  repeat first
    [ rewrite get_skip_text by reflexivity
    | rewrite get_skip_range by reflexivity
    | rewrite get_skip_source by reflexivity ].

Lemma fallback_params_content csv_row dealer_id source :
  let params := build_fallback_search_params csv_row dealer_id source in
  dict_get params "make" = option_map sent_text (usable_cell csv_row "Make") /\
  dict_get params "model" = option_map sent_text (usable_cell csv_row "Model") /\
  dict_get params "manu_year" = option_map sent_text (usable_cell csv_row "Year") /\
  dict_get params "priceFrom" = range_of (usable_cell csv_row "Price") (-100) /\
  dict_get params "priceTo" = range_of (usable_cell csv_row "Price") 100 /\
  dict_get params "odometerFrom" = range_of (usable_cell csv_row "KM") (-100) /\
  dict_get params "odometerTo" = range_of (usable_cell csv_row "KM") 100.
Proof.
  cbv zeta. rewrite build_fallback_steps.
  repeat split; skip_steps.
  - rewrite get_text; [reflexivity|]. now skip_steps.
  - rewrite get_text; [reflexivity|]. now skip_steps.
  - rewrite get_text; [reflexivity|]. now skip_steps.
  - rewrite get_range_from; [reflexivity | reflexivity |]. now skip_steps.
  - rewrite get_range_to; [reflexivity |]. now skip_steps.
  - rewrite get_range_from; [reflexivity | reflexivity |]. now skip_steps.
  - rewrite get_range_to; [reflexivity |]. now skip_steps.
Qed.

Lemma client_is_lookup net stock_no dealer_id make csv_row c :
  c = autotrader_client net stock_no dealer_id csv_row \/
  c = carsguide_client net stock_no dealer_id make csv_row ->
  run c = lookup net (bootstrap c) (primary c) (retry c) (fallback c).
Proof.
  intros [-> | ->]; cbn [run bootstrap primary retry fallback autotrader_client carsguide_client].
  - apply autotrader_is_lookup.
  - apply carsguide_is_lookup.
Qed.

Lemma client_retry_identity net stock_no dealer_id make csv_row c :
  c = autotrader_client net stock_no dealer_id csv_row \/
  c = carsguide_client net stock_no dealer_id make csv_row ->
  req_url (retry c) = req_url (primary c) /\
  req_params (retry c) = req_params (primary c) /\
  dict_get (req_headers (retry c)) "user-agent"
    <> dict_get (req_headers (primary c)) "user-agent".
Proof. intros [-> | ->]; repeat split; discriminate. Qed.

End ProviderFacts.

Module BatchFacts.
Import PyStr Py Reconcile Eff Http Provider Batch BatchSpec DictFacts.
Implicit Types (df : frame) (r : row) (index : nat) (col : string).

Lemma frame_set_length df index col v :
  List.length (frame_set df index col v) = List.length df.
Proof.
  revert index. induction df as [|r df IH]; intros [|i]; simpl; auto.
Qed.

Lemma frame_set_same df index col v r :
  nth_error df index = Some r ->
  nth_error (frame_set df index col v) index = Some (dict_set r col v).
Proof.
  revert index. induction df as [|r0 df IH]; intros [|i]; simpl; try discriminate.
  - now intros [= ->].
  - apply IH.
Qed.

Lemma frame_set_other df index j col v :
  j <> index -> nth_error (frame_set df index col v) j = nth_error df j.
Proof.
  revert index j. induction df as [|r0 df IH]; intros [|i] [|j] H; simpl; auto; congruence.
Qed.

Lemma frame_set_none df index col v :
  nth_error df index = None -> frame_set df index col v = df.
Proof.
  revert index. induction df as [|r0 df IH]; intros [|i]; simpl; try discriminate; auto.
  intros H. now rewrite IH.
Qed.

Lemma same_but_refl cols index df : same_but cols index df df.
Proof. split; [reflexivity|]. intros j r H. exists r. auto. Qed.

Lemma same_but_trans cols index df1 df2 df3 :
  same_but cols index df1 df2 -> same_but cols index df2 df3 -> same_but cols index df1 df3.
Proof.
  intros [L1 H1] [L2 H2]. split; [congruence|].
  intros j r Hr. destruct (H1 j r Hr) as (r2 & Hr2 & E2 & K2).
  destruct (H2 j r2 Hr2) as (r3 & Hr3 & E3 & K3).
  exists r3. repeat split; auto.
  - intros Hj. rewrite E3, E2; auto.
  - intros k Hk. rewrite K3, K2; auto.
Qed.

Lemma same_but_set cols index df col v :
  In col cols -> same_but cols index df (frame_set df index col v).
Proof.
  intros Hin. split; [apply frame_set_length|].
  intros j r Hr. destruct (Nat.eq_dec j index) as [->|Hj].
  - exists (dict_set r col v). repeat split.
    + now apply frame_set_same.
    + congruence.
    + intros k Hk. apply dict_get_set_other. congruence.
  - exists r. rewrite frame_set_other by assumption. auto.
Qed.

Lemma same_but_set2 cols index df c1 v1 c2 v2 :
  In c1 cols -> In c2 cols ->
  same_but cols index df (frame_set (frame_set df index c1 v1) index c2 v2).
Proof.
  intros H1 H2. eapply same_but_trans; [apply same_but_set | apply same_but_set]; assumption.
Qed.

Lemma same_but_weaken cols cols' index df df' :
  (forall k, In k cols -> In k cols') ->
  same_but cols index df df' -> same_but cols' index df df'.
Proof.
  intros Hsub [L H]. split; [assumption|].
  intros j r Hr. destruct (H j r Hr) as (r' & Hr' & E & K).
  exists r'. repeat split; auto.
Qed.

Lemma explicit_set index col df s :
  In s statuses -> explicit index col (frame_set df index col (SStr s)).
Proof.
  intros Hs r Hr.
  destruct (nth_error df index) as [r0|] eqn:E.
  - rewrite (frame_set_same _ _ _ _ _ E) in Hr. injection Hr as <-.
    exists s. split; [apply dict_get_set_same | assumption].
  - rewrite frame_set_none in Hr by assumption. congruence.
Qed.

Lemma explicit_kept cols index col df df' :
  ~ In col cols -> same_but cols index df df' -> explicit index col df -> explicit index col df'.
Proof.
  intros Hcol [L H] Hex r' Hr'.
  destruct (nth_error df index) as [r|] eqn:E.
  - destruct (H index r E) as (r2 & Hr2 & _ & K).
    assert (r2 = r') by congruence. subst r2.
    rewrite K by assumption. now apply Hex.
  - apply nth_error_None in E. rewrite <- L in E. apply nth_error_None in E. congruence.
Qed.

Lemma compare_status_explicit csv_data vehicle_data status notes :
  autotrader_compare_data csv_data vehicle_data = Ok (status, notes) ->
  In status statuses.
Proof.
  unfold autotrader_compare_data.
  repeat match goal with
         | |- context [match ?x with _ => _ end] =>
             lazymatch x with
             | context [match _ with _ => _ end] => fail
             | _ => destruct x
             end
         end; intros H; inversion H; subst; simpl; tauto.
Qed.

(** ** Columns and their dtype *)

Lemma column_set_other df index c col v :
  c <> col -> column (frame_set df index c v) col = column df col.
Proof.
  intros Hc. revert index. unfold column.
  induction df as [|r df IH]; intros [|i]; cbn [frame_set flat_map]; try reflexivity.
  - now rewrite dict_get_set_other.
  - now rewrite IH.
Qed.

Lemma column_set_in df index col v :
  (index < List.length df)%nat -> In v (column (frame_set df index col v) col).
Proof.
  revert index. unfold column.
  induction df as [|r df IH]; intros [|i] H; cbn [List.length] in H; try lia;
    cbn [frame_set flat_map]; apply in_or_app.
  - left. rewrite dict_get_set_same. now left.
  - right. apply IH. lia.
Qed.

Lemma forallb_false_in {A} (f : A -> bool) (l : list A) x :
  In x l -> f x = false -> forallb f l = false.
Proof.
  intros Hin Hx. destruct (forallb f l) eqn:E; [|reflexivity].
  rewrite forallb_forall in E. rewrite (E x Hin) in Hx. discriminate Hx.
Qed.

(** A column with a text in it is a column of strings. *)
Lemma text_cell_dtype df col s : In (SStr s) (column df col) -> numeric_dtype df col = None.
Proof.
  intros Hin. unfold numeric_dtype.
  destruct (column df col) as [|a l] eqn:E; [reflexivity|].
  now rewrite (forallb_false_in is_number (a :: l) (SStr s) Hin eq_refl).
Qed.

(** Writing a text keeps the columns of strings as they are. *)
Lemma numeric_dtype_set df index c col v :
  numeric_dtype df col = None -> numeric_dtype (frame_set df index c (SStr v)) col = None.
Proof.
  intros H. destruct (string_dec c col) as [->|Hc].
  - destruct (Nat.lt_ge_cases index (List.length df)) as [Hlt|Hge].
    + apply (text_cell_dtype _ _ v). now apply column_set_in.
    + rewrite frame_set_none; [assumption|]. now apply nth_error_None.
  - unfold numeric_dtype. rewrite column_set_other by assumption. exact H.
Qed.

(** Writing into a column leaves the other columns as they are. *)
Lemma numeric_dtype_other df index c col v :
  c <> col -> numeric_dtype (frame_set df index c v) col = numeric_dtype df col.
Proof. intros Hc. unfold numeric_dtype. now rewrite column_set_other. Qed.

Lemma dtypes_kept_refl df : dtypes_kept df df.
Proof. intros col. reflexivity. Qed.

Lemma dtypes_kept_trans df1 df2 df3 :
  dtypes_kept df1 df2 -> dtypes_kept df2 df3 -> dtypes_kept df1 df3.
Proof. intros H1 H2 col. now rewrite H2, H1. Qed.

(** A text written into a column of strings changes no dtype. *)
Lemma dtypes_kept_set df index c v :
  numeric_dtype df c = None -> dtypes_kept df (frame_set df index c (SStr v)).
Proof.
  intros H col. destruct (string_dec c col) as [<-|Hc].
  - rewrite H. now apply numeric_dtype_set.
  - now apply numeric_dtype_other.
Qed.

Lemma text_columns_spec df :
  text_columns df = true <-> forall col, In col result_columns -> numeric_dtype df col = None.
Proof.
  unfold text_columns. rewrite forallb_forall. split; intros H col Hin.
  - specialize (H col Hin). now destruct (numeric_dtype df col).
  - now rewrite (H col Hin).
Qed.

Lemma text_columns_kept df df' : dtypes_kept df df' -> text_columns df' = text_columns df.
Proof.
  intros Hk. unfold text_columns.
  induction result_columns as [|col cols IH]; [reflexivity|].
  cbn [forallb]. now rewrite Hk, IH.
Qed.

(** Six columns of strings, as the writes that went well have found them,
    each on the frame the writes before it had left. *)
Ltac six_columns :=
  repeat match goal with
         | H : context [numeric_dtype (frame_set _ _ _ _) _] |- _ =>
             rewrite numeric_dtype_other in H by discriminate
         end;
  try (apply text_columns_spec; intros ? ?);
  unfold result_columns, autotrader_columns, carsguide_columns in *;
  cbn [In app] in *;
  repeat match goal with
         | H : _ \/ _ |- _ => destruct H as [H|H]
         | H : False |- _ => destruct H
         end; subst; assumption.

(** ** Running the loop *)

Ltac run_batch :=
  cbv beta iota zeta delta [bind ret catch raise lift_res lift_net df_at_set store_url
                            save_json_file add_delay sleep_uniform fst snd].

(** Destruct what the goal branches on, the innermost test first. *)
Ltac branch :=
  match goal with
  | |- context [match ?x with _ => _ end] =>
      lazymatch x with
      | context [match _ with _ => _ end] => fail
      | _ => let E := fresh "E" in destruct x eqn:E
      end
  end.

(** The frame of the goal is the start frame but for columns of row [index]. *)
Ltac in_columns :=
  unfold result_columns, autotrader_columns, carsguide_columns; simpl; tauto.

Ltac same_but_sets :=
  first [ apply same_but_refl
        | eapply same_but_trans; [|apply same_but_set; in_columns]; same_but_sets ].

Ltac dtypes_sets :=
  first [ apply dtypes_kept_refl
        | eapply dtypes_kept_trans; [|apply dtypes_kept_set; assumption]; dtypes_sets ].

(** The columns of the goal are columns of strings, as those of the start
    frame are known to be. *)
Ltac writes_ok :=
  repeat match goal with
         | |- context [numeric_dtype ?d ?c] =>
             let H := fresh in
             assert (H : numeric_dtype d c = None)
               by (repeat apply numeric_dtype_set; assumption);
             rewrite H; clear H; cbv beta iota
         end.

Ltac pairs := cbv beta iota zeta; cbn [fst snd].

(** What a block leaves at the end of one of its paths: a frame that
    differs in its own columns only and has the same dtypes, and, when the
    path ends normally, a status in a column of strings. *)
Ltac block_leaf others :=
  split;
  [ same_but_sets
  | split;
    [ dtypes_sets
    | first
        [ discriminate
        | intros _; split;
          [ eapply (explicit_kept others);
            [ simpl; intuition discriminate
            | apply same_but_set2; simpl; tauto
            | apply explicit_set;
              first [ simpl; tauto | eapply compare_status_explicit; eassumption ] ]
          | intros col Hin; six_columns ] ] ] ].

Lemma process_autotrader_result_spec save_results index car_dict combined result df tr :
  let out := process_autotrader_result save_results index car_dict combined result (df, tr) in
  same_but autotrader_columns index df (fst (snd out)) /\
  dtypes_kept df (fst (snd out)) /\
  (fst out = Ok tt ->
   explicit index "Autotrader" (fst (snd out)) /\
   forall col, In col autotrader_columns -> numeric_dtype df col = None).
Proof.
  unfold process_autotrader_result. run_batch.
  repeat (branch; run_batch);
    block_leaf ["Autotrader Notes"; "Autotrader URL"].
Qed.

Lemma process_carsguide_result_spec save_results index car_dict combined result df tr :
  let out := process_carsguide_result save_results index car_dict combined result (df, tr) in
  same_but carsguide_columns index df (fst (snd out)) /\
  dtypes_kept df (fst (snd out)) /\
  (fst out = Ok tt ->
   explicit index "Carsguide" (fst (snd out)) /\
   forall col, In col carsguide_columns -> numeric_dtype df col = None).
Proof.
  unfold process_carsguide_result.
  change carsguide_compare_data with autotrader_compare_data. run_batch.
  repeat (branch; run_batch);
    block_leaf ["Carsguide Notes"; "Carsguide URL"].
Qed.

(** What a block writes for a result it cannot use (None, an empty object,
    an object without "data") and for one whose "data" is empty, when its
    columns are columns of strings. *)
Lemma block_writes save_results index car_dict combined result df tr :
  text_columns df = true ->
  (usable_result result = Ok false ->
   process_autotrader_result save_results index car_dict combined result (df, tr) =
     (Ok tt,
      (three_cells index "Autotrader" "Autotrader Notes" "Autotrader URL"
         "API Error" "Failed to retrieve data from AutoTrader API" "" df, tr)) /\
   process_carsguide_result save_results index car_dict combined result (df, tr) =
     (Ok tt,
      (three_cells index "Carsguide" "Carsguide Notes" "Carsguide URL"
         "API Error" "Failed to retrieve data from Carsguide API" "" df, tr))) /\
  (forall data,
      usable_result result = Ok true ->
      py_getitem result "data" = Ok data -> py_len data = Ok 0 ->
      process_autotrader_result save_results index car_dict combined result (df, tr) =
        (Ok tt,
         (three_cells index "Autotrader" "Autotrader Notes" "Autotrader URL"
            "Not Found" "Vehicle not found in AutoTrader API" "" df, tr)) /\
      process_carsguide_result save_results index car_dict combined result (df, tr) =
        (Ok tt,
         (three_cells index "Carsguide" "Carsguide Notes" "Carsguide URL"
            "Not Found" "Vehicle not found in Carsguide API" "" df, tr))).
Proof.
  intros Hready. pose proof (proj1 (text_columns_spec df) Hready) as Hcols.
  assert (H1 := Hcols "Autotrader" ltac:(in_columns)).
  assert (H2 := Hcols "Autotrader Notes" ltac:(in_columns)).
  assert (H3 := Hcols "Autotrader URL" ltac:(in_columns)).
  assert (H4 := Hcols "Carsguide" ltac:(in_columns)).
  assert (H5 := Hcols "Carsguide Notes" ltac:(in_columns)).
  assert (H6 := Hcols "Carsguide URL" ltac:(in_columns)).
  unfold process_autotrader_result, process_carsguide_result, three_cells.
  split.
  - intros Hu. run_batch. rewrite Hu. run_batch. split; writes_ok; reflexivity.
  - intros data Hu Hd Hl. run_batch. rewrite Hu. run_batch. rewrite Hd. run_batch.
    rewrite Hl. run_batch. change (0 =? 0) with true. run_batch.
    split; writes_ok; reflexivity.
Qed.

(** Six cells written one after the other, the two statuses among them. *)
Lemma six_sets_spec df index a an au c cn cu :
  In a statuses -> In c statuses ->
  let df' := six_cells index a an au c cn cu df in
  same_but result_columns index df df' /\
  explicit index "Autotrader" df' /\ explicit index "Carsguide" df'.
Proof.
  intros Ha Hc df'. subst df'. unfold six_cells. split; [|split].
  - same_but_sets.
  - eapply (explicit_kept
              ["Autotrader Notes"; "Autotrader URL"; "Carsguide"; "Carsguide Notes";
               "Carsguide URL"] index "Autotrader"
              (frame_set df index "Autotrader" (SStr a)));
      [ simpl; intuition discriminate | same_but_sets | now apply explicit_set ].
  - eapply (explicit_kept ["Carsguide Notes"; "Carsguide URL"]);
      [ simpl; intuition discriminate
      | apply same_but_set2; simpl; tauto
      | now apply explicit_set ].
Qed.

(** The six writes of a row that is not searched, and those of the
    handler: they add no event, touch the result cells of their row only
    and change no dtype; they end normally exactly when the six result
    columns are columns of strings, and then all six cells have been
    written. *)
Ltac six_writes :=
  run_batch; repeat (branch; run_batch);
  (split; [same_but_sets | split; [dtypes_sets | split; [reflexivity|]]]);
  first [ discriminate | intros _; split; [reflexivity | six_columns] ].

Lemma record_not_searched_spec index df tr :
  let out := record_not_searched index (df, tr) in
  same_but result_columns index df (fst (snd out)) /\
  dtypes_kept df (fst (snd out)) /\
  snd (snd out) = tr /\
  (fst out = Ok tt ->
   fst (snd out) = six_cells index "Not Searched" "Missing Year or StockNo" ""
                     "Not Searched" "Missing Year or StockNo" "" df /\
   text_columns df = true).
Proof. unfold record_not_searched, six_cells. six_writes. Qed.

Lemma record_error_spec index e df tr :
  let out := record_error index e (df, tr) in
  same_but result_columns index df (fst (snd out)) /\
  dtypes_kept df (fst (snd out)) /\
  snd (snd out) = tr /\
  (fst out = Ok tt ->
   fst (snd out) = six_cells index "Error" ("Error processing: " ++ exn_msg e) ""
                     "Error" ("Error processing: " ++ exn_msg e) "" df /\
   text_columns df = true).
Proof. unfold record_error, six_cells. six_writes. Qed.

(** With columns of strings the six writes end normally. *)
Lemma record_error_run index e df tr :
  text_columns df = true ->
  record_error index e (df, tr) =
  (Ok tt,
   (six_cells index "Error" ("Error processing: " ++ exn_msg e) ""
      "Error" ("Error processing: " ++ exn_msg e) "" df, tr)).
Proof.
  intros Hready. pose proof (proj1 (text_columns_spec df) Hready) as Hcols.
  assert (H1 := Hcols "Autotrader" ltac:(in_columns)).
  assert (H2 := Hcols "Autotrader Notes" ltac:(in_columns)).
  assert (H3 := Hcols "Autotrader URL" ltac:(in_columns)).
  assert (H4 := Hcols "Carsguide" ltac:(in_columns)).
  assert (H5 := Hcols "Carsguide Notes" ltac:(in_columns)).
  assert (H6 := Hcols "Carsguide URL" ltac:(in_columns)).
  unfold record_error, six_cells. run_batch. writes_ok. reflexivity.
Qed.

Lemma record_not_searched_run index df tr :
  text_columns df = true ->
  record_not_searched index (df, tr) =
  (Ok tt,
   (six_cells index "Not Searched" "Missing Year or StockNo" ""
      "Not Searched" "Missing Year or StockNo" "" df, tr)).
Proof.
  intros Hready. pose proof (proj1 (text_columns_spec df) Hready) as Hcols.
  assert (H1 := Hcols "Autotrader" ltac:(in_columns)).
  assert (H2 := Hcols "Autotrader Notes" ltac:(in_columns)).
  assert (H3 := Hcols "Autotrader URL" ltac:(in_columns)).
  assert (H4 := Hcols "Carsguide" ltac:(in_columns)).
  assert (H5 := Hcols "Carsguide Notes" ltac:(in_columns)).
  assert (H6 := Hcols "Carsguide URL" ltac:(in_columns)).
  unfold record_not_searched, six_cells. run_batch. writes_ok. reflexivity.
Qed.

Lemma result_columns_left index df df' :
  same_but autotrader_columns index df df' -> same_but result_columns index df df'.
Proof.
  apply same_but_weaken. unfold result_columns. intros k Hk. apply in_or_app. now left.
Qed.

Lemma result_columns_right index df df' :
  same_but carsguide_columns index df df' -> same_but result_columns index df df'.
Proof.
  apply same_but_weaken. unfold result_columns. intros k Hk. apply in_or_app. now right.
Qed.

(** The rows the loop does not search: those where the text of Year or of
    StockNo is empty, which is the case of a missing column and of an empty
    string. *)
Lemma blank_key_not_searched net save_results index row df tr :
  row_get row "Year" (SStr "") = SStr "" \/ row_get row "StockNo" (SStr "") = SStr "" ->
  process_row_body net save_results index row (df, tr) = record_not_searched index (df, tr).
Proof.
  intros H. unfold process_row_body. cbv zeta.
  assert (Hskip :
            negb (truthy_scalar (SStr (str_scalar (row_get row "Year" (SStr ""))))) ||
            negb (truthy_scalar (SStr (str_scalar (row_get row "StockNo" (SStr ""))))) = true).
  { destruct H as [-> | ->]; cbn [str_scalar truthy_scalar String.eqb negb orb];
      [reflexivity | apply orb_true_r]. }
  rewrite Hskip. reflexivity.
Qed.

Lemma process_row_body_spec net save_results index row df tr :
  let out := process_row_body net save_results index row (df, tr) in
  same_but result_columns index df (fst (snd out)) /\
  dtypes_kept df (fst (snd out)) /\
  (fst out = Ok tt ->
   explicit index "Autotrader" (fst (snd out)) /\ explicit index "Carsguide" (fst (snd out)) /\
   text_columns df = true).
Proof.
  intros out.
  assert (E : process_row_body net save_results index row (df, tr) = out) by reflexivity.
  clearbody out. revert E.
  unfold process_row_body. cbv zeta.
  destruct (_ || _).
  { intros <-.
    destruct (record_not_searched_spec index df tr) as (Hsame & Hkeep & _ & Hok).
    split; [assumption|]. split; [assumption|]. intros Hfst.
    destruct (Hok Hfst) as [-> Hready].
    destruct (six_sets_spec df index "Not Searched" "Missing Year or StockNo" ""
                "Not Searched" "Missing Year or StockNo" "")
      as (H1 & H2 & H3); simpl; auto. }
  unfold bind at 1. unfold lift_net at 1. cbn [fst snd].
  destruct (autotrader_search_vehicle _ _ _ _ tr) as [[autotrader_result|e] tr1]; pairs;
    [|intros <-; pairs;
      split; [apply same_but_refl | split; [apply dtypes_kept_refl | discriminate]]].
  unfold bind at 1.
  pose proof (process_autotrader_result_spec save_results index row
                (str_scalar (row_get row "Year" (SStr "")) ++
                 str_scalar (row_get row "StockNo" (SStr "")))
                autotrader_result df tr1) as Hat.
  cbv zeta in Hat.
  destruct (process_autotrader_result _ _ _ _ _ (df, tr1)) as [[[]|e] [df2 tr2]];
    cbn [fst snd] in Hat; destruct Hat as (Hsame2 & Hkeep2 & Hexp2); pairs;
    [|intros <-; pairs;
      split; [now apply result_columns_left | split; [assumption | discriminate]]].
  destruct (Hexp2 eq_refl) as [Hexp2' Hcols2].
  unfold bind at 1. unfold lift_net at 1, add_delay at 1, sleep_uniform at 1. pairs.
  unfold bind at 1. unfold lift_net at 1. pairs.
  destruct (carsguide_search_vehicle _ _ _ _ _ _) as [[carsguide_result|e] tr3]; pairs;
    [|intros <-; pairs;
      split; [now apply result_columns_left | split; [assumption | discriminate]]].
  unfold bind at 1.
  pose proof (process_carsguide_result_spec save_results index row
                (str_scalar (row_get row "Year" (SStr "")) ++
                 str_scalar (row_get row "StockNo" (SStr "")))
                carsguide_result df2 tr3) as Hcg.
  cbv zeta in Hcg.
  destruct (process_carsguide_result _ _ _ _ _ (df2, tr3)) as [[[]|e] [df4 tr4]];
    cbn [fst snd] in Hcg; destruct Hcg as (Hsame4 & Hkeep4 & Hexp4); pairs.
  - unfold lift_net, add_delay, sleep_uniform. pairs. intros <-. pairs.
    destruct (Hexp4 eq_refl) as [Hexp4' Hcols4].
    split; [|split; [|intros _; split; [|split]]].
    + eapply same_but_trans;
        [ apply result_columns_left; eassumption
        | apply result_columns_right; eassumption ].
    + eapply dtypes_kept_trans; eassumption.
    + eapply (explicit_kept carsguide_columns); [|exact Hsame4|exact Hexp2'].
      simpl. intuition discriminate.
    + assumption.
    + apply text_columns_spec. intros col Hin. unfold result_columns in Hin.
      apply in_app_or in Hin. destruct Hin as [Hin|Hin]; [now apply Hcols2|].
      rewrite <- (Hkeep2 col). now apply Hcols4.
  - intros <-. pairs. split; [|split; [|discriminate]].
    + eapply same_but_trans;
        [ apply result_columns_left; eassumption
        | apply result_columns_right; eassumption ].
    + eapply dtypes_kept_trans; eassumption.
Qed.

(** One turn of the loop only touches the result cells of its own row and
    changes no dtype; it ends normally exactly when the six result columns
    are columns of strings, and then it leaves a status in both status
    columns. *)
Lemma process_row_spec net save_results index row df tr :
  let out := process_row net save_results index row (df, tr) in
  same_but result_columns index df (fst (snd out)) /\
  dtypes_kept df (fst (snd out)) /\
  (fst out = Ok tt ->
   explicit index "Autotrader" (fst (snd out)) /\ explicit index "Carsguide" (fst (snd out))) /\
  (fst out = Ok tt <-> text_columns df = true).
Proof.
  unfold process_row, catch.
  pose proof (process_row_body_spec net save_results index row df tr) as Hbody.
  cbv zeta in Hbody.
  destruct (process_row_body net save_results index row (df, tr)) as [[[]|e] [df1 tr1]];
    cbn [fst snd] in Hbody; destruct Hbody as (Hsame & Hkeep & Hexp).
  - cbn [fst snd]. destruct (Hexp eq_refl) as (H1 & H2 & H3).
    split; [assumption|]. split; [assumption|]. split; [auto|]. split; auto.
  - destruct (record_error_spec index e df1 tr1) as (Hsame2 & Hkeep2 & _ & Hok).
    split; [eapply same_but_trans; eassumption|].
    split; [eapply dtypes_kept_trans; eassumption|]. split; [|split].
    + intros Hfst. destruct (Hok Hfst) as [-> _].
      destruct (six_sets_spec df1 index "Error" ("Error processing: " ++ exn_msg e) ""
                  "Error" ("Error processing: " ++ exn_msg e) "")
        as (H1 & H2 & H3); simpl; tauto.
    + intros Hfst. destruct (Hok Hfst) as [_ Hready].
      now rewrite <- (text_columns_kept df df1).
    + intros Hready. rewrite record_error_run; [reflexivity|].
      now rewrite (text_columns_kept df df1).
Qed.

(** The loop from row [index] on: it keeps the number of rows, all but the
    result columns, the rows before [index] and the dtypes. *)
Lemma process_rows_frame net save_results rows : forall index df tr,
  let out := process_rows net save_results index rows (df, tr) in
  List.length (fst (snd out)) = List.length df /\
  (forall j, row_kept df (fst (snd out)) j) /\
  (forall j, (j < index)%nat -> nth_error (fst (snd out)) j = nth_error df j) /\
  dtypes_kept df (fst (snd out)).
Proof.
  induction rows as [|row rows IH]; intros index df tr.
  - cbn [process_rows ret fst snd]. repeat split; try reflexivity.
    intros j r Hr. exists r. auto.
  - cbn [process_rows]. unfold bind.
    pose proof (process_row_spec net save_results index row df tr) as Hrow.
    cbv zeta in Hrow.
    destruct (process_row net save_results index row (df, tr)) as [[[]|e] [df1 tr1]];
      cbn [fst snd] in Hrow; destruct Hrow as ([Hlen Hsame] & Hkeep & _).
    + specialize (IH (S index) df1 tr1). cbv zeta in IH.
      destruct (process_rows net save_results (S index) rows (df1, tr1)) as [r2 [df2 tr2]].
      cbn [fst snd] in IH |- *.
      destruct IH as (Hlen2 & Hkept2 & Hbefore2 & Hkeep2).
      split; [congruence|]. split; [|split].
      * intros j r Hr. destruct (Hsame j r Hr) as (r1 & Hr1 & _ & K1).
        destruct (Hkept2 j r1 Hr1) as (r2' & Hr2 & K2).
        exists r2'. split; [assumption|]. intros k Hk. rewrite K2, K1; auto.
      * intros j Hj. rewrite Hbefore2 by lia.
        destruct (nth_error df j) as [r|] eqn:E.
        -- destruct (Hsame j r E) as (r1 & Hr1 & E1 & _). rewrite Hr1, E1; [reflexivity | lia].
        -- apply nth_error_None in E. apply nth_error_None. lia.
      * eapply dtypes_kept_trans; eassumption.
    + cbn [fst snd]. split; [assumption|]. split; [|split].
      * intros j r Hr. destruct (Hsame j r Hr) as (r1 & Hr1 & _ & K1). eauto.
      * intros j Hj.
        destruct (nth_error df j) as [r|] eqn:E.
        -- destruct (Hsame j r E) as (r1 & Hr1 & E1 & _). rewrite Hr1, E1; [reflexivity | lia].
        -- apply nth_error_None in E. apply nth_error_None. lia.
      * assumption.
Qed.

(** When the loop ends normally every row it went through has a status in
    both status columns. *)
Lemma process_rows_explicit net save_results rows : forall index df tr,
  let out := process_rows net save_results index rows (df, tr) in
  fst out = Ok tt ->
  forall j, (index <= j < index + List.length rows)%nat -> row_explicit (fst (snd out)) j.
Proof.
  induction rows as [|row rows IH]; intros index df tr; cbv zeta.
  - cbn [List.length]. intros _ j Hj. lia.
  - cbn [process_rows]. unfold bind.
    pose proof (process_row_spec net save_results index row df tr) as Hrow.
    cbv zeta in Hrow.
    destruct (process_row net save_results index row (df, tr)) as [[[]|e] [df1 tr1]];
      cbn [fst snd] in Hrow; destruct Hrow as (_ & _ & Hexp & _);
      [|cbn [fst]; discriminate].
    destruct (Hexp eq_refl) as [Hat Hcg].
    pose proof (process_rows_frame net save_results rows (S index) df1 tr1) as Hframe.
    specialize (IH (S index) df1 tr1). cbv zeta in IH, Hframe.
    destruct (process_rows net save_results (S index) rows (df1, tr1)) as [r2 [df2 tr2]].
    cbn [fst snd] in IH, Hframe |- *.
    destruct Hframe as (_ & _ & Hbefore2 & _).
    intros Hok j Hj. cbn [List.length] in Hj.
    destruct (Nat.eq_dec j index) as [->|Hne].
    + split; intros r Hr; rewrite Hbefore2 in Hr by lia; [now apply Hat | now apply Hcg].
    + apply (IH Hok). lia.
Qed.

(** The loop ends normally when the result columns are columns of strings,
    and only then, unless it has no row to go through. *)
Lemma process_rows_ok net save_results rows : forall index df tr,
  text_columns df = true ->
  fst (process_rows net save_results index rows (df, tr)) = Ok tt.
Proof.
  induction rows as [|row rows IH]; intros index df tr Hready; [reflexivity|].
  cbn [process_rows]. unfold bind.
  pose proof (process_row_spec net save_results index row df tr) as Hrow.
  cbv zeta in Hrow.
  destruct (process_row net save_results index row (df, tr)) as [[[]|e] [df1 tr1]];
    cbn [fst snd] in Hrow; destruct Hrow as (_ & Hkeep & _ & Hok);
    [|discriminate (proj2 Hok Hready)].
  apply IH. now rewrite (text_columns_kept df df1).
Qed.

Lemma process_rows_needs_text net save_results row rows index df tr :
  fst (process_rows net save_results index (row :: rows) (df, tr)) = Ok tt ->
  text_columns df = true.
Proof.
  cbn [process_rows]. unfold bind.
  pose proof (process_row_spec net save_results index row df tr) as Hrow.
  cbv zeta in Hrow.
  destruct (process_row net save_results index row (df, tr)) as [[[]|e] [df1 tr1]];
    cbn [fst snd] in Hrow; destruct Hrow as (_ & _ & _ & Hok).
  - intros _. now apply Hok.
  - discriminate.
Qed.

Lemma add_column_length col df : List.length (add_column col df) = List.length df.
Proof. apply length_map. Qed.

Lemma add_column_kept col df j r :
  nth_error df j = Some r ->
  exists r', nth_error (add_column col df) j = Some r' /\
             forall k, k <> col -> dict_get r' k = dict_get r k.
Proof.
  intros H. unfold add_column. rewrite (map_nth_error _ _ _ H).
  eexists. split; [reflexivity|]. intros k Hk.
  destruct (dict_has r col); [reflexivity|]. apply dict_get_set_other. congruence.
Qed.

Lemma add_output_columns_kept df j r :
  nth_error df j = Some r ->
  exists r', nth_error (add_output_columns df) j = Some r' /\
             forall k, ~ In k result_columns -> dict_get r' k = dict_get r k.
Proof.
  intros H. unfold add_output_columns.
  destruct (add_column_kept "Autotrader" _ _ _ H) as (r1 & H1 & K1).
  destruct (add_column_kept "Autotrader Notes" _ _ _ H1) as (r2 & H2 & K2).
  destruct (add_column_kept "Autotrader URL" _ _ _ H2) as (r3 & H3 & K3).
  destruct (add_column_kept "Carsguide" _ _ _ H3) as (r4 & H4 & K4).
  destruct (add_column_kept "Carsguide Notes" _ _ _ H4) as (r5 & H5 & K5).
  destruct (add_column_kept "Carsguide URL" _ _ _ H5) as (r6 & H6 & K6).
  exists r6. split; [assumption|]. intros k Hk.
  unfold result_columns, autotrader_columns, carsguide_columns in Hk. simpl in Hk.
  rewrite K6, K5, K4, K3, K2, K1; intuition congruence.
Qed.

Lemma six_sets_row df index r a an au c cn cu :
  nth_error df index = Some r ->
  exists r',
    nth_error (six_cells index a an au c cn cu df) index = Some r' /\
    dict_get r' "Autotrader" = Some (SStr a) /\
    dict_get r' "Autotrader Notes" = Some (SStr an) /\
    dict_get r' "Autotrader URL" = Some (SStr au) /\
    dict_get r' "Carsguide" = Some (SStr c) /\
    dict_get r' "Carsguide Notes" = Some (SStr cn) /\
    dict_get r' "Carsguide URL" = Some (SStr cu).
Proof.
  intros H. unfold six_cells. eexists. split.
  - do 6 (apply frame_set_same). exact H.
  - repeat split;
      repeat first [ apply dict_get_set_same
                   | rewrite dict_get_set_other by discriminate ].
Qed.

Lemma six_sets_elsewhere df index j a an au c cn cu :
  j <> index ->
  nth_error (six_cells index a an au c cn cu df) j = nth_error df j.
Proof. intros H. unfold six_cells. now rewrite !frame_set_other. Qed.

End BatchFacts.

(** What a row leaves in the trace, for any network. *)
Module TraceFacts.
Import PyStr Py Reconcile Eff Http Provider ProviderSpec Batch BatchSpec.
Import DictFacts ProviderFacts BatchFacts.

(** Every lookup starts with its bootstrap request. *)
Lemma lookup_first_request net bootstrap primary retry fallback tr0 :
  exists new,
    snd (lookup net bootstrap primary retry fallback tr0)
    = (new ++ EvGet bootstrap :: tr0)%list.
Proof.
  unfold lookup. run_monad.
  repeat first
    [ ask_net
    | ask_status
    | match goal with
      | |- context [match json_body ?a with Ok _ => _ | Raise _ => _ end] =>
          destruct (json_body a); known
      | |- context [match has_data ?a with Ok _ => _ | Raise _ => _ end] =>
          destruct (has_data a) as [[|]|]; known
      | |- context [match fallback with Some _ => _ | None => _ end] =>
          destruct fallback; known
      end ];
    match goal with
    | |- exists new, ?l = _ =>
        let p := prefix_of l (EvGet bootstrap :: tr0) in exists p; reflexivity
    end.
Qed.


Ltac grown tr :=
  match goal with
  | |- exists new, ?l = _ => let p := prefix_of l tr in exists p; reflexivity
  end.

(** The two blocks only add events. *)
Lemma process_autotrader_result_grows save_results index car_dict combined result df tr :
  exists new,
    snd (snd (process_autotrader_result save_results index car_dict combined result (df, tr)))
    = (new ++ tr)%list.
Proof.
  unfold process_autotrader_result. run_batch.
  repeat (branch; run_batch); grown tr.
Qed.

Lemma process_carsguide_result_grows save_results index car_dict combined result df tr :
  exists new,
    snd (snd (process_carsguide_result save_results index car_dict combined result (df, tr)))
    = (new ++ tr)%list.
Proof.
  unfold process_carsguide_result. run_batch.
  repeat (branch; run_batch); grown tr.
Qed.

Lemma record_error_trace index e st : snd (snd (record_error index e st)) = snd st.
Proof. destruct st as [df tr]. now destruct (record_error_spec index e df tr) as (_ & _ & H & _). Qed.

(** A row whose Year and StockNo both have a text is looked up: whatever the
    network does, the AutoTrader bootstrap request is sent. *)
Lemma searched_unless_blank net save_results index row df tr :
  str_scalar (row_get row "Year" (SStr "")) <> "" ->
  str_scalar (row_get row "StockNo" (SStr "")) <> "" ->
  In (EvGet autotrader_bootstrap)
     (snd (snd (process_row net save_results index row (df, tr)))).
Proof.
  intros Hyear Hstock.
  assert (Hbody : exists new,
             snd (snd (process_row_body net save_results index row (df, tr)))
             = (new ++ EvGet autotrader_bootstrap :: tr)%list).
  { unfold process_row_body. cbv zeta.
    apply String.eqb_neq in Hyear, Hstock.
    cbn [truthy_scalar pd_isna orb negb]. rewrite Hyear, Hstock. cbn [negb orb].
    unfold bind at 1. unfold lift_net at 1. cbn [fst snd].
    rewrite autotrader_is_lookup.
    destruct (lookup_first_request net autotrader_bootstrap
                (autotrader_primary
                   (str_scalar (row_get row "Year" (SStr "")) ++
                    str_scalar (row_get row "StockNo" (SStr ""))) "12751")
                (autotrader_retry
                   (str_scalar (row_get row "Year" (SStr "")) ++
                    str_scalar (row_get row "StockNo" (SStr ""))) "12751")
                (option_map (fun r => autotrader_fallback r "12751") (row_given (Some row)))
                tr) as [new1 H1].
    destruct (lookup _ _ _ _ _ tr) as [[autotrader_result|e] tr1];
      cbn [snd] in H1; subst tr1; pairs; [|eauto].
    unfold bind at 1.
    destruct (process_autotrader_result_grows save_results index row
                (str_scalar (row_get row "Year" (SStr "")) ++
                 str_scalar (row_get row "StockNo" (SStr "")))
                autotrader_result df (new1 ++ EvGet autotrader_bootstrap :: tr)%list)
      as [new2 H2].
    destruct (process_autotrader_result _ _ _ _ _ _) as [[[]|e] [df2 tr2]];
      cbn [snd] in H2; subst tr2; pairs;
      [|exists (new2 ++ new1)%list; now rewrite <- app_assoc].
    unfold bind at 1. unfold lift_net at 1, add_delay at 1, sleep_uniform at 1. pairs.
    unfold bind at 1. unfold lift_net at 1. pairs.
    rewrite carsguide_is_lookup.
    match goal with
    | |- context [lookup ?n ?b ?p ?r ?f ?t] =>
        destruct (lookup_first_request n b p r f t) as [new3 H3];
        destruct (lookup n b p r f t) as [[carsguide_result|e] tr3]
    end; cbn [snd] in H3; subst tr3; pairs.
    2:{ exists (new3 ++ EvGet carsguide_bootstrap :: EvSleep 1 2 :: new2 ++ new1)%list.
        rewrite <- !app_assoc. cbn [app]. now rewrite <- app_assoc. }
    unfold bind at 1.
    match goal with
    | |- context [process_carsguide_result ?s ?i ?c ?k ?r ?st] =>
        destruct (process_carsguide_result_grows s i c k r df2
                    (new3 ++ EvGet carsguide_bootstrap :: EvSleep 1 2
                       :: new2 ++ new1 ++ EvGet autotrader_bootstrap :: tr)%list)
          as [new4 H4];
        change (process_carsguide_result s i c k r _) with
          (process_carsguide_result s i c k r st) in H4;
        destruct (process_carsguide_result s i c k r st) as [[[]|e] [df4 tr4]]
    end; cbn [snd] in H4; subst tr4; pairs.
    - unfold lift_net, add_delay, sleep_uniform. pairs.
      exists (EvSleep 1 2 :: new4 ++ new3 ++ EvGet carsguide_bootstrap :: EvSleep 1 2
                :: new2 ++ new1)%list.
      cbn [app]. rewrite <- !app_assoc. cbn [app]. now rewrite <- !app_assoc.
    - exists (new4 ++ new3 ++ EvGet carsguide_bootstrap :: EvSleep 1 2 :: new2 ++ new1)%list.
      rewrite <- !app_assoc. cbn [app]. now rewrite <- !app_assoc. }
  destruct Hbody as [new Hnew].
  unfold process_row, catch.
  destruct (process_row_body net save_results index row (df, tr)) as [[[]|e] st1];
    cbn [snd] in Hnew |- *.
  - rewrite Hnew. apply in_or_app. right. now left.
  - rewrite record_error_trace, Hnew. apply in_or_app. right. now left.
Qed.

(** With a NaN (or None) for Year the text of the year is not empty, so
    such a row is looked up as soon as its StockNo has a text. *)
Lemma missing_year_is_searched net save_results index row df tr :
  pd_isna (row_get row "Year" (SStr "")) = true ->
  str_scalar (row_get row "StockNo" (SStr "")) <> "" ->
  In (EvGet autotrader_bootstrap)
     (snd (snd (process_row net save_results index row (df, tr)))).
Proof.
  intros Hna Hstock. apply searched_unless_blank; [|assumption].
  destruct (row_get row "Year" (SStr "")) as [| | |t|];
    cbn [pd_isna] in Hna; try discriminate Hna.
  - cbn. discriminate.
  - apply String.eqb_eq in Hna. subst t. cbn. discriminate.
Qed.

End TraceFacts.

Module ProviderClaims.
Import PyStr Py Reconcile Eff Http Provider ProviderSpec Batch BatchSpec Examples.
Import DictFacts ProviderFacts BatchFacts.




(** With the same empty answer to the primary query, a fallback query that
    is answered with a 500 raises in the session and the row ends as 'API
    Error'; and when the answer to the primary query is an empty object the
    row ends as 'API Error' as well, whatever the fallback query brings. *)
Example fallback_failure_is_api_error :
  List.map (fun r => (dict_get r "Autotrader", dict_get r "Carsguide"))
      (fst (snd (process_csv_file net_fallback_down false [row_2020])))
    = [(Some (SStr "API Error"), Some (SStr "API Error"))] /\
  List.map (fun r => (dict_get r "Autotrader", dict_get r "Carsguide"))
      (fst (snd (process_csv_file net_empty_object false [row_2020])))
    = [(Some (SStr "API Error"), Some (SStr "API Error"))].
Proof. split; reflexivity. Qed.

(** C4, as the code has it.  For either client, given a row that is not
    empty: the fallback request is among the requests of a lookup exactly
    when the primary query came back with a 200 and no listing.  Its
    parameters carry the trimmed text of Make, Model and Year, each only
    when the row has the field with a value that is neither empty, zero nor
    NaN; and for Price and KM under the same condition, when the text reads
    as an integer once trimmed and freed of commas, the bounds that integer
    minus 100 and plus 100. *)
Theorem fallback_query net stock_no dealer_id make csv_row tr0 c request source :
  csv_row <> [] ->
  (c, request, source) =
    (autotrader_client net stock_no dealer_id (Some csv_row),
     autotrader_fallback csv_row dealer_id, None) \/
  (c, request, source) =
    (carsguide_client net stock_no dealer_id make (Some csv_row),
     carsguide_fallback csv_row dealer_id, Some "CG") ->
  (exists new,
      snd (run c tr0) = (new ++ tr0)%list /\
      (In (EvGet request) new <->
       exists result, primary_empty net tr0 (bootstrap c) (primary c) result)) /\
  req_params request = build_fallback_search_params csv_row dealer_id source /\
  let params := build_fallback_search_params csv_row dealer_id source in
  dict_get params "make" =
    option_map (fun cell => strip (str_scalar cell)) (usable_cell csv_row "Make") /\
  dict_get params "model" =
    option_map (fun cell => strip (str_scalar cell)) (usable_cell csv_row "Model") /\
  dict_get params "manu_year" =
    option_map (fun cell => strip (str_scalar cell)) (usable_cell csv_row "Year") /\
  (forall cell price,
      usable_cell csv_row "Price" = Some cell -> read_int cell = Some price ->
      dict_get params "priceFrom" = Some (str_of_Z (price - 100)) /\
      dict_get params "priceTo" = Some (str_of_Z (price + 100))) /\
  (forall cell km,
      usable_cell csv_row "KM" = Some cell -> read_int cell = Some km ->
      dict_get params "odometerFrom" = Some (str_of_Z (km - 100)) /\
      dict_get params "odometerTo" = Some (str_of_Z (km + 100))).
Proof.
  intros Hrow Hc.
  assert (Hgiven : row_given (Some csv_row) = Some csv_row)
    by (destruct csv_row; [contradiction | reflexivity]).
  destruct (fallback_params_content csv_row dealer_id source)
    as (Hmake & Hmodel & Hyear & Hpf & Hpt & Hof & Hot).
  split; [|split; [|split; [|split; [|split; [|split]]]]].
  - destruct Hc as [[= -> -> ->] | [= -> -> ->]].
    + rewrite (client_is_lookup net stock_no dealer_id make (Some csv_row) _
                 (or_introl eq_refl)).
      destruct (autotrader_fallback_distinct csv_row stock_no dealer_id) as (Nb & Np & Nr).
      apply lookup_fallback_sent; try assumption.
      cbn [fallback autotrader_client]. now rewrite Hgiven.
    + rewrite (client_is_lookup net stock_no dealer_id make (Some csv_row) _
                 (or_intror eq_refl)).
      destruct (carsguide_fallback_distinct csv_row stock_no dealer_id make) as (Nb & Np & Nr).
      apply lookup_fallback_sent; try assumption.
      cbn [fallback carsguide_client]. now rewrite Hgiven.
  - destruct Hc as [[= -> -> ->] | [= -> -> ->]]; reflexivity.
  - exact Hmake.
  - exact Hmodel.
  - exact Hyear.
  - intros cell price Hcell Hint. rewrite Hpf, Hpt. unfold range_of.
    rewrite Hcell, Hint. split; reflexivity.
  - intros cell km Hcell Hint. rewrite Hof, Hot. unfold range_of.
    rewrite Hcell, Hint. split; reflexivity.
Qed.

Lemma fallback_query_witness :
  (exists new,
      snd (autotrader_search_vehicle net_fallback_missing "2020A1" "12751" (Some row_2020) [])
        = (new ++ [])%list /\
      (In (EvGet (autotrader_fallback row_2020 "12751")) new <->
       exists result,
         primary_empty net_fallback_missing [] autotrader_bootstrap
           (autotrader_primary "2020A1" "12751") result)) /\
  dict_get (build_fallback_search_params row_2020 "12751" None) "make" = Some "Toyota" /\
  dict_get (build_fallback_search_params row_2020 "12751" None) "priceFrom" = Some "19900" /\
  dict_get (build_fallback_search_params row_2020 "12751" None) "priceTo" = Some "20100".
Proof.
  pose proof (fallback_query net_fallback_missing "2020A1" "12751" None row_2020 []
                (autotrader_client net_fallback_missing "2020A1" "12751" (Some row_2020))
                (autotrader_fallback row_2020 "12751") None
                ltac:(discriminate) (or_introl eq_refl)) as H.
  cbv zeta in H.
  destruct H as (Hsent & _ & Hmake & _ & _ & Hprice & _).
  destruct (Hprice (SStr "20,000") 20000 eq_refl eq_refl) as [Hfrom Hto].
  split; [exact Hsent|]. split; [exact Hmake|]. split; [exact Hfrom | exact Hto].
Defined.

(** C4 as it is worded fails twice: an odometer (or price) of 0 reads as
    the integer 0 and yet gives no range; and the make is sent trimmed,
    not as the row has it. *)
Lemma zero_km_has_no_range :
  read_int (SInt 0) = Some 0 /\
  dict_get row_new_car "KM" = Some (SInt 0) /\
  dict_get (build_fallback_search_params row_new_car "12751" None) "odometerFrom" = None /\
  dict_get (build_fallback_search_params row_new_car "12751" None) "odometerTo" = None /\
  dict_get (build_fallback_search_params row_new_car "12751" None) "priceFrom" = None /\
  dict_get row_new_car "Make" = Some (SStr " Toyota") /\
  dict_get (build_fallback_search_params row_new_car "12751" None) "make" = Some "Toyota".
Proof. repeat split. Qed.

End ProviderClaims.

Module BatchClaims.
Import PyStr Py Reconcile Eff Http Provider ProviderSpec Batch BatchSpec Examples.
Import DictFacts BatchFacts.




(** C3 on a row whose Year is NaN: the row is not skipped.  The text of
    the NaN is "nan", which is neither empty nor NaN for [pd.isna], so both
    providers are searched for the stock number "nanA123" and the row gets
    the status of what they find. *)
Theorem nan_year_is_searched :
  let out := process_csv_file net_one_listing false [row_nan_year] in
  fst out = Ok tt /\
  List.map (fun r => (dict_get r "Autotrader", dict_get r "Carsguide")) (fst (snd out))
    = [(Some (SStr "Found"), Some (SStr "Found"))] /\
  List.map (fun r => (dict_get r "Autotrader URL", dict_get r "Carsguide URL")) (fst (snd out))
    = [(Some (SStr "https://www.autotrader.com.au/cars/123"),
        Some (SStr "https://www.carsguide.com.au/cars/123"))] /\
  List.map searched (snd (snd out)) =
    [ None;
      Some [ ("stock_no", "nanA123"); ("dealer_id", "12751"); ("source", "CG");
             ("ipLookup", "1"); ("sorting_variation", "smart_sort_3"); ("paginate", "26");
             ("make", "Toyota") ];
      None; None; None;
      Some [ ("stock_no", "nanA123"); ("dealer_id", "12751") ];
      None; None ].
Proof. vm_compute. repeat split. Qed.

End BatchClaims.

(* ===================================================================== *)
(** * Integers and their text *)
(* ===================================================================== *)

Module NumberFacts.
Import PyStr Py NumberSpec.

Lemma uint_all_digits (u : Decimal.uint) : all_digits (NilEmpty.string_of_uint u) = true.
Proof. induction u; cbn; auto. Qed.

Lemma digit_not_space c d : digit_of c = Some d -> is_space c = false.
Proof.
  unfold digit_of, is_space. intros H.
  destruct ((48 <=? code c) && (code c <=? 57)) eqn:E; [|discriminate].
  apply andb_true_iff in E. destruct E as [E1 E2].
  apply Z.leb_le in E1, E2.
  apply orb_false_iff. split; apply andb_false_iff.
  - right. apply Z.leb_gt. lia.
  - right. apply Z.leb_gt. lia.
Qed.

Lemma digit_not_comma c d : digit_of c = Some d -> Ascii.eqb c "," = false.
Proof.
  intros H. destruct (Ascii.eqb c ",") eqn:E; [|reflexivity].
  apply Ascii.eqb_eq in E. subst c. discriminate H.
Qed.

Lemma digit_not_underscore c d : digit_of c = Some d -> Ascii.eqb c "_" = false.
Proof.
  intros H. destruct (Ascii.eqb c "_") eqn:E; [|reflexivity].
  apply Ascii.eqb_eq in E. subst c. discriminate H.
Qed.

Lemma digits_lstrip s : all_digits s = true -> lstrip s = s.
Proof.
  destruct s as [|c s]; [reflexivity|]. cbn.
  destruct (digit_of c) eqn:E; [|discriminate].
  now rewrite (digit_not_space _ _ E).
Qed.

Lemma digits_rstrip s : all_digits s = true -> rstrip s = s.
Proof.
  induction s as [|c s IH]; [reflexivity|]. cbn.
  destruct (digit_of c) eqn:E; [|discriminate].
  intros H. rewrite (IH H). destruct s; [|reflexivity].
  now rewrite (digit_not_space _ _ E).
Qed.

Lemma digits_strip s : all_digits s = true -> strip s = s.
Proof. intros H. unfold strip. now rewrite digits_lstrip, digits_rstrip. Qed.

Lemma digits_remove_commas s : all_digits s = true -> remove_commas s = s.
Proof.
  induction s as [|c s IH]; [reflexivity|]. cbn.
  destruct (digit_of c) eqn:E; [|discriminate].
  intros H. now rewrite (digit_not_comma _ _ E), IH.
Qed.

(** Reading the digits of a positive number that has been started. *)
Lemma parse_digits_acc (u : Decimal.uint) : forall acc : positive,
  parse_digits (NilEmpty.string_of_uint u) (Z.pos acc) true
  = Some (Z.pos (Pos.of_uint_acc u acc)).
Proof.
  induction u; intros acc; cbn [NilEmpty.string_of_uint parse_digits Pos.of_uint_acc];
    try reflexivity;
    match goal with
    | |- context [Ascii.eqb ?c "_"] =>
        change (Ascii.eqb c "_") with false; cbv iota;
        let d := eval vm_compute in (digit_of c) in change (digit_of c) with d; cbv iota
    end;
    rewrite <- IHu; f_equal; lia.
Qed.

Lemma parse_digits_uint (u : Decimal.uint) : forall prev,
  (u = Decimal.Nil -> prev = true) ->
  parse_digits (NilEmpty.string_of_uint u) 0 prev = Some (Z.of_N (Pos.of_uint u)).
Proof.
  induction u; intros prev Hprev;
    cbn [NilEmpty.string_of_uint parse_digits Pos.of_uint];
    try (match goal with
         | |- context [Ascii.eqb ?c "_"] =>
             change (Ascii.eqb c "_") with false; cbv iota;
             let d := eval vm_compute in (digit_of c) in change (digit_of c) with d; cbv iota
         end).
  - now rewrite Hprev.
  - apply IHu. reflexivity.
  - apply (parse_digits_acc u 1).
  - apply (parse_digits_acc u 2).
  - apply (parse_digits_acc u 3).
  - apply (parse_digits_acc u 4).
  - apply (parse_digits_acc u 5).
  - apply (parse_digits_acc u 6).
  - apply (parse_digits_acc u 7).
  - apply (parse_digits_acc u 8).
  - apply (parse_digits_acc u 9).
Qed.

Lemma to_uint_not_nil p : Pos.to_uint p <> Decimal.Nil.
Proof.
  intros H. pose proof (DecimalPos.Unsigned.of_to p) as E. rewrite H in E. discriminate E.
Qed.

Lemma parse_digits_pos p :
  parse_digits (NilEmpty.string_of_uint (Pos.to_uint p)) 0 false = Some (Z.pos p).
Proof.
  rewrite parse_digits_uint.
  - now rewrite DecimalPos.Unsigned.of_to.
  - intros H. now apply to_uint_not_nil in H.
Qed.

Lemma int_space_is_space c : is_int_space c = true -> is_space c = true.
Proof.
  unfold is_int_space, is_space. intros H.
  apply orb_true_iff in H. apply orb_true_iff. destruct H as [H|H]; [now left|].
  right. apply Z.eqb_eq in H. now rewrite H.
Qed.

Lemma not_space_not_int_space c : is_space c = false -> is_int_space c = false.
Proof.
  intros H. destruct (is_int_space c) eqn:E; [|reflexivity].
  apply int_space_is_space in E. congruence.
Qed.

Lemma digits_int_lstrip s : all_digits s = true -> int_lstrip s = s.
Proof.
  destruct s as [|c s]; [reflexivity|]. cbn.
  destruct (digit_of c) eqn:E; [|discriminate].
  now rewrite (not_space_not_int_space _ (digit_not_space _ _ E)).
Qed.

Lemma digits_int_rstrip s : all_digits s = true -> int_rstrip s = s.
Proof.
  induction s as [|c s IH]; [reflexivity|]. cbn.
  destruct (digit_of c) eqn:E; [|discriminate].
  intros H. rewrite (IH H). destruct s; [|reflexivity].
  now rewrite (not_space_not_int_space _ (digit_not_space _ _ E)).
Qed.

(** The text of a non-negative number begins with a digit, not a sign. *)
Lemma py_int_digits s : all_digits s = true -> py_int s = parse_digits s 0 false.
Proof.
  intros H. unfold py_int. rewrite (digits_int_lstrip _ H), (digits_int_rstrip _ H).
  destruct s as [|c s]; [reflexivity|]. cbn [all_digits] in H.
  destruct (digit_of c) eqn:E; [|discriminate].
  destruct c as [[] [] [] [] [] [] [] []]; try reflexivity; discriminate E.
Qed.

Lemma minus_digits_strip s :
  all_digits s = true -> strip (String "-" s) = String "-" s.
Proof.
  intros H. unfold strip. cbn [lstrip]. change (is_space "-") with false. cbv iota.
  cbn [rstrip]. rewrite (digits_rstrip _ H). destruct s; reflexivity.
Qed.

(** [int(str(n)) == n] *)
Lemma py_int_str_of_Z (n : Z) : py_int (str_of_Z n) = Some n.
Proof.
  unfold str_of_Z. destruct n as [|p|p]; cbn [Z.to_int NilEmpty.string_of_int].
  - reflexivity.
  - rewrite py_int_digits by apply uint_all_digits.
    apply parse_digits_pos.
  - unfold py_int. cbn [int_lstrip]. change (is_int_space "-") with false. cbv iota.
    cbn [int_rstrip]. rewrite digits_int_rstrip by apply uint_all_digits.
    assert (Hp := parse_digits_pos p).
    destruct (NilEmpty.string_of_uint (Pos.to_uint p)); [discriminate Hp|].
    now rewrite Hp.
Qed.

(** The text of an integer has no blank and no comma to lose. *)
Lemma str_of_Z_plain (n : Z) : remove_commas (strip (str_of_Z n)) = str_of_Z n.
Proof.
  unfold str_of_Z. destruct n as [|p|p]; cbn [Z.to_int NilEmpty.string_of_int].
  - reflexivity.
  - rewrite digits_strip by apply uint_all_digits.
    apply digits_remove_commas, uint_all_digits.
  - rewrite minus_digits_strip by apply uint_all_digits.
    cbn [remove_commas]. change (Ascii.eqb "-" ",") with false. cbv iota.
    f_equal. apply digits_remove_commas, uint_all_digits.
Qed.

(** An integer cell is read as the integer it holds. *)
Lemma read_int_cell (n : Z) :
  py_int (remove_commas (strip (str_scalar (SInt n)))) = Some n.
Proof. cbn [str_scalar]. rewrite str_of_Z_plain. apply py_int_str_of_Z. Qed.

(** ** Texts that are no integer *)

Section Unreadable.
Variable c : ascii.
Hypothesis Hc : stops_int c = true.

Lemma stops_int_facts :
  digit_of c = None /\ is_space c = false /\ Ascii.eqb c "_" = false /\
  Ascii.eqb c "," = false /\ Ascii.eqb c "+" = false /\ Ascii.eqb c "-" = false.
Proof using Hc.
  unfold stops_int in Hc. destruct (digit_of c); [discriminate|].
  apply negb_true_iff in Hc.
  do 4 (apply orb_false_iff in Hc; destruct Hc as [Hc ?]).
  repeat split; assumption || reflexivity.
Qed.

Lemma parse_digits_stops s : has_char c s = true ->
  forall acc prev, parse_digits s acc prev = None.
Proof using Hc.
  destruct stops_int_facts as (Hd & _ & Hu & _).
  induction s as [|d s IH]; [discriminate|]. cbn [has_char parse_digits].
  intros H acc prev.
  destruct (Ascii.eqb_spec c d) as [<-|Hne].
  - now rewrite Hu, Hd.
  - cbn [orb] in H. destruct (Ascii.eqb d "_").
    + destruct prev; [now apply IH | reflexivity].
    + destruct (digit_of d); [now apply IH | reflexivity].
Qed.

Lemma lstrip_keeps s : has_char c s = true -> has_char c (lstrip s) = true.
Proof using Hc.
  destruct stops_int_facts as (_ & Hs & _).
  induction s as [|d s IH]; [discriminate|]. cbn [has_char lstrip]. intros H.
  destruct (Ascii.eqb_spec c d) as [<-|Hne].
  - rewrite Hs. cbn [has_char]. now rewrite Ascii.eqb_refl.
  - cbn [orb] in H. destruct (is_space d); [now apply IH|].
    cbn [has_char]. rewrite H. apply orb_true_r.
Qed.

Lemma rstrip_keeps s : has_char c s = true -> has_char c (rstrip s) = true.
Proof using Hc.
  destruct stops_int_facts as (_ & Hs & _).
  induction s as [|d s IH]; [discriminate|]. cbn [has_char rstrip]. intros H.
  destruct (Ascii.eqb_spec c d) as [<-|Hne].
  - rewrite Hs. destruct (rstrip s); cbn [has_char]; now rewrite Ascii.eqb_refl.
  - cbn [orb] in H. specialize (IH H).
    destruct (rstrip s); [discriminate IH|].
    cbn [has_char] in IH |- *. rewrite IH. apply orb_true_r.
Qed.

Lemma remove_commas_keeps s : has_char c s = true -> has_char c (remove_commas s) = true.
Proof using Hc.
  destruct stops_int_facts as (_ & _ & _ & Hk & _).
  induction s as [|d s IH]; [discriminate|]. cbn [has_char remove_commas]. intros H.
  destruct (Ascii.eqb_spec c d) as [<-|Hne].
  - rewrite Hk. cbn [has_char]. now rewrite Ascii.eqb_refl.
  - cbn [orb] in H. destruct (Ascii.eqb d ","); [now apply IH|].
    cbn [has_char]. rewrite (IH H). apply orb_true_r.
Qed.

Lemma int_lstrip_keeps s : has_char c s = true -> has_char c (int_lstrip s) = true.
Proof using Hc.
  destruct stops_int_facts as (_ & Hs%not_space_not_int_space & _).
  induction s as [|d s IH]; [discriminate|]. cbn [has_char int_lstrip]. intros H.
  destruct (Ascii.eqb_spec c d) as [<-|Hne].
  - rewrite Hs. cbn [has_char]. now rewrite Ascii.eqb_refl.
  - cbn [orb] in H. destruct (is_int_space d); [now apply IH|].
    cbn [has_char]. rewrite H. apply orb_true_r.
Qed.

Lemma int_rstrip_keeps s : has_char c s = true -> has_char c (int_rstrip s) = true.
Proof using Hc.
  destruct stops_int_facts as (_ & Hs%not_space_not_int_space & _).
  induction s as [|d s IH]; [discriminate|]. cbn [has_char int_rstrip]. intros H.
  destruct (Ascii.eqb_spec c d) as [<-|Hne].
  - rewrite Hs. destruct (int_rstrip s); cbn [has_char]; now rewrite Ascii.eqb_refl.
  - cbn [orb] in H. specialize (IH H).
    destruct (int_rstrip s); [discriminate IH|].
    cbn [has_char] in IH |- *. rewrite IH. apply orb_true_r.
Qed.

Lemma py_int_stops s : has_char c s = true -> py_int s = None.
Proof using Hc.
  destruct stops_int_facts as (_ & _ & _ & _ & Hp & Hm).
  intros H. unfold py_int.
  assert (Hs : has_char c (int_rstrip (int_lstrip s)) = true)
    by now apply int_rstrip_keeps, int_lstrip_keeps.
  destruct (int_rstrip (int_lstrip s)) as [|d r]; [discriminate Hs|].
  cbn [has_char] in Hs.
  destruct (Ascii.eqb_spec d "+") as [->|Hnp].
  - rewrite Hp in Hs. now apply parse_digits_stops.
  - destruct (Ascii.eqb_spec d "-") as [->|Hnm].
    + rewrite Hm in Hs. cbn [orb] in Hs. now rewrite parse_digits_stops.
    + destruct d as [[] [] [] [] [] [] [] []]; try congruence;
        apply (parse_digits_stops (String _ r)); exact Hs.
Qed.

(** A text with such a character is no integer for the program. *)
Lemma unreadable_text s :
  has_char c s = true -> py_int (remove_commas (strip s)) = None.
Proof using Hc.
  intros H. apply py_int_stops, remove_commas_keeps, rstrip_keeps, lstrip_keeps, H.
Qed.

End Unreadable.

End NumberFacts.

(* ===================================================================== *)
(** * The course of a lookup *)
(* ===================================================================== *)

Module LookupFacts.
Import PyStr Py Reconcile Eff Http Provider ProviderSpec TraceSpec.
Import DictFacts ProviderFacts.

(** A lookup never raises, and its events are those of one of the four
    courses. *)
Lemma lookup_course net bootstrap primary retry fallback tr0 :
  exists v new,
    lookup net bootstrap primary retry fallback tr0 = (Ok v, (new ++ tr0)%list) /\
    In new (lookup_runs bootstrap primary retry fallback).
Proof.
  destruct (lookup_three_courses net bootstrap primary retry fallback tr0)
    as (v & new & E & Hin).
  exists v, new. split; [exact E|].
  unfold lookup_courses in Hin. unfold lookup_runs.
  destruct fallback; cbn [In app] in Hin |- *; tauto.
Qed.

End LookupFacts.

(* ===================================================================== *)
(** * A rule for the events of a batch run *)
(* ===================================================================== *)

Module TraceRule.
Import PyStr Py Reconcile Eff Http Provider ProviderSpec Batch BatchSpec TraceSpec.
Import DictFacts ProviderFacts BatchFacts TraceFacts.

Section Rule.
Context {net : network} {save_results : bool} {R : nat -> trace -> trace -> Prop}.
Hypothesis closed : step_closed net save_results R.

Lemma rule_then n m k a b c :
  R n a b -> R m b c -> (n + m <= k)%nat -> R k a c.
Proof using closed.
  intros H1 H2 Hk. apply (rule_weaken _ _ _ closed (n + m)%nat); [assumption|].
  now apply (rule_trans _ _ _ closed) with b.
Qed.

Lemma rule_zero k a : R k a a.
Proof using closed. apply (rule_weaken _ _ _ closed O); [lia | apply (rule_refl _ _ _ closed)]. Qed.

Ltac block_rule tr :=
  run_batch;
  repeat (branch; run_batch);
  first [ apply (rule_refl _ _ _ closed)
        | apply (rule_save _ _ _ closed); reflexivity ].

Lemma process_autotrader_result_rule index car_dict combined result df tr :
  R O tr (snd (snd (process_autotrader_result save_results index car_dict combined result
                      (df, tr)))).
Proof using closed.
  unfold process_autotrader_result.
  destruct save_results eqn:Esave; block_rule tr.
Qed.

Lemma process_carsguide_result_rule index car_dict combined result df tr :
  R O tr (snd (snd (process_carsguide_result save_results index car_dict combined result
                      (df, tr)))).
Proof using closed.
  unfold process_carsguide_result.
  destruct save_results eqn:Esave; block_rule tr.
Qed.

(** One turn of the loop: two lookups at most. *)
Lemma process_row_rule index row df tr :
  R 2 tr (snd (snd (process_row net save_results index row (df, tr)))).
Proof using closed.
  assert (Hbody : R 2 tr (snd (snd (process_row_body net save_results index row (df, tr))))).
  { unfold process_row_body. cbv zeta.
    destruct (_ || _).
    { destruct (record_not_searched_spec index df tr) as (_ & _ & -> & _).
      apply rule_zero. }
    unfold bind at 1. unfold lift_net at 1. cbn [fst snd].
    match goal with
    | |- context [autotrader_search_vehicle ?n ?s ?d ?r ?t] =>
        pose proof (rule_autotrader _ _ _ closed s d r t) as H1;
        destruct (autotrader_search_vehicle n s d r t) as [[autotrader_result|e] tr1]
    end; cbn [snd] in H1; pairs;
      [|eapply rule_then; [exact H1 | apply (rule_zero O) | lia]].
    unfold bind at 1.
    match goal with
    | |- context [process_autotrader_result ?s ?i ?c ?k ?r ?st] =>
        pose proof (process_autotrader_result_rule i c k r df tr1) as H2;
        change (process_autotrader_result s i c k r _) with
          (process_autotrader_result s i c k r st) in H2;
        destruct (process_autotrader_result s i c k r st) as [[[]|e] [df2 tr2]]
    end; cbn [snd] in H2; pairs;
      [|eapply rule_then; [exact H1 | exact H2 | lia]].
    unfold bind at 1. unfold lift_net at 1, add_delay at 1, sleep_uniform at 1. pairs.
    pose proof (rule_delay _ _ _ closed tr2) as H3.
    unfold bind at 1. unfold lift_net at 1. pairs.
    match goal with
    | |- context [carsguide_search_vehicle ?n ?s ?d ?m ?r ?t] =>
        pose proof (rule_carsguide _ _ _ closed s d m r t) as H4;
        destruct (carsguide_search_vehicle n s d m r t) as [[carsguide_result|e] tr3]
    end; cbn [snd] in H4; pairs.
    2:{ eapply rule_then; [exact H1|eapply rule_then; [exact H2|eapply rule_then;
          [exact H3|exact H4|reflexivity]|reflexivity]|lia]. }
    unfold bind at 1.
    match goal with
    | |- context [process_carsguide_result ?s ?i ?c ?k ?r ?st] =>
        pose proof (process_carsguide_result_rule i c k r df2 tr3) as H5;
        change (process_carsguide_result s i c k r _) with
          (process_carsguide_result s i c k r st) in H5;
        destruct (process_carsguide_result s i c k r st) as [[[]|e] [df4 tr4]]
    end; cbn [snd] in H5; pairs.
    - unfold lift_net, add_delay, sleep_uniform. pairs.
      pose proof (rule_delay _ _ _ closed tr4) as H6.
      eapply rule_then; [exact H1|eapply rule_then; [exact H2|eapply rule_then;
        [exact H3|eapply rule_then; [exact H4|eapply rule_then;
          [exact H5|exact H6|reflexivity]|reflexivity]|reflexivity]|reflexivity]|lia].
    - eapply rule_then; [exact H1|eapply rule_then; [exact H2|eapply rule_then;
        [exact H3|eapply rule_then; [exact H4|exact H5|reflexivity]|reflexivity]
        |reflexivity]|lia]. }
  unfold process_row, catch.
  destruct (process_row_body net save_results index row (df, tr)) as [[[]|e] [df1 tr1]];
    cbn [snd] in Hbody |- *; [assumption|].
  now rewrite (record_error_trace index e (df1, tr1)).
Qed.

(** The loop: two lookups a row at most. *)
Lemma process_rows_rule rows : forall index df tr,
  R (2 * List.length rows) tr
    (snd (snd (process_rows net save_results index rows (df, tr)))).
Proof using closed.
  induction rows as [|row rows IH]; intros index df tr.
  - apply rule_zero.
  - cbn [process_rows]. unfold bind.
    pose proof (process_row_rule index row df tr) as Hrow.
    destruct (process_row net save_results index row (df, tr)) as [[[]|e] [df1 tr1]];
      cbn [snd] in Hrow |- *.
    + eapply rule_then; [exact Hrow | apply IH | cbn [List.length]; lia].
    + eapply rule_then; [exact Hrow | apply (rule_zero O) | cbn [List.length]; lia].
Qed.

Lemma add_output_columns_length df :
  List.length (add_output_columns df) = List.length df.
Proof. unfold add_output_columns. now rewrite !add_column_length. Qed.

Lemma process_csv_file_rule df :
  R (2 * List.length df) [] (snd (snd (process_csv_file net save_results df))).
Proof using closed.
  unfold process_csv_file. cbv zeta.
  rewrite <- (add_output_columns_length df). apply process_rows_rule.
Qed.

End Rule.
End TraceRule.

(* ===================================================================== *)
(** * The events of a batch run *)
(* ===================================================================== *)

Module RunFacts.
Import PyStr Py Reconcile Eff Http Provider ProviderSpec Batch BatchSpec TraceSpec.
Import DictFacts ProviderFacts BatchFacts TraceFacts LookupFacts TraceRule.

Lemma count_app p (a b : trace) :
  count p (a ++ b)%list = (count p a + count p b)%nat.
Proof. unfold count. now rewrite filter_app, length_app. Qed.

(** The events of the two clients. *)
Lemma autotrader_course net stock_no dealer_id csv_row tr0 :
  exists v new,
    autotrader_search_vehicle net stock_no dealer_id csv_row tr0 = (Ok v, (new ++ tr0)%list) /\
    In new (lookup_runs autotrader_bootstrap (autotrader_primary stock_no dealer_id)
              (autotrader_retry stock_no dealer_id)
              (option_map (fun r => autotrader_fallback r dealer_id) (row_given csv_row))).
Proof. rewrite autotrader_is_lookup. apply lookup_course. Qed.

Lemma carsguide_course net stock_no dealer_id make csv_row tr0 :
  exists v new,
    carsguide_search_vehicle net stock_no dealer_id make csv_row tr0
      = (Ok v, (new ++ tr0)%list) /\
    In new (lookup_runs carsguide_bootstrap (carsguide_primary stock_no dealer_id make)
              (carsguide_retry stock_no dealer_id make)
              (option_map (fun r => carsguide_fallback r dealer_id) (row_given csv_row))).
Proof. rewrite carsguide_is_lookup. apply lookup_course. Qed.

(** What holds of the four courses holds of the events of both clients. *)
Lemma clients_by_course net (P : trace -> trace -> Prop) :
  (forall bootstrap primary retry fallback new tr,
      In new (lookup_runs bootstrap primary retry fallback) ->
      req_url bootstrap <> base_url ->
      In (req_url bootstrap) [autotrader_main_url; carsguide_main_url] ->
      req_url primary = base_url -> req_url retry = base_url ->
      (forall f, fallback = Some f -> req_url f = base_url) ->
      P tr (new ++ tr)%list) ->
  (forall stock_no dealer_id csv_row tr,
      P tr (snd (autotrader_search_vehicle net stock_no dealer_id csv_row tr))) /\
  (forall stock_no dealer_id make csv_row tr,
      P tr (snd (carsguide_search_vehicle net stock_no dealer_id make csv_row tr))).
Proof.
  intros H. split.
  - intros stock_no dealer_id csv_row tr.
    destruct (autotrader_course net stock_no dealer_id csv_row tr) as (v & new & E & Hin).
    rewrite E. cbn [snd]. eapply H; try exact Hin; try reflexivity.
    + discriminate.
    + cbn. tauto.
    + intros f. destruct (row_given csv_row); [intros [= <-]; reflexivity | discriminate].
  - intros stock_no dealer_id make csv_row tr.
    destruct (carsguide_course net stock_no dealer_id make csv_row tr) as (v & new & E & Hin).
    rewrite E. cbn [snd]. eapply H; try exact Hin; try reflexivity.
    + discriminate.
    + cbn. tauto.
    + intros f. destruct (row_given csv_row); [intros [= <-]; reflexivity | discriminate].
Qed.

Lemma is_search_url r : is_search (EvGet r) = String.eqb (req_url r) base_url.
Proof. reflexivity. Qed.

Ltac courses Hin :=
  unfold lookup_runs in Hin;
  match type of Hin with
  | context [match ?f with Some _ => _ | None => _ end] => destruct f
  end; cbn [In app] in Hin;
  repeat match goal with
         | H : _ \/ _ |- _ => destruct H as [H|H]
         | H : False |- _ => destruct H
         end; subst.

(** A course neither brings two searches together nor ends on a search
    that has no pause before it. *)
Lemma course_paced bootstrap primary retry fallback new tr :
  In new (lookup_runs bootstrap primary retry fallback) ->
  req_url bootstrap <> base_url ->
  paced (new ++ tr)%list = paced tr.
Proof.
  intros Hin Hb. apply String.eqb_neq in Hb. unfold paced.
  courses Hin;
    cbn [app paced_from is_pause Z.leb Z.compare Pos.compare Pos.compare_cont];
    rewrite ?is_search_url, ?Hb;
    repeat match goal with
           | |- context [String.eqb (req_url ?r) base_url] =>
               destruct (String.eqb (req_url r) base_url)
           end; reflexivity.
Qed.

(** The calls of a lookup: three at most, two of them at most to the search
    API; two at most when there is no row to build a fallback query from. *)
Lemma autotrader_three_courses net stock_no dealer_id csv_row tr0 :
  exists v new,
    autotrader_search_vehicle net stock_no dealer_id csv_row tr0 = (Ok v, (new ++ tr0)%list) /\
    In new (lookup_courses autotrader_bootstrap (autotrader_primary stock_no dealer_id)
              (option_map (fun r => autotrader_fallback r dealer_id) (row_given csv_row))).
Proof. rewrite autotrader_is_lookup. apply lookup_three_courses. Qed.

Lemma carsguide_three_courses net stock_no dealer_id make csv_row tr0 :
  exists v new,
    carsguide_search_vehicle net stock_no dealer_id make csv_row tr0
      = (Ok v, (new ++ tr0)%list) /\
    In new (lookup_courses carsguide_bootstrap (carsguide_primary stock_no dealer_id make)
              (option_map (fun r => carsguide_fallback r dealer_id) (row_given csv_row))).
Proof. rewrite carsguide_is_lookup. apply lookup_three_courses. Qed.

Lemma three_courses_requests bootstrap primary fallback new :
  In new (lookup_courses bootstrap primary fallback) ->
  req_url bootstrap <> base_url ->
  (count is_request new <= 3)%nat /\ (count is_search new <= 2)%nat /\
  (fallback = None -> (count is_request new <= 2)%nat).
Proof.
  intros Hin Hb. apply String.eqb_neq in Hb. unfold count.
  unfold lookup_courses in Hin. destruct fallback; cbn [In app] in Hin;
    repeat match goal with
           | H : _ \/ _ |- _ => destruct H as [H|H]
           | H : False |- _ => destruct H
           end; subst;
    cbn [filter is_request]; rewrite ?is_search_url, ?Hb;
    repeat match goal with
           | |- context [String.eqb (req_url ?r) base_url] =>
               destruct (String.eqb (req_url r) base_url)
           end; cbn [filter is_search List.length];
    (split; [lia|]); (split; [lia|]); intros E; try discriminate E; lia.
Qed.

Lemma course_saves bootstrap primary retry fallback new :
  In new (lookup_runs bootstrap primary retry fallback) ->
  forall filename data, ~ In (EvSave filename data) new.
Proof.
  intros Hin filename data. courses Hin; cbn [In]; intuition discriminate.
Qed.

Lemma course_urls bootstrap primary retry fallback new r :
  In new (lookup_runs bootstrap primary retry fallback) ->
  In (EvGet r) new ->
  r = bootstrap \/ r = primary \/ r = retry \/ fallback = Some r.
Proof.
  intros Hin. courses Hin; cbn [In]; intros H;
    repeat match goal with
           | H : _ \/ _ |- _ => destruct H as [H|H]
           | H : False |- _ => destruct H
           | H : EvGet _ = EvGet _ |- _ => injection H as H; subst
           | H : EvSleep _ _ = EvGet _ |- _ => discriminate H
           end; auto.
Qed.

(** ** Relations that hold of a whole run *)

Lemma pace_closed net save_results :
  step_closed net save_results (fun _ a b => paced a = true -> paced b = true).
Proof.
  destruct (clients_by_course net (fun a b => paced a = true -> paced b = true)) as [Hat Hcg].
  { intros bootstrap primary retry fallback new tr Hin Hb _ _ _ _.
    now rewrite (course_paced _ _ _ _ _ _ Hin Hb). }
  constructor; auto.
Qed.

Lemma budget_closed net save_results :
  step_closed net save_results
    (fun n a b =>
       (count is_request b <= count is_request a + 3 * n)%nat /\
       (count is_search b <= count is_search a + 2 * n)%nat).
Proof.
  constructor.
  - intros. lia.
  - intros n m a b c [] []. lia.
  - intros n m a b Hnm []. lia.
  - intros stock_no dealer_id csv_row tr.
    destruct (autotrader_three_courses net stock_no dealer_id csv_row tr)
      as (v & new & E & Hin).
    rewrite E. cbn [snd]. rewrite !count_app.
    destruct (three_courses_requests _ _ _ _ Hin) as (H3 & H2 & _); [discriminate|]. lia.
  - intros stock_no dealer_id make csv_row tr.
    destruct (carsguide_three_courses net stock_no dealer_id make csv_row tr)
      as (v & new & E & Hin).
    rewrite E. cbn [snd]. rewrite !count_app.
    destruct (three_courses_requests _ _ _ _ Hin) as (H3 & H2 & _); [discriminate|]. lia.
  - intros _ filename data tr. unfold count. cbn [filter is_request is_search]. lia.
  - intros tr. unfold count. cbn [filter is_request is_search]. lia.
Qed.

Lemma quiet_closed net :
  step_closed net false (fun _ a b => count is_save b = count is_save a).
Proof.
  destruct (clients_by_course net (fun a b => count is_save b = count is_save a))
    as [Hat Hcg].
  { intros bootstrap primary retry fallback new tr Hin _ _ _ _ _.
    rewrite count_app. unfold count at 1.
    replace (filter is_save new) with (@nil event); [reflexivity|].
    symmetry. clear - Hin. courses Hin; reflexivity. }
  constructor; auto.
  - intros n m a b c H1 H2. congruence.
  - discriminate.
Qed.

Lemma hosts_closed net save_results :
  step_closed net save_results
    (fun _ a b => forall r, In (EvGet r) b ->
       In (EvGet r) a \/
       In (req_url r) [autotrader_main_url; carsguide_main_url; base_url]).
Proof.
  destruct (clients_by_course net
              (fun a b => forall r, In (EvGet r) b ->
                 In (EvGet r) a \/
                 In (req_url r) [autotrader_main_url; carsguide_main_url; base_url]))
    as [Hat Hcg].
  { intros bootstrap primary retry fallback new tr Hin _ Hb Hp Hr Hf r H.
    apply in_app_or in H. destruct H as [H|H]; [|now left]. right.
    destruct (course_urls _ _ _ _ _ _ Hin H) as [->|[->|[->|E]]].
    - cbn [In] in Hb |- *. tauto.
    - rewrite Hp. cbn. tauto.
    - rewrite Hr. cbn. tauto.
    - rewrite (Hf _ E). cbn. tauto. }
  constructor; auto.
  - intros n m a b c Hab Hbc r H. destruct (Hbc r H) as [H'|H']; auto.
  - intros _ filename data tr r [H|H]; [discriminate H | now left].
  - intros tr r [H|H]; [discriminate H | now left].
Qed.

Lemma headers_closed net save_results :
  step_closed net save_results
    (fun _ a b => forall r, In (EvGet r) b ->
       In (EvGet r) a \/ In (req_headers r) header_sets).
Proof.
  assert (Hat : forall stock_no dealer_id csv_row tr r,
             In (EvGet r) (snd (autotrader_search_vehicle net stock_no dealer_id csv_row tr)) ->
             In (EvGet r) tr \/ In (req_headers r) header_sets).
  { intros stock_no dealer_id csv_row tr r.
    destruct (autotrader_course net stock_no dealer_id csv_row tr) as (v & new & E & Hin).
    rewrite E. cbn [snd]. intros H. apply in_app_or in H. destruct H as [H|H]; [|now left].
    right. destruct (course_urls _ _ _ _ _ _ Hin H) as [->|[->|[->|Hf]]];
      try (cbn; tauto).
    destruct (row_given csv_row); [|discriminate Hf]. injection Hf as <-. cbn. tauto. }
  assert (Hcg : forall stock_no dealer_id make csv_row tr r,
             In (EvGet r)
                (snd (carsguide_search_vehicle net stock_no dealer_id make csv_row tr)) ->
             In (EvGet r) tr \/ In (req_headers r) header_sets).
  { intros stock_no dealer_id make csv_row tr r.
    destruct (carsguide_course net stock_no dealer_id make csv_row tr) as (v & new & E & Hin).
    rewrite E. cbn [snd]. intros H. apply in_app_or in H. destruct H as [H|H]; [|now left].
    right. destruct (course_urls _ _ _ _ _ _ Hin H) as [->|[->|[->|Hf]]];
      try (cbn; tauto).
    destruct (row_given csv_row); [|discriminate Hf]. injection Hf as <-. cbn. tauto. }
  constructor; auto.
  - intros n m a b c Hab Hbc r H. destruct (Hbc r H) as [H'|H']; auto.
  - intros _ filename data tr r [H|H]; [discriminate H | now left].
  - intros tr r [H|H]; [discriminate H | now left].
Qed.

(** The default headers are in each of the sets, with their values but for
    the two that the clients change. *)
Lemma header_sets_keep_defaults headers k v :
  In headers header_sets -> In (k, v) get_default_headers ->
  exists v', dict_get headers k = Some v' /\
             (k <> "user-agent" -> k <> "sec-fetch-site" -> v' = v).
Proof.
  intros Hh Hk. cbn [header_sets In] in Hh.
  unfold get_default_headers in Hk. cbn [In] in Hk.
  repeat match goal with
         | H : _ \/ _ |- _ => destruct H as [H|H]
         | H : False |- _ => destruct H
         | H : (_, _) = (_, _) |- _ => injection H as <- <-
         end; subst headers;
    (eexists; split; [reflexivity|]); intros H1 H2; try reflexivity; congruence.
Qed.

(** ** What [paced] says *)

Lemma pending_needs_pause between : forall r1 earlier,
  paced_from true (between ++ EvGet r1 :: earlier)%list = true ->
  req_url r1 = base_url ->
  exists lo hi, In (EvSleep lo hi) between /\ 1 <= lo.
Proof.
  induction between as [|ev between IH]; intros r1 earlier H Hr1.
  - cbn [app paced_from] in H. rewrite is_search_url, Hr1, String.eqb_refl in H.
    discriminate H.
  - cbn [app paced_from] in H.
    destruct (is_search ev); [discriminate H|].
    destruct (is_pause ev) eqn:Ep.
    + destruct ev as [r|lo hi|f d]; try discriminate Ep.
      exists lo, hi. split; [now left | now apply Z.leb_le].
    + destruct (IH _ _ H Hr1) as (lo & hi & Hin & Hlo).
      exists lo, hi. split; [now right | assumption].
Qed.

Lemma paced_between later : forall pending r2 between r1 earlier,
  paced_from pending (later ++ EvGet r2 :: between ++ EvGet r1 :: earlier)%list = true ->
  req_url r1 = base_url -> req_url r2 = base_url ->
  exists lo hi, In (EvSleep lo hi) between /\ 1 <= lo.
Proof.
  induction later as [|ev later IH]; intros pending r2 between r1 earlier H Hr1 Hr2.
  - cbn [app paced_from] in H. rewrite is_search_url, Hr2, String.eqb_refl in H.
    apply andb_true_iff in H. destruct H as [_ H].
    now apply (pending_needs_pause _ _ _ H).
  - cbn [app paced_from] in H.
    destruct (is_search ev).
    + apply andb_true_iff in H. destruct H as [_ H]. now apply (IH _ _ _ _ _ H).
    + destruct (is_pause ev); now apply (IH _ _ _ _ _ H).
Qed.

End RunFacts.

Module RunProps.
Import PyStr Py Reconcile Eff Http Provider ProviderSpec Batch BatchSpec TraceSpec Examples.
Import RunFacts TraceRule.

(** X1: between any two calls of [session.get] on the search API that a
    batch run makes, the run takes a pause of one time unit at least,
    whatever the network answers and whichever rows fail.  The calls are
    those of the program: what the session sends again under one call, and
    when, is not an event. *)
Theorem searches_are_paced net save_results df later r2 between r1 earlier :
  snd (snd (process_csv_file net save_results df))
    = (later ++ EvGet r2 :: between ++ EvGet r1 :: earlier)%list ->
  req_url r1 = base_url -> req_url r2 = base_url ->
  exists lo hi, In (EvSleep lo hi) between /\ 1 <= lo.
Proof.
  intros E Hr1 Hr2.
  pose proof (process_csv_file_rule (pace_closed net save_results) df eq_refl) as H.
  rewrite E in H. now apply (paced_between _ _ _ _ _ _ H).
Qed.

Lemma searches_are_paced_witness :
  exists lo hi,
    In (EvSleep lo hi)
       [EvSleep 1 3; EvGet carsguide_bootstrap; EvSleep 1 2] /\ 1 <= lo.
Proof.
  apply (searches_are_paced net_one_listing false [row_2020]
           [EvSleep 1 2]
           (carsguide_primary "2020A1" "12751" (Some "Toyota"))
           [EvSleep 1 3; EvGet carsguide_bootstrap; EvSleep 1 2]
           (autotrader_primary "2020A1" "12751")
           [EvSleep 1 3; EvGet autotrader_bootstrap]);
    reflexivity.
Defined.


(** X3: without [--save] a batch run writes no file of results. *)
Theorem nothing_saved_unless_asked net df :
  count is_save (snd (snd (process_csv_file net false df))) = O.
Proof. exact (process_csv_file_rule (quiet_closed net) df). Qed.

(** X4: every call of [session.get] in a batch run names the home page
    of one of the two sites or the search API as its URL.  Where a redirect
    takes the session from there is not part of the model. *)
Theorem only_three_urls net save_results df r :
  In (EvGet r) (snd (snd (process_csv_file net save_results df))) ->
  In (req_url r) [autotrader_main_url; carsguide_main_url; base_url].
Proof.
  intros H.
  destruct (process_csv_file_rule (hosts_closed net save_results) df r H) as [[]|H'].
  exact H'.
Qed.

Lemma only_three_urls_witness :
  In (req_url autotrader_bootstrap) [autotrader_main_url; carsguide_main_url; base_url].
Proof.
  apply (only_three_urls net_one_listing false [row_2020] autotrader_bootstrap).
  vm_compute. do 7 right. left. reflexivity.
Defined.

(** X5: every request of a batch run carries the ten default
    headers, each with its default value, except that the user-agent can be
    the one of a retry and "sec-fetch-site" is "cross-site" in the searches
    of Carsguide. *)
Theorem default_headers_on_every_request net save_results df r k v :
  In (EvGet r) (snd (snd (process_csv_file net save_results df))) ->
  In (k, v) get_default_headers ->
  exists v', dict_get (req_headers r) k = Some v' /\
             (k <> "user-agent" -> k <> "sec-fetch-site" -> v' = v).
Proof.
  intros H Hk.
  destruct (process_csv_file_rule (headers_closed net save_results) df r H) as [[]|Hh].
  now apply header_sets_keep_defaults.
Qed.

Lemma default_headers_on_every_request_witness :
  exists v', dict_get (req_headers (autotrader_primary "2020A1" "12751")) "accept" = Some v' /\
             ("accept" <> "user-agent" -> "accept" <> "sec-fetch-site" -> v' = "*/*").
Proof.
  apply (default_headers_on_every_request net_one_listing false [row_2020]
           (autotrader_primary "2020A1" "12751") "accept" "*/*").
  - vm_compute. do 5 right. left. reflexivity.
  - left. reflexivity.
Defined.

End RunProps.

(* ===================================================================== *)
(** * More on the reconciliation engine *)
(* ===================================================================== *)

Module VerdictFacts.
Import PyStr Py Reconcile NumberSpec.
Import DictFacts ReconcileFacts NumberFacts.

(** A field of the map gets one note at most. *)
Lemma compare_field_at_most_one csv_data vehicle_data field :
  (List.length (autotrader_compare_field csv_data vehicle_data [] field) <= 1)%nat.
Proof.
  unfold autotrader_compare_field. destruct field as [csv_field api_path].
  repeat match goal with
         | |- context [match ?x with _ => _ end] => destruct x
         end; simpl; lia.
Qed.

Lemma flat_map_length_le {A B} (f : A -> list B) (l : list A) :
  (forall a, List.length (f a) <= 1)%nat ->
  (List.length (flat_map f l) <= List.length l)%nat.
Proof.
  intros H. induction l as [|a l IH]; simpl; [lia|].
  rewrite length_app. specialize (H a). lia.
Qed.

Lemma flat_map_Forall {A B} (P : B -> Prop) (f : A -> list B) (l : list A) :
  (forall a, In a l -> Forall P (f a)) -> Forall P (flat_map f l).
Proof.
  intros H. induction l as [|a l IH]; simpl; [constructor|].
  apply Forall_app. split; [apply H; now left | apply IH; intros b Hb; apply H; now right].
Qed.

(** The notes of a comparison: seven at most, each under the name of a
    column of the field map. *)
Lemma notes_shape csv_data vehicle_data :
  let notes := fold_left (autotrader_compare_field csv_data vehicle_data)
                         autotrader_comparison_fields [] in
  (List.length notes <= 7)%nat /\
  Forall (fun n => exists csv_field rest,
              In csv_field (List.map fst autotrader_comparison_fields) /\
              n = csv_field ++ ": " ++ rest) notes.
Proof.
  cbv zeta. rewrite autotrader_notes_flat_map. cbn [app]. split.
  - apply (flat_map_length_le _ autotrader_comparison_fields).
    apply compare_field_at_most_one.
  - apply flat_map_Forall. intros [csv_field api_path] Hin.
    eapply Forall_impl; [|apply autotrader_note_shape].
    intros n [rest ->]. exists csv_field, rest. split; [|reflexivity].
    apply (in_map fst) in Hin. exact Hin.
Qed.

(** The verdicts and what comes with each. *)
Lemma compare_verdict csv_data vehicle_data status notes :
  autotrader_compare_data csv_data vehicle_data = Ok (status, notes) ->
  (status = "Not Found" /\ notes = [] /\ truthy vehicle_data = false) \/
  (In status ["Sold"; "On Offer"; "Found"] /\ notes = [] /\ truthy vehicle_data = true) \/
  (status = "Mismatched" /\ notes <> [] /\ truthy vehicle_data = true /\
   (List.length notes <= 7)%nat /\
   Forall (fun n => exists csv_field rest,
               In csv_field (List.map fst autotrader_comparison_fields) /\
               n = csv_field ++ ": " ++ rest) notes).
Proof.
  unfold autotrader_compare_data.
  destruct (truthy vehicle_data) eqn:Et; cbn [negb].
  2:{ intros [= <- <-]. now left. }
  destruct (py_get vehicle_data "status" JNone) as [st|e]; [|discriminate].
  assert (Hloop :
            (let mismatched := fold_left (autotrader_compare_field csv_data vehicle_data)
                                         autotrader_comparison_fields [] in
             match mismatched with
             | _ :: _ => Ok ("Mismatched", mismatched)
             | [] => Ok ("Found", [])
             end) = Ok (status, notes) ->
            (status = "Not Found" /\ notes = [] /\ true = false) \/
            (In status ["Sold"; "On Offer"; "Found"] /\ notes = [] /\ true = true) \/
            (status = "Mismatched" /\ notes <> [] /\ true = true /\
             (List.length notes <= 7)%nat /\
             Forall (fun n => exists csv_field rest,
                         In csv_field (List.map fst autotrader_comparison_fields) /\
                         n = csv_field ++ ": " ++ rest) notes)).
  { pose proof (notes_shape csv_data vehicle_data) as [Hlen Hall]. cbv zeta in Hlen, Hall |- *.
    destruct (fold_left _ _ _) as [|n l] eqn:E.
    - intros [= <- <-]. right; left. cbn; tauto.
    - intros [= <- <-]. right; right. repeat split; try assumption. discriminate. }
  destruct (truthy st); [|exact Hloop].
  destruct (py_lower st) as [low|e]; [|discriminate].
  destruct (negb (low =? "live")%string); [|exact Hloop].
  destruct (low =? "sold")%string; [intros [= <- <-]; right; left; cbn; tauto|].
  destruct (low =? "on offer")%string; [intros [= <- <-]; right; left; cbn; tauto|].
  exact Hloop.
Qed.

Lemma concat_not_empty sep (n : string) (l : list string) :
  n <> "" -> String.concat sep (n :: l) <> "".
Proof.
  intros Hn. destruct n as [|c n]; [contradiction|].
  cbn [String.concat]. destruct l; [discriminate|]. cbn. discriminate.
Qed.

Lemma note_not_empty (csv_field rest : string) : (csv_field ++ ": " ++ rest) <> "".
Proof. destruct csv_field; discriminate. Qed.

(** The notes as the loop joins them. *)
Lemma joined_notes csv_data vehicle_data status notes :
  autotrader_compare_data csv_data vehicle_data = Ok (status, notes) ->
  (status = "Mismatched" -> String.concat "; " notes <> "") /\
  (status <> "Mismatched" -> String.concat "; " notes = "").
Proof.
  intros H. destruct (compare_verdict _ _ _ _ H) as [(-> & -> & _)|[(Hs & -> & _)|(-> & Hn & _ & _ & Hall)]].
  - split; [discriminate | reflexivity].
  - split; [|reflexivity]. intros ->. cbn in Hs. intuition discriminate.
  - split; [|congruence]. intros _.
    destruct notes as [|n l]; [congruence|].
    inversion Hall as [|? ? (f & rest & _ & ->) _]; subst.
    apply concat_not_empty, note_not_empty.
Qed.

(** ** When the comparison raises *)

Lemma py_lower_not_str status :
  (forall s, status <> JStr s) ->
  py_lower status
  = Raise (Exn "AttributeError" ("'" ++ type_name status ++ "' object has no attribute 'lower'")).
Proof.
  intros H. destruct status as [[| | | |s]|l|d]; try reflexivity. now destruct (H s).
Qed.

(** A listing that is no dict. *)
Lemma compare_not_dict csv_data vehicle_data :
  truthy vehicle_data = true -> (forall d, vehicle_data <> JDict d) ->
  autotrader_compare_data csv_data vehicle_data
  = Raise (Exn "AttributeError"
             ("'" ++ type_name vehicle_data ++ "' object has no attribute 'get'")).
Proof.
  intros Ht Hd. unfold autotrader_compare_data. rewrite Ht. cbn [negb].
  destruct vehicle_data as [a|l|d]; try reflexivity. now destruct (Hd d).
Qed.

(** A listing whose status is no text. *)
Lemma compare_bad_status csv_data d status :
  truthy (JDict d) = true ->
  dict_get d "status" = Some status -> truthy status = true ->
  (forall s, status <> JStr s) ->
  autotrader_compare_data csv_data (JDict d)
  = Raise (Exn "AttributeError" ("'" ++ type_name status ++ "' object has no attribute 'lower'")).
Proof.
  intros Ht Hst Hts Hs. unfold autotrader_compare_data. rewrite Ht.
  cbn [negb py_get]. rewrite Hst, Hts, (py_lower_not_str _ Hs). reflexivity.
Qed.

(** Any other listing is compared. *)
Lemma compare_returns csv_data d :
  (forall status, dict_get d "status" = Some status -> truthy status = true ->
                  exists s, status = JStr s) ->
  exists r, autotrader_compare_data csv_data (JDict d) = Ok r.
Proof.
  intros H. unfold autotrader_compare_data.
  destruct (negb (truthy (JDict d))); [eauto|].
  cbn [py_get]. destruct (dict_get d "status") as [status|].
  - destruct (truthy status) eqn:Ets.
    + destruct (H status eq_refl Ets) as [s ->]. cbn [JStr py_lower].
      destruct (negb _); [destruct (_ =? "sold")%string; [eauto|];
                          destruct (_ =? "on offer")%string; [eauto|]|];
        destruct (fold_left _ _ _); eauto.
    + destruct (fold_left _ _ _); eauto.
  - cbn [JNone truthy truthy_scalar]. destruct (fold_left _ _ _); eauto.
Qed.

Lemma compare_raises csv_data vehicle_data e :
  autotrader_compare_data csv_data vehicle_data = Raise e <->
  truthy vehicle_data = true /\
  ((e = Exn "AttributeError" ("'" ++ type_name vehicle_data ++ "' object has no attribute 'get'")
    /\ forall d, vehicle_data <> JDict d) \/
   (exists d status,
       vehicle_data = JDict d /\ dict_get d "status" = Some status /\
       truthy status = true /\ (forall s, status <> JStr s) /\
       e = Exn "AttributeError"
             ("'" ++ type_name status ++ "' object has no attribute 'lower'"))).
Proof.
  split.
  - intros H.
    destruct (truthy vehicle_data) eqn:Et.
    2:{ unfold autotrader_compare_data in H. rewrite Et in H. discriminate H. }
    split; [reflexivity|].
    destruct vehicle_data as [a|l|d].
    + left. rewrite compare_not_dict in H by (assumption || discriminate).
      injection H as <-. split; [reflexivity | discriminate].
    + left. rewrite compare_not_dict in H by (assumption || discriminate).
      injection H as <-. split; [reflexivity | discriminate].
    + right. destruct (dict_get d "status") as [status|] eqn:Est.
      * destruct (truthy status) eqn:Ets.
        -- destruct status as [[| | | |s]|l|d'];
             try (rewrite (compare_bad_status _ _ _ Et Est Ets) in H by discriminate;
                  injection H as <-; eexists d, _;
                  split; [reflexivity|]; split; [exact Est|]; split; [exact Ets|];
                  split; [discriminate | reflexivity]).
           destruct (compare_returns csv_data d) as [r Hr]; [|congruence].
           intros st Hst _. rewrite Est in Hst. injection Hst as <-. now exists s.
        -- destruct (compare_returns csv_data d) as [r Hr]; [|congruence].
           intros st Hst Hts. rewrite Est in Hst. injection Hst as <-. congruence.
      * destruct (compare_returns csv_data d) as [r Hr]; [|congruence].
        intros st Hst. congruence.
  - intros (Ht & [[-> Hd]|(d & status & -> & Hst & Hts & Hs & ->)]).
    + now apply compare_not_dict.
    + now apply compare_bad_status.
Qed.

(** ** The note about Price *)

Lemma price_field_notes csv_data vehicle_data cell :
  dict_get csv_data "Price" = Some cell -> truthy_scalar cell = true ->
  is_none (api_path_value vehicle_data ["price"; "advertised_price"]) = false ->
  autotrader_compare_field csv_data vehicle_data [] ("Price", ["price"; "advertised_price"]) =
  match py_int (remove_commas (strip (str_scalar cell))),
        py_int (remove_commas
                  (strip (py_str (api_path_value vehicle_data ["price"; "advertised_price"]))))
  with
  | Some csv_price, Some api_price =>
      if Z.abs (csv_price - api_price) >? 100
      then ["Price: CSV=" ++ str_of_Z csv_price ++ ", API=" ++ str_of_Z api_price]
      else []
  | _, _ => ["Price: Couldn't compare"]
  end.
Proof.
  intros Hcell Htruthy Hnone.
  unfold autotrader_compare_field. rewrite Hcell, Htruthy, Hnone.
  cbn [String.eqb Ascii.eqb Bool.eqb andb negb].
  destruct (py_int (remove_commas (strip (str_scalar cell)))); [|reflexivity].
  destruct (py_int (remove_commas (strip (py_str _)))); [|reflexivity].
  destruct (Z.abs (z - z0) >? 100); reflexivity.
Qed.

(** The verdict on a live listing, from its notes about Price. *)
Lemma live_price_notes csv_data d s :
  dict_get d "status" = Some (JStr s) -> lower s = "live" ->
  exists status notes,
    autotrader_compare_data csv_data (JDict d) = Ok (status, notes) /\
    (notes = [] -> status = "Found") /\ (notes <> [] -> status = "Mismatched") /\
    filter (String.prefix "Price: ") notes =
    autotrader_compare_field csv_data (JDict d) [] ("Price", ["price"; "advertised_price"]).
Proof.
  intros Hst Hlive.
  assert (Hcmp := autotrader_compare_live csv_data d s Hst).
  rewrite Hlive in Hcmp. specialize (Hcmp ltac:(discriminate) ltac:(discriminate)).
  assert (Hprice := price_notes csv_data d).
  destruct (fold_left _ _ _) as [|n notes'] eqn:En.
  - exists "Found", []. repeat split; try assumption; congruence.
  - exists "Mismatched", (n :: notes'). repeat split; try assumption; congruence.
Qed.

(** ** Letter case *)

Lemma lower_char_facts c :
  is_space (lower_char c) = is_space c /\
  lower_char (lower_char c) = lower_char c /\
  Ascii.eqb (lower_char c) "," = Ascii.eqb c "," /\
  Ascii.eqb (lower_char c) "_" = Ascii.eqb c "_" /\
  Ascii.eqb (lower_char c) "+" = Ascii.eqb c "+" /\
  Ascii.eqb (lower_char c) "-" = Ascii.eqb c "-" /\
  digit_of (lower_char c) = digit_of c.
Proof. destruct c as [[] [] [] [] [] [] [] []]; vm_compute; auto 10. Qed.

Lemma lower_empty s : lower s = "" <-> s = "".
Proof. destruct s; cbn; split; congruence. Qed.

Lemma lower_lower s : lower (lower s) = lower s.
Proof.
  induction s as [|c s IH]; [reflexivity|]. cbn [lower].
  destruct (lower_char_facts c) as (_ & -> & _). now rewrite IH.
Qed.

Lemma lstrip_lower s : lstrip (lower s) = lower (lstrip s).
Proof.
  induction s as [|c s IH]; [reflexivity|]. cbn [lower lstrip].
  destruct (lower_char_facts c) as (-> & _). now destruct (is_space c).
Qed.

Lemma rstrip_lower s : rstrip (lower s) = lower (rstrip s).
Proof.
  induction s as [|c s IH]; [reflexivity|]. cbn [lower rstrip]. rewrite IH.
  destruct (lower_char_facts c) as (-> & _).
  destruct (rstrip s); cbn [lower]; [now destruct (is_space c) | reflexivity].
Qed.

Lemma strip_lower s : strip (lower s) = lower (strip s).
Proof. unfold strip. now rewrite lstrip_lower, rstrip_lower. Qed.

Lemma remove_commas_lower s : remove_commas (lower s) = lower (remove_commas s).
Proof.
  induction s as [|c s IH]; [reflexivity|]. cbn [lower remove_commas].
  destruct (lower_char_facts c) as (_ & _ & -> & _).
  destruct (Ascii.eqb c ","); cbn [lower]; now rewrite IH.
Qed.

Lemma parse_digits_lower s : forall acc prev,
  parse_digits (lower s) acc prev = parse_digits s acc prev.
Proof.
  induction s as [|c s IH]; intros acc prev; [reflexivity|]. cbn [lower parse_digits].
  destruct (lower_char_facts c) as (_ & _ & _ & -> & _ & _ & ->).
  destruct (Ascii.eqb c "_"); [destruct prev; [apply IH | reflexivity]|].
  destruct (digit_of c); [apply IH | reflexivity].
Qed.

Lemma int_space_lower c : is_int_space (lower_char c) = is_int_space c.
Proof. destruct c as [[] [] [] [] [] [] [] []]; reflexivity. Qed.

Lemma int_lstrip_lower s : int_lstrip (lower s) = lower (int_lstrip s).
Proof.
  induction s as [|c s IH]; [reflexivity|]. cbn [lower int_lstrip].
  rewrite int_space_lower. now destruct (is_int_space c).
Qed.

Lemma int_rstrip_lower s : int_rstrip (lower s) = lower (int_rstrip s).
Proof.
  induction s as [|c s IH]; [reflexivity|]. cbn [lower int_rstrip]. rewrite IH.
  rewrite int_space_lower.
  destruct (int_rstrip s); cbn [lower]; [now destruct (is_int_space c) | reflexivity].
Qed.

Lemma py_int_lower s : py_int (lower s) = py_int s.
Proof.
  unfold py_int. rewrite int_lstrip_lower, int_rstrip_lower.
  destruct (int_rstrip (int_lstrip s)) as [|c r]; [reflexivity|]. cbn [lower].
  pose proof (parse_digits_lower (String c r) 0 false) as H0. cbn [lower] in H0.
  pose proof (parse_digits_lower r 0 false) as H1.
  destruct c as [[] [] [] [] [] [] [] []];
    match goal with
    | |- context [lower_char ?x] =>
        let y := eval vm_compute in (lower_char x) in
        change (lower_char x) with y in *
    end; cbv iota; first [exact H0 | exact H1 | now rewrite H1].
Qed.

Lemma lower_row_get r k : dict_get (lower_row r) k = option_map lower_cell (dict_get r k).
Proof.
  induction r as [|[k' v] r IH]; [reflexivity|]. cbn [lower_row List.map fst snd dict_get].
  destruct (String.eqb k k'); [reflexivity | exact IH].
Qed.

Lemma lower_cell_truthy cell : truthy_scalar (lower_cell cell) = truthy_scalar cell.
Proof.
  destruct cell as [| | | |s]; try reflexivity. cbn [lower_cell truthy_scalar].
  destruct s; reflexivity.
Qed.

Lemma lower_cell_text cell :
  lower (strip (str_scalar (lower_cell cell))) = lower (strip (str_scalar cell)).
Proof.
  destruct cell as [| | | |s]; try reflexivity. cbn [lower_cell str_scalar].
  now rewrite strip_lower, lower_lower.
Qed.

Lemma lower_cell_int cell :
  py_int (remove_commas (strip (str_scalar (lower_cell cell))))
  = py_int (remove_commas (strip (str_scalar cell))).
Proof.
  destruct cell as [| | | |s]; try reflexivity. cbn [lower_cell str_scalar].
  now rewrite strip_lower, remove_commas_lower, py_int_lower.
Qed.

(** A field gets a note for the row in lower case exactly when it gets one
    for the row. *)
Lemma lower_row_field csv_data vehicle_data field :
  List.length (autotrader_compare_field (lower_row csv_data) vehicle_data [] field)
  = List.length (autotrader_compare_field csv_data vehicle_data [] field).
Proof.
  unfold autotrader_compare_field. destruct field as [csv_field api_path].
  rewrite lower_row_get.
  destruct (dict_get csv_data csv_field) as [cell|]; [|reflexivity]. cbn [option_map].
  rewrite lower_cell_truthy, lower_cell_int, lower_cell_text.
  destruct (truthy_scalar cell); [|reflexivity].
  destruct (_ && _).
  - destruct (py_int (remove_commas (strip (str_scalar cell)))); [|reflexivity].
    destruct (py_int _); [|reflexivity]. destruct (_ >? _); reflexivity.
  - destruct (negb (is_none _)); [|reflexivity].
    destruct (negb _); reflexivity.
Qed.

Lemma lower_row_notes csv_data vehicle_data fields :
  List.length (fold_left (autotrader_compare_field (lower_row csv_data) vehicle_data) fields [])
  = List.length (fold_left (autotrader_compare_field csv_data vehicle_data) fields []).
Proof.
  rewrite !autotrader_notes_flat_map. cbn [app].
  induction fields as [|f fields IH]; [reflexivity|]. cbn [flat_map].
  now rewrite !length_app, IH, lower_row_field.
Qed.

Lemma lower_row_verdict csv_data vehicle_data :
  match autotrader_compare_data csv_data vehicle_data,
        autotrader_compare_data (lower_row csv_data) vehicle_data with
  | Ok (status1, notes1), Ok (status2, notes2) =>
      status1 = status2 /\ List.length notes1 = List.length notes2
  | Raise e1, Raise e2 => e1 = e2
  | _, _ => False
  end.
Proof.
  unfold autotrader_compare_data.
  destruct (negb (truthy vehicle_data)); [split; reflexivity|].
  destruct (py_get vehicle_data "status" JNone) as [st|e]; [|reflexivity].
  pose proof (lower_row_notes csv_data vehicle_data autotrader_comparison_fields) as Hn.
  assert (Hloop :
            match
              (let mismatched := fold_left (autotrader_compare_field csv_data vehicle_data)
                                           autotrader_comparison_fields [] in
               match mismatched with
               | _ :: _ => Ok ("Mismatched", mismatched)
               | [] => Ok ("Found", [])
               end),
              (let mismatched :=
                 fold_left (autotrader_compare_field (lower_row csv_data) vehicle_data)
                           autotrader_comparison_fields [] in
               match mismatched with
               | _ :: _ => Ok ("Mismatched", mismatched)
               | [] => Ok ("Found", [])
               end)
            with
            | Ok (status1, notes1), Ok (status2, notes2) =>
                status1 = status2 /\ List.length notes1 = List.length notes2
            | Raise e1, Raise e2 => e1 = e2
            | _, _ => False
            end).
  { cbv zeta.
    destruct (fold_left (autotrader_compare_field csv_data vehicle_data) _ _),
             (fold_left (autotrader_compare_field (lower_row csv_data) vehicle_data) _ _);
      try discriminate Hn; split; auto. }
  destruct (truthy st); [|exact Hloop].
  destruct (py_lower st) as [low|e]; [|reflexivity].
  destruct (negb (low =? "live")%string); [|exact Hloop].
  destruct (low =? "sold")%string; [split; reflexivity|].
  destruct (low =? "on offer")%string; [split; reflexivity|].
  exact Hloop.
Qed.

End VerdictFacts.

Module VerdictProps.
Import PyStr Py Reconcile NumberSpec Examples.
Import DictFacts ReconcileFacts NumberFacts VerdictFacts.

(** X6: whatever the row and the listing, a comparison that returns
    gives one of five verdicts; the notes are empty unless the verdict is
    Mismatched, and then there are between one and seven of them, each
    under the name of a column of the field map; Not Found is the verdict
    of the missing listing only.  Both providers. *)
Theorem verdict_and_notes csv_data vehicle_data status notes :
  autotrader_compare_data csv_data vehicle_data = Ok (status, notes) \/
  carsguide_compare_data csv_data vehicle_data = Ok (status, notes) ->
  (status = "Not Found" /\ notes = [] /\ truthy vehicle_data = false) \/
  (In status ["Sold"; "On Offer"; "Found"] /\ notes = [] /\ truthy vehicle_data = true) \/
  (status = "Mismatched" /\ notes <> [] /\ truthy vehicle_data = true /\
   (List.length notes <= 7)%nat /\
   Forall (fun n => exists csv_field rest,
               In csv_field ["Fuel"; "Model"; "Seats"; "Doors"; "Transmission";
                             "Tansmission"; "Price"] /\
               n = csv_field ++ ": " ++ rest) notes).
Proof.
  change (carsguide_compare_data csv_data vehicle_data)
    with (autotrader_compare_data csv_data vehicle_data).
  intros [H|H]; exact (compare_verdict _ _ _ _ H).
Qed.

Lemma verdict_and_notes_witness :
  ("Mismatched" = "Not Found" /\ ["Price: CSV=20000, API=20200"] = [] /\
   truthy (JDict (listing_priced 20200)) = false) \/
  (In "Mismatched" ["Sold"; "On Offer"; "Found"] /\ ["Price: CSV=20000, API=20200"] = [] /\
   truthy (JDict (listing_priced 20200)) = true) \/
  ("Mismatched" = "Mismatched" /\ ["Price: CSV=20000, API=20200"] <> [] /\
   truthy (JDict (listing_priced 20200)) = true /\
   (List.length ["Price: CSV=20000, API=20200"] <= 7)%nat /\
   Forall (fun n => exists csv_field rest,
               In csv_field ["Fuel"; "Model"; "Seats"; "Doors"; "Transmission";
                             "Tansmission"; "Price"] /\
               n = csv_field ++ ": " ++ rest) ["Price: CSV=20000, API=20200"]).
Proof.
  apply (verdict_and_notes csv_20000 (JDict (listing_priced 20200))).
  left. reflexivity.
Defined.

(** X7: a comparison raises in two cases only, with an AttributeError
    in both: the listing is a value other than a dict that is not empty,
    zero or None (it has no [get]); or the status of the listing is such a
    value and no text (it has no [lower]).  Both providers. *)
Theorem comparison_raises_exactly csv_data vehicle_data e :
  (autotrader_compare_data csv_data vehicle_data = Raise e <->
   carsguide_compare_data csv_data vehicle_data = Raise e) /\
  (autotrader_compare_data csv_data vehicle_data = Raise e <->
   truthy vehicle_data = true /\
   ((e = Exn "AttributeError"
            ("'" ++ type_name vehicle_data ++ "' object has no attribute 'get'")
     /\ forall d, vehicle_data <> JDict d) \/
    (exists d status,
        vehicle_data = JDict d /\ dict_get d "status" = Some status /\
        truthy status = true /\ (forall s, status <> JStr s) /\
        e = Exn "AttributeError"
              ("'" ++ type_name status ++ "' object has no attribute 'lower'")))).
Proof.
  split; [reflexivity | apply compare_raises].
Qed.

(** X8: when the Price of the row and the advertised price of a
    live listing are both integers, the row's not zero, the comparison
    always reads them: there is one note about Price, with both numbers,
    when they differ by more than 100, and none otherwise. *)
Theorem integer_prices_compare_by_value csv_data d s csv_price api_price :
  dict_get d "status" = Some (JStr s) -> lower s = "live" ->
  dict_get csv_data "Price" = Some (SInt csv_price) -> csv_price <> 0 ->
  api_path_value (JDict d) ["price"; "advertised_price"] = JAtom (SInt api_price) ->
  exists status notes,
    autotrader_compare_data csv_data (JDict d) = Ok (status, notes) /\
    filter (String.prefix "Price: ") notes =
      if Z.abs (csv_price - api_price) >? 100
      then ["Price: CSV=" ++ str_of_Z csv_price ++ ", API=" ++ str_of_Z api_price]
      else [].
Proof.
  intros Hst Hlive Hcell Hnz Hapi.
  destruct (live_price_notes csv_data d s Hst Hlive) as (status & notes & E & _ & _ & Hp).
  exists status, notes. split; [exact E|]. rewrite Hp.
  rewrite (price_field_notes csv_data (JDict d) (SInt csv_price) Hcell).
  - rewrite Hapi. change (py_str (JAtom (SInt api_price))) with (str_scalar (SInt api_price)).
    now rewrite !read_int_cell.
  - cbn [truthy_scalar]. apply negb_true_iff. now apply Z.eqb_neq.
  - now rewrite Hapi.
Qed.

Lemma integer_prices_compare_by_value_witness :
  exists status notes,
    autotrader_compare_data csv_priced (JDict (listing_priced 20200)) = Ok (status, notes) /\
    filter (String.prefix "Price: ") notes = ["Price: CSV=20000, API=20200"].
Proof.
  apply (integer_prices_compare_by_value csv_priced (listing_priced 20200) "live" 20000 20200);
    reflexivity || discriminate.
Defined.



(** X10: the verdict does not depend on the letter case of the texts of
    the row: with every text of the row in lower case the comparison raises
    the same exception or gives the same verdict, with as many notes.  Both
    providers. *)
Theorem verdict_ignores_case csv_data vehicle_data :
  match autotrader_compare_data csv_data vehicle_data,
        autotrader_compare_data (lower_row csv_data) vehicle_data with
  | Ok (status1, notes1), Ok (status2, notes2) =>
      status1 = status2 /\ List.length notes1 = List.length notes2
  | Raise e1, Raise e2 => e1 = e2
  | _, _ => False
  end /\
  match carsguide_compare_data csv_data vehicle_data,
        carsguide_compare_data (lower_row csv_data) vehicle_data with
  | Ok (status1, notes1), Ok (status2, notes2) =>
      status1 = status2 /\ List.length notes1 = List.length notes2
  | Raise e1, Raise e2 => e1 = e2
  | _, _ => False
  end.
Proof. split; apply lower_row_verdict. Qed.

End VerdictProps.

(* ===================================================================== *)
(** * The result cells of a row *)
(* ===================================================================== *)

Module CellFacts.
Import PyStr Py Reconcile Eff Http Provider ProviderSpec Batch BatchSpec OutcomeSpec.
Import DictFacts ReconcileFacts ProviderFacts BatchFacts TraceFacts VerdictFacts.

Lemma prefix_app (p s : string) : String.prefix p (p ++ s) = true.
Proof.
  induction p as [|c p IH]; simpl.
  - now destruct s.
  - destruct (ascii_dec c c); [exact IH | contradiction].
Qed.

(** The URL the loop derives for a listing. *)
Lemma extract_vehicle_url_shape vehicle_data site_type site url :
  (site_type = "autotrader" /\ site = autotrader_site) \/
  (site_type = "carsguide" /\ site = carsguide_site) ->
  extract_vehicle_url vehicle_data site_type = Ok url ->
  exists u, url = JStr u /\
            (u = "" \/ String.prefix site u = true) /\
            (truthy vehicle_data = false -> u = "").
Proof.
  intros Hsite. unfold extract_vehicle_url.
  destruct (truthy vehicle_data); cbn [negb]; [|intros [= <-]; eauto].
  destruct (py_get vehicle_data "url" (JStr "")) as [first|e]; [|discriminate].
  destruct (if truthy first then _ else _) as [url_path|e]; [|discriminate].
  destruct (negb (truthy url_path)); [intros [= <-]; exists ""; auto|].
  destruct Hsite as [[-> ->] | [-> ->]]; cbn [String.eqb Ascii.eqb Bool.eqb];
    intros [= <-]; eexists; (split; [reflexivity|]); (split; [|discriminate]); right.
  - exact (prefix_app autotrader_site (py_str url_path)).
  - exact (prefix_app carsguide_site (py_str url_path)).
Qed.

(** What a comparison and the URL of its listing give as cells. *)
Lemma compare_listed csv_data vehicle_data status notes site api u :
  autotrader_compare_data csv_data vehicle_data = Ok (status, notes) ->
  (u = "" \/ String.prefix site u = true) ->
  (truthy vehicle_data = false -> u = "") ->
  listed site api status (String.concat "; " notes) u.
Proof.
  intros E Hu Hfalsy. destruct (joined_notes _ _ _ _ E) as [Hm Hq].
  destruct (compare_verdict _ _ _ _ E) as [(-> & -> & Ht)|[(Hs & -> & _)|(-> & _)]].
  - right; left. split; [reflexivity|]. split; [now right | auto].
  - right; right; left. split; [|split; [reflexivity | assumption]].
    cbn [In] in Hs |- *. tauto.
  - right; right; right. auto.
Qed.

Section ThreeCells.
Variables (c1 c2 c3 : string).
Hypothesis (H12 : c1 <> c2) (H13 : c1 <> c3) (H23 : c2 <> c3).

(** Three cells of a row written one after the other. *)
Lemma three_sets_row df index r v1 v2 v3 :
  nth_error df index = Some r ->
  exists r',
    nth_error (frame_set (frame_set (frame_set df index c1 v1) index c2 v2) index c3 v3) index
      = Some r' /\
    dict_get r' c1 = Some v1 /\ dict_get r' c2 = Some v2 /\ dict_get r' c3 = Some v3 /\
    forall k, k <> c1 -> k <> c2 -> k <> c3 -> dict_get r' k = dict_get r k.
Proof using H12 H13 H23.
  intros H. eexists. split; [do 3 apply frame_set_same; exact H|].
  repeat split.
  - rewrite !dict_get_set_other by congruence. apply dict_get_set_same.
  - rewrite dict_get_set_other by congruence. apply dict_get_set_same.
  - apply dict_get_set_same.
  - intros k K1 K2 K3. now rewrite !dict_get_set_other by congruence.
Qed.

End ThreeCells.

Lemma block_cells_sets c1 c2 c3 site api df index r status notes url :
  c1 <> c2 -> c1 <> c3 -> c2 <> c3 ->
  nth_error df index = Some r ->
  listed site api status notes url ->
  block_cells c1 c2 c3 site api r
    (frame_set (frame_set (frame_set df index c1 (SStr status)) index c2 (SStr notes))
       index c3 (SStr url)) index.
Proof.
  intros H12 H13 H23 Hr Hl.
  destruct (three_sets_row c1 c2 c3 H12 H13 H23 df index r (SStr status) (SStr notes)
              (SStr url) Hr) as (r' & Hr' & G1 & G2 & G3 & K).
  exists r', status, notes, url. auto 10.
Qed.

(** The paths of a block that end normally, with the cells each leaves. *)
Ltac cells_leaf site_type site :=
  first
    [ discriminate
    | intros [= <- <-] Hr;
      repeat match goal with
             | E : ?p = (_, _) |- _ => is_var p; subst p
             end;
      apply block_cells_sets; try discriminate; try assumption;
      first
        [ left; split; [reflexivity|]; split; reflexivity
        | right; left; split; [reflexivity|]; split; [now left | reflexivity]
        | match goal with
          | Hc : autotrader_compare_data ?c ?v = Ok (?st, ?n),
            Hu : extract_vehicle_url ?v site_type = Ok (JAtom (SStr ?u)) |- _ =>
              let u' := fresh "u" in
              let Heq := fresh "Heq" in
              let Hshape := fresh "Hshape" in
              let Hfalsy := fresh "Hfalsy" in
              destruct (extract_vehicle_url_shape v site_type site _
                          ltac:(first [left; split; reflexivity | right; split; reflexivity])
                          Hu) as (u' & Heq & Hshape & Hfalsy);
              injection Heq as <-;
              exact (compare_listed c v st n site _ u Hc Hshape Hfalsy)
          end ] ].

Lemma process_autotrader_result_cells save_results index car_dict combined result
    df tr df' tr' r :
  process_autotrader_result save_results index car_dict combined result (df, tr)
    = (Ok tt, (df', tr')) ->
  nth_error df index = Some r ->
  block_cells "Autotrader" "Autotrader Notes" "Autotrader URL" autotrader_site "AutoTrader"
    r df' index.
Proof.
  unfold process_autotrader_result. run_batch.
  repeat (branch; run_batch); cells_leaf "autotrader" autotrader_site.
Qed.

Lemma process_carsguide_result_cells save_results index car_dict combined result
    df tr df' tr' r :
  process_carsguide_result save_results index car_dict combined result (df, tr)
    = (Ok tt, (df', tr')) ->
  nth_error df index = Some r ->
  block_cells "Carsguide" "Carsguide Notes" "Carsguide URL" carsguide_site "Carsguide"
    r df' index.
Proof.
  unfold process_carsguide_result.
  change carsguide_compare_data with autotrader_compare_data. run_batch.
  repeat (branch; run_batch); cells_leaf "carsguide" carsguide_site.
Qed.

Lemma same_but_row cols index df df' r :
  same_but cols index df df' -> nth_error df index = Some r ->
  exists r', nth_error df' index = Some r'.
Proof. intros [_ H] Hr. destruct (H index r Hr) as (r' & Hr' & _). eauto. Qed.

(** The cells of a row that was not searched, and of a row that failed. *)
Lemma not_searched_cells index df r :
  nth_error df index = Some r ->
  exists r',
    nth_error (six_cells index "Not Searched" "Missing Year or StockNo" ""
                 "Not Searched" "Missing Year or StockNo" "" df) index = Some r' /\
    row_outcome r'.
Proof.
  intros Hr.
  destruct (six_sets_row df index r "Not Searched" "Missing Year or StockNo" ""
              "Not Searched" "Missing Year or StockNo" "" Hr)
    as (r' & Hr' & G1 & G2 & G3 & G4 & G5 & G6).
  exists r'. split; [assumption|].
  do 6 eexists. repeat (split; [eassumption|]). left. auto 10.
Qed.

Lemma error_cells index e df r :
  nth_error df index = Some r ->
  exists r',
    nth_error (six_cells index "Error" ("Error processing: " ++ exn_msg e) ""
                 "Error" ("Error processing: " ++ exn_msg e) "" df) index = Some r' /\
    row_outcome r'.
Proof.
  intros Hr.
  destruct (six_sets_row df index r "Error" ("Error processing: " ++ exn_msg e) ""
              "Error" ("Error processing: " ++ exn_msg e) "" Hr)
    as (r' & Hr' & G1 & G2 & G3 & G4 & G5 & G6).
  exists r'. split; [assumption|].
  do 6 eexists. repeat (split; [eassumption|]). right; left.
  repeat split. exact (prefix_app "Error processing: " (exn_msg e)).
Qed.

(** The body of a turn: the cells it leaves when it ends normally; when it
    raises the row is still there. *)
Lemma process_row_body_cells net save_results index row df tr r :
  nth_error df index = Some r ->
  let out := process_row_body net save_results index row (df, tr) in
  exists r', nth_error (fst (snd out)) index = Some r' /\
             (fst out = Ok tt -> row_outcome r').
Proof.
  intros Hr out.
  assert (E : process_row_body net save_results index row (df, tr) = out) by reflexivity.
  clearbody out. revert E.
  unfold process_row_body. cbv zeta.
  destruct (_ || _).
  { intros <-.
    destruct (record_not_searched_spec index df tr) as (Hsame & _ & _ & Hok).
    destruct (same_but_row _ _ _ _ _ Hsame Hr) as [r1 Hr1].
    exists r1. split; [assumption|]. intros Hfst.
    destruct (Hok Hfst) as [Hframe _]. rewrite Hframe in Hr1.
    destruct (not_searched_cells index df r Hr) as (r' & Hr' & Ho).
    assert (X : Some r1 = Some r') by exact (eq_trans (eq_sym Hr1) Hr').
    injection X as ->. exact Ho. }
  unfold bind at 1. unfold lift_net at 1. cbn [fst snd].
  destruct (autotrader_search_vehicle _ _ _ _ tr) as [[autotrader_result|e] tr1]; pairs;
    [|intros <-; pairs; exists r; split; [assumption | discriminate]].
  unfold bind at 1.
  pose proof (process_autotrader_result_spec save_results index row
                (str_scalar (row_get row "Year" (SStr "")) ++
                 str_scalar (row_get row "StockNo" (SStr "")))
                autotrader_result df tr1) as Hat.
  cbv zeta in Hat.
  match goal with
  | |- context [process_autotrader_result ?s ?i ?c ?k ?res ?st] =>
      change (process_autotrader_result _ _ _ _ _ _)
        with (process_autotrader_result s i c k res st) in Hat;
      destruct (process_autotrader_result s i c k res st) as [[[]|e] [df2 tr2]] eqn:Eat
  end; cbn [fst snd] in Hat; destruct Hat as [Hsame2 _]; pairs.
  2:{ intros <-; pairs. destruct (same_but_row _ _ _ _ _ Hsame2 Hr) as [r2 Hr2].
      exists r2. split; [assumption | discriminate]. }
  destruct (process_autotrader_result_cells _ _ _ _ _ _ _ _ _ r Eat Hr)
    as (r2 & a & an & au & Hr2 & A1 & A2 & A3 & Alisted & _).
  unfold bind at 1. unfold lift_net at 1, add_delay at 1, sleep_uniform at 1. pairs.
  unfold bind at 1. unfold lift_net at 1. pairs.
  destruct (carsguide_search_vehicle _ _ _ _ _ _) as [[carsguide_result|e] tr3]; pairs;
    [|intros <-; pairs; exists r2; split; [assumption | discriminate]].
  unfold bind at 1.
  pose proof (process_carsguide_result_spec save_results index row
                (str_scalar (row_get row "Year" (SStr "")) ++
                 str_scalar (row_get row "StockNo" (SStr "")))
                carsguide_result df2 tr3) as Hcg.
  cbv zeta in Hcg.
  match goal with
  | |- context [process_carsguide_result ?s ?i ?c ?k ?res ?st] =>
      change (process_carsguide_result _ _ _ _ _ _)
        with (process_carsguide_result s i c k res st) in Hcg;
      destruct (process_carsguide_result s i c k res st) as [[[]|e] [df4 tr4]] eqn:Ecg
  end; cbn [fst snd] in Hcg; destruct Hcg as [Hsame4 _]; pairs.
  2:{ intros <-; pairs. destruct (same_but_row _ _ _ _ _ Hsame4 Hr2) as [r4 Hr4].
      exists r4. split; [assumption | discriminate]. }
  destruct (process_carsguide_result_cells _ _ _ _ _ _ _ _ _ r2 Ecg Hr2)
    as (r4 & c & cn & cu & Hr4 & C1 & C2 & C3 & Clisted & K).
  unfold lift_net, add_delay, sleep_uniform. pairs. intros <-. pairs.
  exists r4. split; [assumption|]. intros _.
  exists a, an, au, c, cn, cu.
  rewrite !K by discriminate.
  repeat (split; [assumption|]). right; right. split; assumption.
Qed.

(** A turn of the loop that ends normally leaves the cells of its row in one
    of the three shapes. *)
Lemma process_row_cells net save_results index row df tr r :
  nth_error df index = Some r ->
  let out := process_row net save_results index row (df, tr) in
  fst out = Ok tt ->
  exists r', nth_error (fst (snd out)) index = Some r' /\ row_outcome r'.
Proof.
  intros Hr. unfold process_row, catch.
  pose proof (process_row_body_cells net save_results index row df tr r Hr) as Hbody.
  cbv zeta in Hbody |- *.
  destruct (process_row_body net save_results index row (df, tr)) as [[[]|e] [df1 tr1]];
    cbn [fst snd] in Hbody; destruct Hbody as (r1 & Hr1 & Ho).
  - intros _. exists r1. cbn [fst snd]. auto.
  - intros Hfst.
    destruct (record_error_spec index e df1 tr1) as (_ & _ & _ & Hok).
    destruct (Hok Hfst) as [-> _]. now apply (error_cells index e df1 r1).
Qed.

Lemma process_row_outcome net save_results index row df tr r' :
  fst (process_row net save_results index row (df, tr)) = Ok tt ->
  nth_error (fst (snd (process_row net save_results index row (df, tr)))) index = Some r' ->
  row_outcome r'.
Proof.
  intros Hok Hr'.
  destruct (nth_error df index) as [r|] eqn:Hr.
  - destruct (process_row_cells net save_results index row df tr r Hr Hok) as (r2 & Hr2 & Ho).
    assert (X : Some r' = Some r2) by exact (eq_trans (eq_sym Hr') Hr2).
    injection X as ->. exact Ho.
  - pose proof (process_row_spec net save_results index row df tr) as H. cbv zeta in H.
    destruct H as ([Hlen _] & _).
    apply nth_error_None in Hr. rewrite <- Hlen in Hr. apply nth_error_None in Hr.
    assert (X : Some r' = None) by exact (eq_trans (eq_sym Hr') Hr).
    discriminate X.
Qed.

(** What every turn that ends normally leaves in its own row holds of every
    row when the loop ends normally; [Q] relates the row the turn is given
    and the row it leaves. *)
Lemma process_rows_post net save_results (Q : row -> row -> Prop) :
  (forall index row df tr r',
      fst (process_row net save_results index row (df, tr)) = Ok tt ->
      nth_error (fst (snd (process_row net save_results index row (df, tr)))) index = Some r' ->
      Q row r') ->
  forall rows index df tr j row r',
    fst (process_rows net save_results index rows (df, tr)) = Ok tt ->
    nth_error rows j = Some row ->
    nth_error (fst (snd (process_rows net save_results index rows (df, tr)))) (index + j)
      = Some r' ->
    Q row r'.
Proof.
  intros HQ. induction rows as [|row0 rows IH]; intros index df tr j row r' Hok Hj Hr'.
  - destruct j; discriminate Hj.
  - cbn [process_rows] in Hr', Hok. unfold bind in Hr', Hok.
    specialize (HQ index row0 df tr).
    destruct (process_row net save_results index row0 (df, tr)) as [[[]|e] [df1 tr1]];
      cbn [fst snd] in HQ; [|discriminate Hok].
    pose proof (process_rows_frame net save_results rows (S index) df1 tr1) as Hrest.
    cbv zeta in Hrest.
    destruct j as [|j].
    + destruct Hrest as (_ & _ & Hbefore & _).
      cbn [nth_error] in Hj. injection Hj as <-.
      rewrite Nat.add_0_r in Hr'. rewrite Hbefore in Hr' by lia. now apply HQ.
    + cbn [nth_error] in Hj. apply (IH (S index) df1 tr1 j row r' Hok Hj).
      replace (S index + j)%nat with (index + S j)%nat by lia. exact Hr'.
Qed.

(** Every row of the frame a batch run that ends normally leaves, with the
    row the loop was given for it. *)
Lemma process_csv_file_rows net save_results (Q : row -> row -> Prop) :
  (forall index row df tr r',
      fst (process_row net save_results index row (df, tr)) = Ok tt ->
      nth_error (fst (snd (process_row net save_results index row (df, tr)))) index = Some r' ->
      Q row r') ->
  forall df j r',
    fst (process_csv_file net save_results df) = Ok tt ->
    nth_error (fst (snd (process_csv_file net save_results df))) j = Some r' ->
    exists row, nth_error (add_output_columns df) j = Some row /\ Q row r'.
Proof.
  intros HQ df j r' Hok Hr'. unfold process_csv_file in Hr', Hok. cbv zeta in Hr', Hok.
  assert (Hlt : (j < List.length (add_output_columns df))%nat).
  { pose proof (process_rows_frame net save_results (add_output_columns df) 0
                  (add_output_columns df) []) as H.
    cbv zeta in H. destruct H as (Hlen & _).
    rewrite <- Hlen. apply nth_error_Some. intros Habs.
    assert (X : Some r' = None) by exact (eq_trans (eq_sym Hr') Habs).
    discriminate X. }
  destruct (nth_error (add_output_columns df) j) as [row|] eqn:Hrow;
    [|apply nth_error_None in Hrow; lia].
  exists row. split; [reflexivity|].
  exact (process_rows_post net save_results Q HQ (add_output_columns df) 0
           (add_output_columns df) [] j row r' Hok Hrow Hr').
Qed.

(** ** Rows without a key *)

Lemma blank_row_cells net save_results index row df tr r' :
  blank_key row ->
  fst (process_row net save_results index row (df, tr)) = Ok tt ->
  nth_error (fst (snd (process_row net save_results index row (df, tr)))) index = Some r' ->
  dict_get r' "Autotrader" = Some (SStr "Not Searched") /\
  dict_get r' "Autotrader Notes" = Some (SStr "Missing Year or StockNo") /\
  dict_get r' "Autotrader URL" = Some (SStr "") /\
  dict_get r' "Carsguide" = Some (SStr "Not Searched") /\
  dict_get r' "Carsguide Notes" = Some (SStr "Missing Year or StockNo") /\
  dict_get r' "Carsguide URL" = Some (SStr "").
Proof.
  intros Hblank Hok.
  pose proof (process_row_spec net save_results index row df tr) as Hspec.
  cbv zeta in Hspec. destruct Hspec as (_ & _ & _ & Hiff).
  pose proof (proj1 Hiff Hok) as Hready. clear Hiff.
  unfold process_row, catch.
  rewrite (blank_key_not_searched net save_results index row df tr Hblank).
  rewrite (record_not_searched_run index df tr Hready). cbn [fst snd]. intros Hr'.
  destruct (nth_error df index) as [r|] eqn:Hr.
  - destruct (six_sets_row df index r "Not Searched" "Missing Year or StockNo" ""
                "Not Searched" "Missing Year or StockNo" "" Hr)
      as (r2 & Hr2 & G).
    assert (X : Some r' = Some r2) by exact (eq_trans (eq_sym Hr') Hr2).
    injection X as ->. exact G.
  - apply nth_error_None in Hr.
    assert (Hlt : nth_error
                    (six_cells index "Not Searched" "Missing Year or StockNo" ""
                       "Not Searched" "Missing Year or StockNo" "" df) index <> None)
      by congruence.
    apply nth_error_Some in Hlt. unfold six_cells in Hlt.
    rewrite !frame_set_length in Hlt. lia.
Qed.

(** A row without a key leaves no event, whether its writes go well or
    not. *)
Lemma blank_row_silent net save_results index row df tr :
  blank_key row ->
  snd (snd (process_row net save_results index row (df, tr))) = tr.
Proof.
  intros Hblank. unfold process_row, catch.
  rewrite (blank_key_not_searched net save_results index row df tr Hblank).
  destruct (record_not_searched_spec index df tr) as (_ & _ & Htr & _).
  destruct (record_not_searched index (df, tr)) as [[[]|e] [df1 tr1]];
    cbn [fst snd] in Htr |- *; [assumption|].
  now rewrite (record_error_trace index e (df1, tr1)).
Qed.

Lemma blank_rows_silent net save_results rows : forall index df tr,
  (forall row, In row rows -> blank_key row) ->
  snd (snd (process_rows net save_results index rows (df, tr))) = tr.
Proof.
  induction rows as [|row rows IH]; intros index df tr Hall; [reflexivity|].
  cbn [process_rows]. unfold bind.
  pose proof (blank_row_silent net save_results index row df tr
                ltac:(apply Hall; now left)) as Hrow.
  destruct (process_row net save_results index row (df, tr)) as [[[]|e] [df1 tr1]];
    cbn [fst snd] in Hrow |- *; subst tr1; [|reflexivity].
  apply IH. intros r Hr. apply Hall. now right.
Qed.

Lemma add_output_columns_key df j r row :
  nth_error df j = Some r -> nth_error (add_output_columns df) j = Some row ->
  row_get row "Year" (SStr "") = row_get r "Year" (SStr "") /\
  row_get row "StockNo" (SStr "") = row_get r "StockNo" (SStr "").
Proof.
  intros Hr Hrow. destruct (add_output_columns_kept df j r Hr) as (r0 & Hr0 & K).
  assert (r0 = row) by congruence. subst r0. unfold row_get.
  rewrite !K; [auto | |]; unfold result_columns, autotrader_columns, carsguide_columns;
    simpl; intuition discriminate.
Qed.

End CellFacts.

Module CellProps.
Import PyStr Py Reconcile Eff Http Provider ProviderSpec Batch BatchSpec OutcomeSpec.
Import Examples Scenarios.
Import DictFacts BatchFacts TraceRule CellFacts.

(** X11: every row of the frame that a batch run leaves when it ends
    without an exception has its six result cells in one of three shapes:
    both providers Not Searched, with the note about the key; both providers
    Error, with one and the same note that starts with "Error processing: ";
    or both providers searched, each with API Error and the note that the
    data could not be retrieved, Not Found with the note that the vehicle
    was not found or with no note, Found, Sold or On Offer with no note, or
    Mismatched with a note.  The URL is empty in the first two shapes, for
    API Error and for Not Found, and otherwise empty or on the site of the
    provider. *)
Theorem every_row_has_an_outcome net save_results df j r' :
  fst (process_csv_file net save_results df) = Ok tt ->
  nth_error (fst (snd (process_csv_file net save_results df))) j = Some r' ->
  row_outcome r'.
Proof.
  intros Hok H.
  destruct (process_csv_file_rows net save_results (fun _ r' => row_outcome r')
              (fun index row df tr r' => process_row_outcome net save_results index row df tr r')
              df j r' Hok H) as (_ & _ & Ho).
  exact Ho.
Qed.

Lemma every_row_has_an_outcome_witness : row_outcome row_2020_done.
Proof.
  apply (every_row_has_an_outcome net_one_listing false [row_2020] 0); reflexivity.
Defined.



(** X13: a row of the input where the column Year or the column StockNo is
    absent or holds the empty text is not searched: no call of
    [session.get], [add_delay] or [save_json_file] is made for it, so that a
    run over rows that are all of that kind leaves no event at all (the CSV
    of the results, which is no event, is written as after any run); and in
    the frame that a run leaves when it ends without an exception the two
    statuses of such a row are Not Searched, its two notes "Missing Year or
    StockNo" and its two URLs empty.  A cell that pandas read as NaN is not
    of that kind. *)
Theorem blank_key_rows_are_skipped net save_results df j r r' :
  nth_error df j = Some r ->
  row_get r "Year" (SStr "") = SStr "" \/ row_get r "StockNo" (SStr "") = SStr "" ->
  fst (process_csv_file net save_results df) = Ok tt ->
  nth_error (fst (snd (process_csv_file net save_results df))) j = Some r' ->
  (dict_get r' "Autotrader" = Some (SStr "Not Searched") /\
   dict_get r' "Autotrader Notes" = Some (SStr "Missing Year or StockNo") /\
   dict_get r' "Autotrader URL" = Some (SStr "") /\
   dict_get r' "Carsguide" = Some (SStr "Not Searched") /\
   dict_get r' "Carsguide Notes" = Some (SStr "Missing Year or StockNo") /\
   dict_get r' "Carsguide URL" = Some (SStr "")) /\
  ((forall r0, In r0 df ->
       row_get r0 "Year" (SStr "") = SStr "" \/ row_get r0 "StockNo" (SStr "") = SStr "") ->
   snd (snd (process_csv_file net save_results df)) = []).
Proof.
  intros Hr Hblank Hok Hr'. split.
  - destruct (process_csv_file_rows net save_results
                (fun row r' =>
                   blank_key row ->
                   dict_get r' "Autotrader" = Some (SStr "Not Searched") /\
                   dict_get r' "Autotrader Notes" = Some (SStr "Missing Year or StockNo") /\
                   dict_get r' "Autotrader URL" = Some (SStr "") /\
                   dict_get r' "Carsguide" = Some (SStr "Not Searched") /\
                   dict_get r' "Carsguide Notes" = Some (SStr "Missing Year or StockNo") /\
                   dict_get r' "Carsguide URL" = Some (SStr ""))
                (fun index row df tr r' Hok H Hb =>
                   blank_row_cells net save_results index row df tr r' Hb Hok H)
                df j r' Hok Hr') as (row & Hrow & HQ).
    apply HQ. unfold blank_key.
    destruct (add_output_columns_key df j r row Hr Hrow) as [-> ->]. exact Hblank.
  - intros Hall. unfold process_csv_file. cbv zeta. apply blank_rows_silent.
    intros row Hin. apply In_nth_error in Hin. destruct Hin as [i Hi].
    destruct (nth_error df i) as [r0|] eqn:Hr0.
    + destruct (add_output_columns_key df i r0 row Hr0 Hi) as [E1 E2].
      unfold blank_key. rewrite E1, E2. apply Hall. eapply nth_error_In. exact Hr0.
    + apply nth_error_None in Hr0. rewrite <- (add_output_columns_length df) in Hr0.
      apply nth_error_None in Hr0. congruence.
Qed.

Lemma blank_key_rows_are_skipped_witness :
  (dict_get row_no_year_done "Autotrader" = Some (SStr "Not Searched") /\
   dict_get row_no_year_done "Autotrader Notes" = Some (SStr "Missing Year or StockNo") /\
   dict_get row_no_year_done "Autotrader URL" = Some (SStr "") /\
   dict_get row_no_year_done "Carsguide" = Some (SStr "Not Searched") /\
   dict_get row_no_year_done "Carsguide Notes" = Some (SStr "Missing Year or StockNo") /\
   dict_get row_no_year_done "Carsguide URL" = Some (SStr "")) /\
  ((forall r0, In r0 [row_no_year] ->
       row_get r0 "Year" (SStr "") = SStr "" \/ row_get r0 "StockNo" (SStr "") = SStr "") ->
   snd (snd (process_csv_file net_one_listing false [row_no_year])) = []).
Proof.
  apply (blank_key_rows_are_skipped net_one_listing false [row_no_year] 0 row_no_year);
    [reflexivity | left; reflexivity | reflexivity | reflexivity].
Defined.

End CellProps.

(* ===================================================================== *)
(** * The two clients *)
(* ===================================================================== *)

Module ClientFacts.
Import PyStr Py Reconcile Eff Http Provider ProviderSpec Batch BatchSpec TraceSpec.
Import DictFacts ProviderFacts BatchFacts TraceFacts LookupFacts RunFacts.

(** The fallback query of AutoTrader names no source. *)
Lemma autotrader_fallback_no_source csv_row dealer_id :
  dict_get (build_fallback_search_params csv_row dealer_id None) "source" = None.
Proof. rewrite build_fallback_steps. skip_steps. reflexivity. Qed.

(** No request of an AutoTrader lookup goes to Carsguide or names it as the
    source. *)
Lemma autotrader_requests net stock_no dealer_id csv_row tr0 :
  exists v new,
    autotrader_search_vehicle net stock_no dealer_id csv_row tr0 = (Ok v, (new ++ tr0)%list) /\
    forall r, In (EvGet r) new ->
              req_url r <> carsguide_main_url /\ dict_get (req_params r) "source" = None.
Proof.
  destruct (autotrader_course net stock_no dealer_id csv_row tr0) as (v & new & E & Hin).
  exists v, new. split; [exact E|]. intros r Hr.
  destruct (course_urls _ _ _ _ _ _ Hin Hr) as [->|[->|[->|Hf]]].
  - split; [discriminate | reflexivity].
  - split; [discriminate | reflexivity].
  - split; [discriminate | reflexivity].
  - destruct (row_given csv_row) as [row|]; [|discriminate Hf].
    injection Hf as <-. split; [discriminate|]. apply autotrader_fallback_no_source.
Qed.

(** A block sends no request. *)
Lemma autotrader_block_events save_results index car_dict combined result df tr :
  exists extra,
    snd (snd (process_autotrader_result save_results index car_dict combined result (df, tr)))
    = (extra ++ tr)%list /\
    forall r, ~ In (EvGet r) extra.
Proof.
  unfold process_autotrader_result. run_batch.
  repeat (branch; run_batch);
    match goal with
    | |- exists extra, ?l = _ /\ _ =>
        let p := prefix_of l tr in
        exists p; split; [reflexivity | intros r; cbn [In]; intuition discriminate]
    end.
Qed.

(** A row whose Year or StockNo has the empty text is not searched. *)
Lemma empty_key_not_searched net save_results index row df tr :
  str_scalar (row_get row "Year" (SStr "")) = "" \/
  str_scalar (row_get row "StockNo" (SStr "")) = "" ->
  process_row_body net save_results index row (df, tr) = record_not_searched index (df, tr).
Proof.
  intros H. unfold process_row_body. cbv zeta.
  assert (Hskip :
            negb (truthy_scalar (SStr (str_scalar (row_get row "Year" (SStr ""))))) ||
            negb (truthy_scalar (SStr (str_scalar (row_get row "StockNo" (SStr ""))))) = true).
  { destruct H as [-> | ->]; cbn [str_scalar truthy_scalar String.eqb negb orb];
      [reflexivity | apply orb_true_r]. }
  rewrite Hskip. reflexivity.
Qed.

(** Such a turn leaves no event, whether its writes go well or not. *)
Lemma empty_key_silent net save_results index row df tr :
  str_scalar (row_get row "Year" (SStr "")) = "" \/
  str_scalar (row_get row "StockNo" (SStr "")) = "" ->
  snd (snd (process_row net save_results index row (df, tr))) = tr.
Proof.
  intros H. unfold process_row, catch.
  rewrite (empty_key_not_searched net save_results index row df tr H).
  destruct (record_not_searched_spec index df tr) as (_ & _ & Htr & _).
  destruct (record_not_searched index (df, tr)) as [[[]|e] [df1 tr1]];
    cbn [fst snd] in Htr |- *; [assumption|].
  now rewrite (record_error_trace index e (df1, tr1)).
Qed.

End ClientFacts.

Module ClientProps.
Import PyStr Py Reconcile Eff Http Provider ProviderSpec Batch BatchSpec TraceSpec.
Import Examples Scenarios.
Import DictFacts ProviderFacts BatchFacts TraceFacts LookupFacts RunFacts ClientFacts.

(** X14: whatever the network does, a lookup of either client ends
    without an exception, and its events are those of one of four courses:
    the bootstrap request alone; the bootstrap, a pause of 1-3 and the
    primary query; these and a pause of 5-8, a new bootstrap and the retry;
    or, when a row was given, these three and a pause of 1-2 and the
    fallback query. *)
Theorem clients_follow_a_course net stock_no dealer_id make csv_row tr0 :
  (exists v new,
      autotrader_search_vehicle net stock_no dealer_id csv_row tr0
        = (Ok v, (new ++ tr0)%list) /\
      In new (lookup_runs autotrader_bootstrap (autotrader_primary stock_no dealer_id)
                (autotrader_retry stock_no dealer_id)
                (option_map (fun r => autotrader_fallback r dealer_id) (row_given csv_row)))) /\
  (exists v new,
      carsguide_search_vehicle net stock_no dealer_id make csv_row tr0
        = (Ok v, (new ++ tr0)%list) /\
      In new (lookup_runs carsguide_bootstrap (carsguide_primary stock_no dealer_id make)
                (carsguide_retry stock_no dealer_id make)
                (option_map (fun r => carsguide_fallback r dealer_id) (row_given csv_row)))).
Proof. split; [apply autotrader_course | apply carsguide_course]. Qed.

(** X15: the loop searches for a row exactly when the texts of its Year
    and of its StockNo, as [str] gives them, are both not empty: then the
    bootstrap request of AutoTrader is sent, whatever the network does; and
    otherwise the turn leaves no event at all. *)
Theorem row_searched_exactly_when net save_results index row df :
  let year := str_scalar (row_get row "Year" (SStr "")) in
  let stock_no := str_scalar (row_get row "StockNo" (SStr "")) in
  ((year <> "" /\ stock_no <> "") <->
   In (EvGet autotrader_bootstrap)
      (snd (snd (process_row net save_results index row (df, []))))) /\
  ((year = "" \/ stock_no = "") <->
   snd (snd (process_row net save_results index row (df, []))) = []).
Proof.
  intros year stock_no.
  assert (Hskip : year = "" \/ stock_no = "" ->
                  snd (snd (process_row net save_results index row (df, []))) = []).
  { intros H. exact (empty_key_silent net save_results index row df [] H). }
  assert (Hsearch : year <> "" -> stock_no <> "" ->
                    In (EvGet autotrader_bootstrap)
                       (snd (snd (process_row net save_results index row (df, []))))).
  { intros Hy Hs. exact (searched_unless_blank net save_results index row df [] Hy Hs). }
  split; split.
  - intros [Hy Hs]. now apply Hsearch.
  - intros Hin.
    destruct (string_dec year "") as [Ey|Ny].
    { pose proof (Hskip (or_introl Ey)) as E.
      pose proof (eq_ind _ (fun l => In (EvGet autotrader_bootstrap) l) Hin _ E) as X.
      destruct X. }
    destruct (string_dec stock_no "") as [Es|Ns].
    { pose proof (Hskip (or_intror Es)) as E.
      pose proof (eq_ind _ (fun l => In (EvGet autotrader_bootstrap) l) Hin _ E) as X.
      destruct X. }
    now split.
  - exact Hskip.
  - intros Hnil.
    destruct (string_dec year "") as [Ey|Ny]; [now left|].
    destruct (string_dec stock_no "") as [Es|Ns]; [now right|].
    pose proof (Hsearch Ny Ns) as Hin.
    pose proof (eq_ind _ (fun l => In (EvGet autotrader_bootstrap) l) Hin _ Hnil) as X.
    destruct X.
Qed.



End ClientProps.

(* ===================================================================== *)
(** * The parameters of a fallback query *)
(* ===================================================================== *)

Module ParamsFacts.
Import PyStr Py Reconcile Eff Http Provider ProviderSpec TraceSpec.
Import DictFacts ProviderFacts NumberFacts.

Section Keys.
Context {V : Type}.
Implicit Types (d : list (string * V)) (k : string) (v : V).

Lemma dict_get_none_keys d k : dict_get d k = None <-> ~ In k (List.map fst d).
Proof.
  induction d as [|[k' v'] d IH]; cbn [dict_get List.map fst In]; [tauto|].
  destruct (String.eqb_spec k k') as [->|Hne].
  - split; [discriminate | intros H; exfalso; apply H; now left].
  - rewrite IH. split; [intros H [E|Hin]; [congruence | tauto] | tauto].
Qed.

(** [d[k] = v] keeps the keys, or adds [k] at the end. *)
Lemma dict_set_keys d k v :
  List.map fst (dict_set d k v) =
  if dict_has d k then List.map fst d else (List.map fst d ++ [k])%list.
Proof.
  unfold dict_has. induction d as [|[k' v'] d IH]; cbn [dict_set dict_get]; [reflexivity|].
  destruct (String.eqb k k'); cbn [List.map fst]; [reflexivity|].
  rewrite IH. now destruct (dict_get d k).
Qed.

Lemma dict_set_NoDup d k v :
  NoDup (List.map fst d) -> NoDup (List.map fst (dict_set d k v)).
Proof.
  intros H. rewrite dict_set_keys. unfold dict_has.
  destruct (dict_get d k) eqn:E; [assumption|].
  apply dict_get_none_keys in E.
  apply NoDup_app; [assumption | repeat constructor; simpl; tauto |].
  intros x Hx [<-|[]]. contradiction.
Qed.

Lemma dict_set_incl d k v (allowed : list string) :
  In k allowed -> incl (List.map fst d) allowed ->
  incl (List.map fst (dict_set d k v)) allowed.
Proof.
  intros Hk H. rewrite dict_set_keys. destruct (dict_has d k); [assumption|].
  apply incl_app; [assumption|]. intros x [<-|[]]. assumption.
Qed.

End Keys.

Lemma tidy_set p k v : In k fallback_keys -> tidy p -> tidy (dict_set p k v).
Proof.
  intros Hk [H1 H2]. split; [now apply dict_set_NoDup | now apply dict_set_incl].
Qed.

Lemma tidy_text o k p : In k fallback_keys -> tidy p -> tidy (step_text o k p).
Proof. intros Hk Hp. destruct o; [now apply tidy_set | exact Hp]. Qed.

Lemma tidy_range o k1 k2 p :
  In k1 fallback_keys -> In k2 fallback_keys -> tidy p -> tidy (step_range o k1 k2 p).
Proof.
  intros H1 H2 Hp. unfold step_range. destruct o as [cell|]; [|exact Hp].
  destruct (py_int _); [|exact Hp]. now apply tidy_set, tidy_set.
Qed.

Lemma tidy_source source p : tidy p -> tidy (step_source source p).
Proof.
  intros Hp. unfold step_source. destruct source as [src|]; [|exact Hp].
  destruct (negb _); [|exact Hp]. apply tidy_set; [|exact Hp]. cbn. tauto.
Qed.

Lemma fallback_params_tidy csv_row dealer_id source :
  tidy (build_fallback_search_params csv_row dealer_id source).
Proof.
  rewrite build_fallback_steps.
  apply tidy_range; [cbn; tauto | cbn; tauto |].
  apply tidy_range; [cbn; tauto | cbn; tauto |].
  do 3 (apply tidy_text; [cbn; tauto|]).
  apply tidy_source. split.
  - cbn [List.map fst]. repeat constructor; cbn [In]; intuition discriminate.
  - intros k. cbn. tauto.
Qed.

Lemma get_source source p :
  dict_get p "source" = None ->
  dict_get (step_source source p) "source" =
  match source with
  | Some src => if String.eqb src "" then None else Some src
  | None => None
  end.
Proof.
  intros H. unfold step_source. destruct source as [src|]; [|exact H].
  destruct (String.eqb src ""); cbn [negb]; [exact H | apply dict_get_set_same].
Qed.

End ParamsFacts.

Module ParamsProps.
Import PyStr Py Reconcile Eff Http Provider ProviderSpec TraceSpec Examples.
Import DictFacts ProviderFacts NumberFacts ParamsFacts.

(** X17: the parameters of a fallback query have each name once, all
    among twelve names; the dealer, "ipLookup", "sorting_variation" and
    "paginate" are always there with their fixed values, the source exactly
    when one is given, and the stock number never. *)
Theorem fallback_params_wellformed csv_row dealer_id source :
  let params := build_fallback_search_params csv_row dealer_id source in
  NoDup (List.map fst params) /\
  incl (List.map fst params) fallback_keys /\
  dict_get params "stock_no" = None /\
  dict_get params "dealer_id" = Some dealer_id /\
  dict_get params "ipLookup" = Some "1" /\
  dict_get params "sorting_variation" = Some "smart_sort_3" /\
  dict_get params "paginate" = Some "26" /\
  dict_get params "source" =
    match source with
    | Some src => if String.eqb src "" then None else Some src
    | None => None
    end.
Proof.
  cbv zeta. destruct (fallback_params_tidy csv_row dealer_id source) as [Hnd Hincl].
  split; [exact Hnd|]. split; [exact Hincl|].
  rewrite build_fallback_steps.
  repeat split; skip_steps; try reflexivity.
  now rewrite get_source.
Qed.

(** X18: when a fallback query carries a lower bound for the price,
    it carries the upper bound too, and the two texts read back as the
    integers 100 below and 100 above the Price of the row; the same for the
    odometer and the KM of the row. *)
Theorem range_bounds_read_back csv_row dealer_id source lower from_key to_key column :
  (from_key, to_key, column) = ("priceFrom", "priceTo", "Price") \/
  (from_key, to_key, column) = ("odometerFrom", "odometerTo", "KM") ->
  dict_get (build_fallback_search_params csv_row dealer_id source) from_key = Some lower ->
  exists cell n upper,
    dict_get csv_row column = Some cell /\
    py_int (remove_commas (strip (str_scalar cell))) = Some n /\
    dict_get (build_fallback_search_params csv_row dealer_id source) to_key = Some upper /\
    py_int lower = Some (n - 100) /\ py_int upper = Some (n + 100).
Proof.
  intros Hkeys Hlower.
  destruct (fallback_params_content csv_row dealer_id source)
    as (_ & _ & _ & Hpf & Hpt & Hof & Hot).
  assert (Hgen : forall col f t,
             dict_get (build_fallback_search_params csv_row dealer_id source) f
               = range_of (usable_cell csv_row col) (-100) ->
             dict_get (build_fallback_search_params csv_row dealer_id source) t
               = range_of (usable_cell csv_row col) 100 ->
             dict_get (build_fallback_search_params csv_row dealer_id source) f = Some lower ->
             exists cell n upper,
               dict_get csv_row col = Some cell /\
               py_int (remove_commas (strip (str_scalar cell))) = Some n /\
               dict_get (build_fallback_search_params csv_row dealer_id source) t = Some upper /\
               py_int lower = Some (n - 100) /\ py_int upper = Some (n + 100)).
  { intros col f t Hf Ht Hl. rewrite Hf in Hl. rewrite Ht.
    clear Hpf Hpt Hof Hot Hf Ht.
    unfold range_of, usable_cell, read_int in *.
    destruct (dict_get csv_row col) as [cell|]; [|discriminate].
    destruct (truthy_scalar cell && negb (pd_isna cell)); [|discriminate].
    destruct (py_int (remove_commas (strip (str_scalar cell)))) as [n|] eqn:En;
      [|discriminate].
    cbn [option_map] in Hl |- *. injection Hl as <-.
    exists cell, n, (str_of_Z (n + 100)).
    split; [reflexivity|]. split; [exact En|]. split; [reflexivity|].
    split; [|apply py_int_str_of_Z].
    replace (n - 100) with (n + -100) by lia. apply py_int_str_of_Z. }
  destruct Hkeys as [[= -> -> ->] | [= -> -> ->]].
  - exact (Hgen "Price" "priceFrom" "priceTo" Hpf Hpt Hlower).
  - exact (Hgen "KM" "odometerFrom" "odometerTo" Hof Hot Hlower).
Qed.

Lemma range_bounds_read_back_witness :
  exists cell n upper,
    dict_get row_2020 "Price" = Some cell /\
    py_int (remove_commas (strip (str_scalar cell))) = Some n /\
    dict_get (build_fallback_search_params row_2020 "12751" None) "priceTo" = Some upper /\
    py_int "19900" = Some (n - 100) /\ py_int upper = Some (n + 100).
Proof.
  apply (range_bounds_read_back row_2020 "12751" None "19900" "priceFrom" "priceTo" "Price");
    [left; reflexivity | reflexivity].
Defined.

End ParamsProps.

(* ===================================================================== *)
(** * The output columns and the listing of an answer *)
(* ===================================================================== *)

Module FrameFacts.
Import PyStr Py Reconcile Eff Http Provider Batch BatchSpec.
Import DictFacts BatchFacts.

Lemma dict_has_set_same (r : row) col v : dict_has (dict_set r col v) col = true.
Proof. unfold dict_has. now rewrite dict_get_set_same. Qed.

Lemma dict_has_set_other (r : row) col k v :
  dict_has r k = true -> dict_has (dict_set r col v) k = true.
Proof.
  unfold dict_has. destruct (String.eqb_spec col k) as [->|Hne].
  - now rewrite dict_get_set_same.
  - now rewrite dict_get_set_other.
Qed.

(** The column of [add_column] is in every row afterwards, and so are the
    columns that were in every row before. *)
Lemma add_column_has col df r' :
  In r' (add_column col df) -> dict_has r' col = true.
Proof.
  unfold add_column. intros H. apply in_map_iff in H. destruct H as (r & <- & _).
  destruct (dict_has r col) eqn:E; [exact E | apply dict_has_set_same].
Qed.

Lemma add_column_keeps_has col k df :
  (forall r, In r df -> dict_has r k = true) ->
  forall r', In r' (add_column col df) -> dict_has r' k = true.
Proof.
  intros Hall r' H. unfold add_column in H. apply in_map_iff in H.
  destruct H as (r & <- & Hr). specialize (Hall r Hr).
  destruct (dict_has r col); [exact Hall | now apply dict_has_set_other].
Qed.

(** A column that is in every row is not added again. *)
Lemma add_column_again col df :
  (forall r, In r df -> dict_has r col = true) -> add_column col df = df.
Proof.
  intros Hall. unfold add_column. rewrite <- (map_id df) at 2.
  apply map_ext_in. intros r Hr. now rewrite (Hall r Hr).
Qed.

Lemma add_output_columns_has df r' col :
  In r' (add_output_columns df) -> In col result_columns -> dict_has r' col = true.
Proof.
  unfold add_output_columns, result_columns, autotrader_columns, carsguide_columns.
  cbn [app In]. intros Hr' Hcol.
  repeat match goal with
         | H : _ \/ _ |- _ => destruct H as [H|H]
         | H : False |- _ => destruct H
         end; subst col; revert r' Hr';
    repeat first [ apply add_column_has | apply add_column_keeps_has ].
Qed.

(** A cell that holds a value keeps it. *)
Lemma add_column_value col df j r :
  nth_error df j = Some r ->
  exists r', nth_error (add_column col df) j = Some r' /\
             (forall k v, dict_get r k = Some v -> dict_get r' k = Some v) /\
             (dict_get r col = None -> dict_get r' col = Some (SStr "")).
Proof.
  intros H. unfold add_column. rewrite (map_nth_error _ _ _ H).
  eexists. split; [reflexivity|]. unfold dict_has.
  destruct (dict_get r col) eqn:E.
  - split; [auto | discriminate].
  - split; [|intros _; apply dict_get_set_same].
    intros k v Hk. rewrite dict_get_set_other; [exact Hk | congruence].
Qed.

End FrameFacts.

Module FrameProps.
Import PyStr Py Reconcile Eff Http Provider Batch BatchSpec Examples.
Import DictFacts BatchFacts TraceRule FrameFacts.

(** X19: once the output columns have been added every row has the
    six of them; a cell that held a value still holds it, so the results of
    an earlier run are not wiped, and an output column that was missing
    holds the empty text; adding the columns again changes nothing. *)
Theorem output_columns_added_once df :
  add_output_columns (add_output_columns df) = add_output_columns df /\
  (forall r' col, In r' (add_output_columns df) -> In col result_columns ->
                  dict_has r' col = true) /\
  (forall j r, nth_error df j = Some r ->
     exists r', nth_error (add_output_columns df) j = Some r' /\
                (forall k v, dict_get r k = Some v -> dict_get r' k = Some v) /\
                (forall col, In col result_columns -> dict_get r col = None ->
                             dict_get r' col = Some (SStr ""))).
Proof.
  split; [|split].
  - pose proof (fun r' col => add_output_columns_has df r' col) as Hhas.
    set (df' := add_output_columns df) in *.
    unfold add_output_columns at 1.
    assert (Hcol : forall col, In col result_columns ->
                               forall r, In r df' -> dict_has r col = true)
      by (intros col Hc r Hr; now apply Hhas).
    rewrite (add_column_again "Autotrader" df') by (apply Hcol; cbn; tauto).
    rewrite (add_column_again "Autotrader Notes" df') by (apply Hcol; cbn; tauto).
    rewrite (add_column_again "Autotrader URL" df') by (apply Hcol; cbn; tauto).
    rewrite (add_column_again "Carsguide" df') by (apply Hcol; cbn; tauto).
    rewrite (add_column_again "Carsguide Notes" df') by (apply Hcol; cbn; tauto).
    apply add_column_again, Hcol. cbn. tauto.
  - intros r' col. apply add_output_columns_has.
  - intros j r H. unfold add_output_columns.
    destruct (add_column_value "Autotrader" _ _ _ H) as (r1 & H1 & K1 & N1).
    destruct (add_column_value "Autotrader Notes" _ _ _ H1) as (r2 & H2 & K2 & N2).
    destruct (add_column_value "Autotrader URL" _ _ _ H2) as (r3 & H3 & K3 & N3).
    destruct (add_column_value "Carsguide" _ _ _ H3) as (r4 & H4 & K4 & N4).
    destruct (add_column_value "Carsguide Notes" _ _ _ H4) as (r5 & H5 & K5 & N5).
    destruct (add_column_value "Carsguide URL" _ _ _ H5) as (r6 & H6 & K6 & N6).
    exists r6. split; [assumption|]. split.
    + intros k v Hk. auto 10.
    + intros col Hcol Hnone.
      pose proof (add_column_kept "Autotrader" _ _ _ H) as (x1 & X1 & O1).
      pose proof (add_column_kept "Autotrader Notes" _ _ _ H1) as (x2 & X2 & O2).
      pose proof (add_column_kept "Autotrader URL" _ _ _ H2) as (x3 & X3 & O3).
      pose proof (add_column_kept "Carsguide" _ _ _ H3) as (x4 & X4 & O4).
      pose proof (add_column_kept "Carsguide Notes" _ _ _ H4) as (x5 & X5 & O5).
      assert (x1 = r1) by congruence. assert (x2 = r2) by congruence.
      assert (x3 = r3) by congruence. assert (x4 = r4) by congruence.
      assert (x5 = r5) by congruence. subst.
      unfold result_columns, autotrader_columns, carsguide_columns in Hcol.
      cbn [app In] in Hcol.
      repeat match goal with
             | H : _ \/ _ |- _ => destruct H as [H|H]
             | H : False |- _ => destruct H
             end; subst col.
      * apply K6, K5, K4, K3, K2, N1, Hnone.
      * apply K6, K5, K4, K3, N2. rewrite O1 by discriminate. exact Hnone.
      * apply K6, K5, K4, N3. rewrite O2, O1 by discriminate. exact Hnone.
      * apply K6, K5, N4. rewrite O3, O2, O1 by discriminate. exact Hnone.
      * apply K6, N5. rewrite O4, O3, O2, O1 by discriminate. exact Hnone.
      * apply N6. rewrite O5, O4, O3, O2, O1 by discriminate. exact Hnone.
Qed.

(** X20: the listing taken from an answer is None, or the value under
    "_source" in the first element of the list under "data"; any other
    shape of a non-empty "data" raises.  Both providers. *)
Theorem extracted_listing_is_the_first_source api_data v :
  autotrader_extract_vehicle_data api_data = Ok v \/
  carsguide_extract_vehicle_data api_data = Ok v ->
  (v = JNone /\
   (truthy api_data = false \/ py_contains "data" api_data = Ok false \/
    exists data, py_getitem api_data "data" = Ok data /\ truthy data = false)) \/
  (exists d first rest,
      api_data = JDict d /\
      dict_get d "data" = Some (JList (JDict first :: rest)) /\
      dict_get first "_source" = Some v).
Proof.
  change (carsguide_extract_vehicle_data api_data)
    with (autotrader_extract_vehicle_data api_data).
  intros [H|H]; revert H; unfold autotrader_extract_vehicle_data;
    (destruct (truthy api_data) eqn:Et; cbn [negb]; [|intros [= <-]; left; auto]);
    (destruct (py_contains "data" api_data) as [[|]|e] eqn:Ec; cbn [negb];
       [|intros [= <-]; left; auto | discriminate]);
    (destruct (py_getitem api_data "data") as [data|e] eqn:Eg; [|discriminate]);
    (destruct (truthy data) eqn:Etd; cbn [negb];
       [|intros [= <-]; left; split; [reflexivity|]; right; right; eauto]);
    (destruct (py_first data) as [first|e] eqn:Ef; [|discriminate]);
    intros Hsrc; right;
    destruct api_data as [a|l|d]; try (destruct a; discriminate Eg); try discriminate Eg;
    cbn [py_getitem] in Eg;
    (destruct (dict_get d "data") as [x|] eqn:Ed; [|discriminate Eg]);
    injection Eg as ->;
    destruct data as [[| | | |s]|[|x l]|d']; try discriminate Ef;
    try (destruct s; discriminate Ef || (injection Ef as <-; discriminate Hsrc));
    injection Ef as ->;
    destruct first as [a|l'|f]; try (destruct a; discriminate Hsrc); try discriminate Hsrc;
    cbn [py_getitem] in Hsrc;
    (destruct (dict_get f "_source") as [src|] eqn:Es; [|discriminate Hsrc]);
    injection Hsrc as ->; eauto 10.
Qed.

Lemma extracted_listing_is_the_first_source_witness :
  (listing_live = JNone /\
   (truthy one_listing = false \/ py_contains "data" one_listing = Ok false \/
    exists data, py_getitem one_listing "data" = Ok data /\ truthy data = false)) \/
  (exists d first rest,
      one_listing = JDict d /\
      dict_get d "data" = Some (JList (JDict first :: rest)) /\
      dict_get first "_source" = Some listing_live).
Proof.
  apply (extracted_listing_is_the_first_source one_listing listing_live).
  left. reflexivity.
Defined.

End FrameProps.

(* ===================================================================== *)
(** * The display of a listing *)
(* ===================================================================== *)

Module DisplayFacts.
Import PyStr Py Reconcile Display DisplaySpec NumberSpec.
Import DictFacts NumberFacts.

(** Both displays are the display of a dict under the title of the
    provider. *)
Lemma autotrader_format_dict d :
  autotrader_format_vehicle_details (JDict d) =
  if negb (truthy (JDict d)) then Ok "No vehicle data available"
  else format_dict "VEHICLE DETAILS - Stock #" d.
Proof.
  unfold autotrader_format_vehicle_details, format_dict, specs_lines, description_lines, value.
  destruct (negb (truthy (JDict d))); [reflexivity|].
  cbn [py_get]. cbv beta iota zeta.
  destruct (py_get _ "advertised_price" na) as [advertised_price|e]; [|reflexivity].
  destruct (format_comma advertised_price) as [price_text|e]; [|reflexivity].
  destruct (format_comma _) as [odometer_text|e]; [|reflexivity].
  destruct (dict_get d "vehicle") as [vehicle_specs|];
    [destruct vehicle_specs as [a|l|specs]|];
    (destruct (truthy _); cbn [py_get]; cbv beta iota zeta; [|];
     try reflexivity;
     destruct (truthy _); try reflexivity;
     destruct (py_replace _ _ _); reflexivity).
Qed.

Lemma carsguide_format_dict d :
  carsguide_format_vehicle_details (JDict d) =
  if negb (truthy (JDict d)) then Ok "No vehicle data available"
  else format_dict "CARSGUIDE VEHICLE DETAILS - Stock #" d.
Proof.
  unfold carsguide_format_vehicle_details, format_dict, specs_lines, description_lines, value.
  destruct (negb (truthy (JDict d))); [reflexivity|].
  cbn [py_get]. cbv beta iota zeta.
  destruct (py_get _ "advertised_price" na) as [advertised_price|e]; [|reflexivity].
  destruct (format_comma advertised_price) as [price_text|e]; [|reflexivity].
  destruct (format_comma _) as [odometer_text|e]; [|reflexivity].
  destruct (dict_get d "vehicle") as [vehicle_specs|];
    [destruct vehicle_specs as [a|l|specs]|];
    (destruct (truthy _); cbn [py_get]; cbv beta iota zeta; [|];
     try reflexivity;
     destruct (truthy _); try reflexivity;
     destruct (py_replace _ _ _); reflexivity).
Qed.

(** A value that is no dict and not empty, zero or None cannot be
    displayed. *)
Lemma format_not_dict vehicle_data :
  truthy vehicle_data = true -> is_dict vehicle_data = false ->
  autotrader_format_vehicle_details vehicle_data
    = Raise (Exn "AttributeError"
               ("'" ++ type_name vehicle_data ++ "' object has no attribute 'get'")) /\
  carsguide_format_vehicle_details vehicle_data
    = Raise (Exn "AttributeError"
               ("'" ++ type_name vehicle_data ++ "' object has no attribute 'get'")).
Proof.
  intros Ht Hd.
  unfold autotrader_format_vehicle_details, carsguide_format_vehicle_details.
  rewrite Ht. cbn [negb].
  destruct vehicle_data as [a|l|d]; [split; reflexivity | split; reflexivity | discriminate Hd].
Qed.

Lemma format_comma_ok x : (exists t, format_comma x = Ok t) <-> numeric x = true.
Proof.
  destruct x as [[| | | |]|l|d]; cbn [format_comma numeric];
    (split; [intros [t H]; (discriminate H || reflexivity) | intros H; (discriminate H || eauto)]).
Qed.

Lemma specs_lines_ok x :
  (exists l, specs_lines x = Ok l) <-> negb (truthy x) || is_dict x = true.
Proof.
  unfold specs_lines. destruct (truthy x); cbn [negb orb]; [|split; eauto].
  destruct x as [a|l|d]; cbn [py_get is_dict];
    (split; [intros [t H]; (discriminate H || reflexivity) | intros H; (discriminate H || eauto)]).
Qed.

Lemma description_lines_ok d :
  (exists l, description_lines d = Ok l) <->
  match dict_get d "description" with
  | Some x => negb (truthy x) || is_str x
  | None => true
  end = true.
Proof.
  unfold description_lines, value.
  destruct (dict_get d "description") as [x|].
  - destruct (truthy x); cbn [negb orb]; [|split; eauto].
    destruct x as [[| | | |s]|l|d']; cbn [py_replace is_str];
      (split; [intros [t H]; (discriminate H || reflexivity)
              | intros H; (discriminate H || eauto)]).
  - cbn. split; eauto.
Qed.

Lemma advertised_price_ok d :
  (exists t, (let! advertised_price :=
                py_get (value d "price" (JDict [])) "advertised_price" na in
              format_comma advertised_price) = Ok t) <->
  match dict_get d "price" with
  | Some (JDict price) =>
      match dict_get price "advertised_price" with
      | Some x => numeric x
      | None => false
      end
  | _ => false
  end = true.
Proof.
  unfold value. destruct (dict_get d "price") as [[a|l|price]|]; cbn [py_get].
  - split; [intros [t H]; discriminate H | discriminate].
  - split; [intros [t H]; discriminate H | discriminate].
  - destruct (dict_get price "advertised_price") as [x|]; [apply format_comma_ok|].
    split; [intros [t H]; discriminate H | discriminate].
  - split; [intros [t H]; discriminate H | discriminate].
Qed.

(** The dicts that are displayed. *)
Lemma format_dict_ok title d :
  (exists t, format_dict title d = Ok t) <->
  match dict_get d "price" with
  | Some (JDict price) =>
      match dict_get price "advertised_price" with
      | Some x => numeric x
      | None => false
      end
  | _ => false
  end
  && match dict_get d "odometer" with
     | Some x => numeric x
     | None => false
     end
  && match dict_get d "vehicle" with
     | Some x => negb (truthy x) || is_dict x
     | None => true
     end
  && match dict_get d "description" with
     | Some x => negb (truthy x) || is_str x
     | None => true
     end = true.
Proof.
  pose proof (advertised_price_ok d) as Hp.
  pose proof (format_comma_ok (value d "odometer" na)) as Ho.
  pose proof (specs_lines_ok (value d "vehicle" (JDict []))) as Hs.
  pose proof (description_lines_ok d) as Hd.
  assert (Ho' : numeric (value d "odometer" na) =
                match dict_get d "odometer" with Some x => numeric x | None => false end)
    by (unfold value; now destruct (dict_get d "odometer")).
  assert (Hs' : negb (truthy (value d "vehicle" (JDict []))) || is_dict (value d "vehicle" (JDict []))
                = match dict_get d "vehicle" with
                  | Some x => negb (truthy x) || is_dict x
                  | None => true
                  end)
    by (unfold value; now destruct (dict_get d "vehicle")).
  rewrite Ho' in Ho. rewrite Hs' in Hs. clear Ho' Hs'.
  unfold format_dict. cbv zeta.
  rewrite !andb_true_iff, <- Hp, <- Ho, <- Hs, <- Hd.
  destruct (py_get (value d "price" (JDict [])) "advertised_price" na) as [ap|e].
  2:{ split; [intros [t H]; discriminate H | intros [[[[t H] _] _] _]; discriminate H]. }
  destruct (format_comma ap) as [pt|e].
  2:{ split; [intros [t H]; discriminate H | intros [[[[t H] _] _] _]; discriminate H]. }
  destruct (format_comma (value d "odometer" na)) as [ot|e].
  2:{ split; [intros [t H]; discriminate H | intros [[[_ [t H]] _] _]; discriminate H]. }
  destruct (specs_lines (value d "vehicle" (JDict []))) as [sl|e].
  2:{ split; [intros [t H]; discriminate H | intros [[_ [t H]] _]; discriminate H]. }
  destruct (description_lines d) as [dl|e].
  2:{ split; [intros [t H]; discriminate H | intros [_ [t H]]; discriminate H]. }
  split; eauto 10.
Qed.

(** Whether a display returns. *)
Lemma format_returns vehicle_data :
  ((exists t, autotrader_format_vehicle_details vehicle_data = Ok t) <->
   printable vehicle_data = true) /\
  ((exists t, carsguide_format_vehicle_details vehicle_data = Ok t) <->
   printable vehicle_data = true).
Proof.
  unfold printable. destruct (truthy vehicle_data) eqn:Et; cbn [negb orb].
  - destruct vehicle_data as [a|l|d].
    + destruct (format_not_dict (JAtom a) Et eq_refl) as [-> ->].
      split; (split; [intros [t H]; discriminate H | discriminate]).
    + destruct (format_not_dict (JList l) Et eq_refl) as [-> ->].
      split; (split; [intros [t H]; discriminate H | discriminate]).
    + rewrite autotrader_format_dict, carsguide_format_dict, Et. cbn [negb].
      split; apply format_dict_ok.
  - unfold autotrader_format_vehicle_details, carsguide_format_vehicle_details.
    rewrite Et. cbn [negb]. split; (split; eauto).
Qed.

(** ** The title is all that tells the two displays apart *)

Lemma format_dict_titles title1 title2 d :
  match format_dict title1 d, format_dict title2 d with
  | Ok text1, Ok text2 =>
      exists rest,
        text1 = String.concat LF
                  ((LF ++ times "=" 60) :: center (title1 ++ py_str (value d "stock_no" na)) 60
                     :: rest) /\
        text2 = String.concat LF
                  ((LF ++ times "=" 60) :: center (title2 ++ py_str (value d "stock_no" na)) 60
                     :: rest)
  | Raise e1, Raise e2 => e1 = e2
  | _, _ => False
  end.
Proof.
  unfold format_dict. cbv zeta.
  destruct (py_get (value d "price" (JDict [])) "advertised_price" na) as [ap|e];
    [|reflexivity].
  destruct (format_comma ap) as [pt|e]; [|reflexivity].
  destruct (format_comma (value d "odometer" na)) as [ot|e]; [|reflexivity].
  destruct (specs_lines (value d "vehicle" (JDict []))) as [sl|e]; [|reflexivity].
  destruct (description_lines d) as [dl|e]; [|reflexivity].
  unfold head_lines. cbn [app]. eexists. split; reflexivity.
Qed.

(** ** Numbers with thousands separators *)

Lemma no_blank_lstrip s : no_blank s = true -> lstrip s = s.
Proof.
  destruct s as [|c s]; [reflexivity|]. cbn [no_blank lstrip].
  destruct (is_space c); [discriminate | reflexivity].
Qed.

Lemma no_blank_rstrip s : no_blank s = true -> rstrip s = s.
Proof.
  induction s as [|c s IH]; [reflexivity|]. cbn [no_blank rstrip].
  destruct (is_space c); [discriminate|]. cbn [negb andb].
  intros H. rewrite (IH H). now destruct s.
Qed.

Lemma no_blank_strip s : no_blank s = true -> strip s = s.
Proof. intros H. unfold strip. now rewrite no_blank_lstrip, no_blank_rstrip. Qed.

Lemma leading_digits_all s : all_digits s = true -> leading_digits s = (s, "").
Proof.
  induction s as [|c s IH]; [reflexivity|]. cbn [all_digits leading_digits].
  destruct (digit_of c); [|discriminate]. intros H. now rewrite (IH H).
Qed.

Lemma group_digits_no_blank s : all_digits s = true -> no_blank (group_digits s) = true.
Proof.
  induction s as [|c s IH]; [reflexivity|]. cbn [all_digits group_digits].
  destruct (digit_of c) eqn:E; [|discriminate]. intros H.
  destruct (_ && _); cbn [no_blank]; rewrite (digit_not_space _ _ E), (IH H); reflexivity.
Qed.

Lemma group_digits_commas s : all_digits s = true -> remove_commas (group_digits s) = s.
Proof.
  induction s as [|c s IH]; [reflexivity|]. cbn [all_digits group_digits].
  destruct (digit_of c) eqn:E; [|discriminate]. intros H.
  destruct (_ && _); cbn [remove_commas]; rewrite (digit_not_comma _ _ E);
    cbn [Ascii.eqb Bool.eqb]; now rewrite (IH H).
Qed.

Lemma append_empty (s : string) : s ++ "" = s.
Proof. induction s; cbn; congruence. Qed.

(** In a text of digits all of it is grouped. *)
Lemma group_number_digits s : all_digits s = true -> group_number s = group_digits s.
Proof.
  intros H. unfold group_number.
  assert (E : (let '(d, rest) := leading_digits s in group_digits d ++ rest)
              = group_digits s).
  { rewrite (leading_digits_all _ H). apply append_empty. }
  destruct s as [|c r]; [reflexivity|].
  cbn [all_digits] in H. destruct (digit_of c) eqn:Ec; [|discriminate].
  destruct c as [[] [] [] [] [] [] [] []]; try exact E; discriminate Ec.
Qed.

Lemma group_number_minus s :
  all_digits s = true -> group_number (String "-" s) = String "-" (group_digits s).
Proof.
  intros H. unfold group_number. rewrite (leading_digits_all _ H).
  cbn. now rewrite append_empty.
Qed.

(** The text of an integer with its separators: without them it is the
    text of the integer again. *)
Lemma group_number_plain n :
  remove_commas (strip (group_number (str_of_Z n))) = str_of_Z n.
Proof.
  unfold str_of_Z. destruct n as [|p|p]; cbn [Z.to_int NilEmpty.string_of_int].
  - reflexivity.
  - pose proof (uint_all_digits (Pos.to_uint p)) as Hd.
    rewrite (group_number_digits _ Hd).
    rewrite no_blank_strip by now apply group_digits_no_blank.
    now apply group_digits_commas.
  - pose proof (uint_all_digits (Pos.to_uint p)) as Hd.
    rewrite (group_number_minus _ Hd). rewrite no_blank_strip.
    + cbn [remove_commas]. change (Ascii.eqb "-" ",") with false. cbv iota.
      f_equal. now apply group_digits_commas.
    + cbn [no_blank]. change (is_space "-") with false. cbn [negb andb].
      now apply group_digits_no_blank.
Qed.

End DisplayFacts.

Module DisplayProps.
Import PyStr Py Reconcile Display DisplaySpec NumberSpec Examples.
Import DictFacts NumberFacts DisplayFacts.

(** X21: a listing is displayed, by either provider, exactly when it is
    missing (empty, zero or None) or a dict whose price is a dict with a
    number as advertised price, whose odometer is a number, whose
    specifications are absent, empty or a dict, and whose description is
    absent, empty or a text; for any other listing the display raises. *)
Theorem details_print_exactly_when vehicle_data :
  ((exists text, autotrader_format_vehicle_details vehicle_data = Ok text) <->
   printable vehicle_data = true) /\
  ((exists text, carsguide_format_vehicle_details vehicle_data = Ok text) <->
   printable vehicle_data = true).
Proof. apply format_returns. Qed.

(** X22: the "N/A" that stands for a missing number cannot be printed with
    thousands separators: a listing that has no advertised price, or has
    one and no odometer, is not displayed; both displays raise a
    ValueError. *)
Theorem missing_number_raises d :
  d <> [] ->
  (dict_get d "price" = None \/
   (exists price, dict_get d "price" = Some (JDict price) /\
                  dict_get price "advertised_price" = None) \/
   (exists price x, dict_get d "price" = Some (JDict price) /\
                    dict_get price "advertised_price" = Some x /\ numeric x = true /\
                    dict_get d "odometer" = None)) ->
  autotrader_format_vehicle_details (JDict d)
    = Raise (Exn "ValueError" "Cannot specify ',' with 's'.") /\
  carsguide_format_vehicle_details (JDict d)
    = Raise (Exn "ValueError" "Cannot specify ',' with 's'.").
Proof.
  intros Hd Hmissing.
  rewrite autotrader_format_dict, carsguide_format_dict.
  assert (Ht : truthy (JDict d) = true) by (destruct d; [contradiction | reflexivity]).
  rewrite Ht. cbn [negb]. unfold format_dict, value.
  destruct Hmissing as [Hp|[(price & Hp & Ha)|(price & x & Hp & Ha & Hn & Ho)]].
  - rewrite Hp. split; reflexivity.
  - rewrite Hp. cbn [py_get]. rewrite Ha. split; reflexivity.
  - rewrite Hp, Ho. cbn [py_get]. rewrite Ha.
    destruct (proj2 (format_comma_ok x) Hn) as [t ->]. split; reflexivity.
Qed.

Lemma missing_number_raises_witness :
  autotrader_format_vehicle_details listing_live
    = Raise (Exn "ValueError" "Cannot specify ',' with 's'.") /\
  carsguide_format_vehicle_details listing_live
    = Raise (Exn "ValueError" "Cannot specify ',' with 's'.").
Proof.
  apply (missing_number_raises
           [("status", JStr "live"); ("model", JStr "Corolla"); ("url", JStr "cars/123")]);
    [discriminate | left; reflexivity].
Defined.

(** X23: the displays of the two providers tell the same of a listing:
    they raise the same exceptions, and when they return their texts have
    the same lines but for the second, the title. *)
Theorem displays_differ_in_title_only vehicle_data :
  match autotrader_format_vehicle_details vehicle_data,
        carsguide_format_vehicle_details vehicle_data with
  | Ok text1, Ok text2 =>
      (truthy vehicle_data = false /\ text1 = "No vehicle data available" /\ text2 = text1) \/
      (exists stock_no rest,
          text1 = String.concat LF
                    ((LF ++ times "=" 60)
                       :: center ("VEHICLE DETAILS - Stock #" ++ stock_no) 60 :: rest) /\
          text2 = String.concat LF
                    ((LF ++ times "=" 60)
                       :: center ("CARSGUIDE VEHICLE DETAILS - Stock #" ++ stock_no) 60
                       :: rest))
  | Raise e1, Raise e2 => e1 = e2
  | _, _ => False
  end.
Proof.
  destruct (truthy vehicle_data) eqn:Et.
  - destruct vehicle_data as [a|l|d].
    + destruct (format_not_dict (JAtom a) Et eq_refl) as [-> ->]. reflexivity.
    + destruct (format_not_dict (JList l) Et eq_refl) as [-> ->]. reflexivity.
    + rewrite autotrader_format_dict, carsguide_format_dict, Et. cbn [negb].
      pose proof (format_dict_titles "VEHICLE DETAILS - Stock #"
                    "CARSGUIDE VEHICLE DETAILS - Stock #" d) as H.
      destruct (format_dict "VEHICLE DETAILS - Stock #" d),
               (format_dict "CARSGUIDE VEHICLE DETAILS - Stock #" d); try exact H.
      destruct H as (rest & -> & ->). right. eauto.
  - unfold autotrader_format_vehicle_details, carsguide_format_vehicle_details.
    rewrite Et. cbn [negb]. left. auto.
Qed.

(** X24: a whole number printed with thousands separators, as the
    display prints a price or an odometer, reads back as the same number
    once the commas are dropped, the way the comparison and the fallback
    query read the Price and the KM of a row. *)
Theorem displayed_number_reads_back n :
  exists text,
    format_comma (JAtom (SInt n)) = Ok text /\
    remove_commas (strip text) = str_of_Z n /\
    py_int (remove_commas (strip text)) = Some n.
Proof.
  eexists. split; [reflexivity|]. rewrite group_number_plain.
  split; [reflexivity | apply py_int_str_of_Z].
Qed.

End DisplayProps.

(* ===================================================================== *)
(** * The search for one stock number *)
(* ===================================================================== *)

Module CliFacts.
Import PyStr Py Reconcile Eff Http Provider ProviderSpec Batch BatchSpec TraceSpec.
Import Display DisplaySpec Cli.
Import DictFacts ProviderFacts BatchFacts TraceFacts LookupFacts RunFacts DisplayFacts.

Ltac run_cli :=
  cbv beta iota zeta delta [bind ret catch raise lift_res on_net print print_help
                            save_json_file fst snd].

(** The calls of a search by stock number alone. *)
Lemma autotrader_single_requests net stock_no dealer_id tr0 :
  exists v new,
    autotrader_search_vehicle net stock_no dealer_id None tr0 = (Ok v, (new ++ tr0)%list) /\
    (count is_request new <= 2)%nat /\
    forall r, In (EvGet r) new ->
      req_url r <> carsguide_main_url /\
      dict_get (req_params r) "source" = None /\
      (req_url r = base_url ->
       req_params r = [("stock_no", stock_no); ("dealer_id", dealer_id)]).
Proof.
  destruct (autotrader_course net stock_no dealer_id None tr0) as (v & new & E & Hin).
  exists v, new. split; [exact E|]. split.
  - destruct (autotrader_three_courses net stock_no dealer_id None tr0)
      as (v' & new' & E' & Hin').
    rewrite E in E'. injection E' as _ Hnew. apply app_inv_tail in Hnew. subst new'.
    apply (three_courses_requests _ _ _ _ Hin'); [discriminate | reflexivity].
  - intros r Hr. destruct (course_urls _ _ _ _ _ _ Hin Hr) as [->|[->|[->|Hf]]];
      [| | |discriminate Hf];
      (split; [discriminate|]); (split; [reflexivity|]); try reflexivity.
    discriminate.
Qed.

Lemma carsguide_params_get stock_no dealer_id make :
  dict_get (carsguide_params stock_no dealer_id make) "stock_no" = Some stock_no /\
  dict_get (carsguide_params stock_no dealer_id make) "dealer_id" = Some dealer_id /\
  dict_get (carsguide_params stock_no dealer_id make) "source" = Some "CG".
Proof.
  unfold carsguide_params. destruct make as [mk|]; [destruct (negb _)|];
    repeat split; rewrite ?dict_get_set_other by discriminate; reflexivity.
Qed.

Lemma carsguide_single_requests net stock_no dealer_id make tr0 :
  exists v new,
    carsguide_search_vehicle net stock_no dealer_id make None tr0
      = (Ok v, (new ++ tr0)%list) /\
    (count is_request new <= 2)%nat /\
    forall r, In (EvGet r) new ->
      req_url r <> autotrader_main_url /\
      (req_url r = base_url ->
       dict_get (req_params r) "stock_no" = Some stock_no /\
       dict_get (req_params r) "dealer_id" = Some dealer_id /\
       dict_get (req_params r) "source" = Some "CG").
Proof.
  destruct (carsguide_course net stock_no dealer_id make None tr0) as (v & new & E & Hin).
  exists v, new. split; [exact E|]. split.
  - destruct (carsguide_three_courses net stock_no dealer_id make None tr0)
      as (v' & new' & E' & Hin').
    rewrite E in E'. injection E' as _ Hnew. apply app_inv_tail in Hnew. subst new'.
    apply (three_courses_requests _ _ _ _ Hin'); [discriminate | reflexivity].
  - intros r Hr. destruct (course_urls _ _ _ _ _ _ Hin Hr) as [->|[->|[->|Hf]]];
      [| | |discriminate Hf];
      (split; [discriminate|]); intros Hurl; try discriminate Hurl;
      apply carsguide_params_get.
Qed.

(** The events of the two parts of a single search: those of one lookup,
    and the file of results on top when one is written. *)
Lemma search_autotrader_events net save stock_no dealer_id w :
  exists v new tr,
    autotrader_search_vehicle net stock_no dealer_id None (fst w) = (Ok v, (new ++ fst w)%list) /\
    fst (snd (search_autotrader net save stock_no dealer_id w)) = (tr ++ new ++ fst w)%list /\
    (tr = [] \/ exists filename data, tr = [EvSave filename data]).
Proof.
  destruct w as [tr0 out0].
  destruct (autotrader_course net stock_no dealer_id None tr0) as (v & new & E & _).
  exists v, new. cbn [fst]. unfold search_autotrader. run_cli. rewrite E. run_cli.
  destruct (found_listing v) as [[|]|e]; run_cli; [| exists []; eauto | exists []; eauto].
  destruct save; run_cli;
    destruct (autotrader_extract_vehicle_data v) as [vd|e]; run_cli;
    try destruct (autotrader_format_vehicle_details vd) as [text|e]; run_cli;
    first [ exists []; split; [reflexivity|]; split; [reflexivity | now left]
          | eexists [_]; split; [reflexivity|]; split; [reflexivity | right; eauto] ].
Qed.

Lemma search_carsguide_events net save stock_no dealer_id make w :
  exists v new tr,
    carsguide_search_vehicle net stock_no dealer_id make None (fst w)
      = (Ok v, (new ++ fst w)%list) /\
    fst (snd (search_carsguide net save stock_no dealer_id make w))
      = (tr ++ new ++ fst w)%list /\
    (tr = [] \/ exists filename data, tr = [EvSave filename data]).
Proof.
  destruct w as [tr0 out0].
  destruct (carsguide_course net stock_no dealer_id make None tr0) as (v & new & E & _).
  exists v, new. cbn [fst]. unfold search_carsguide. run_cli. rewrite E. run_cli.
  destruct (found_listing v) as [[|]|e]; run_cli; [| exists []; eauto | exists []; eauto].
  destruct save; run_cli;
    destruct (carsguide_extract_vehicle_data v) as [vd|e]; run_cli;
    try destruct (carsguide_format_vehicle_details vd) as [text|e]; run_cli;
    first [ exists []; split; [reflexivity|]; split; [reflexivity | now left]
          | eexists [_]; split; [reflexivity|]; split; [reflexivity | right; eauto] ].
Qed.

End CliFacts.

Module CliProps.
Import PyStr Py Reconcile Eff Http Provider ProviderSpec Batch BatchSpec TraceSpec.
Import Display DisplaySpec Cli Examples Scenarios.
Import DictFacts ProviderFacts BatchFacts TraceFacts LookupFacts RunFacts DisplayFacts CliFacts.



(** X26: nothing in [main] catches what the display of a listing
    raises.  In a run for one stock number where AutoTrader is searched and
    answers, when the test of the answer, the choice of the listing or its
    display raises, the run ends with that exception, and the only requests
    sent are those of the AutoTrader search: Carsguide is not searched. *)
Theorem display_failure_ends_the_run net a loaded stock_no result tr1 e :
  given (args_csv a) = false ->
  args_stock_no a = Some stock_no -> stock_no <> "" ->
  args_api a = "autotrader" \/ args_api a = "both" ->
  autotrader_search_vehicle net stock_no (args_dealer_id a) None [] = (Ok result, tr1) ->
  found_listing result = Raise e \/
  (found_listing result = Ok true /\
   (autotrader_extract_vehicle_data result = Raise e \/
    exists vehicle_data,
      autotrader_extract_vehicle_data result = Ok vehicle_data /\
      autotrader_format_vehicle_details vehicle_data = Raise e)) ->
  exists w,
    main net a loaded = inr (Raise e, w) /\
    forall r, In (EvGet r) (fst w) -> In (EvGet r) tr1.
Proof.
  intros Hcsv Hstock Hne Hapi Hsearch Hfail.
  unfold main. rewrite Hcsv. unfold main_single. rewrite Hstock. cbn [given].
  apply String.eqb_neq in Hne. rewrite Hne. cbn [negb].
  assert (Hb : existsb (String.eqb (args_api a)) ["autotrader"; "both"] = true)
    by (destruct Hapi as [-> | ->]; reflexivity).
  rewrite Hb. unfold bind at 1. unfold search_autotrader. run_cli.
  rewrite Hsearch. run_cli.
  destruct Hfail as [Hf|(Hf & [Hx|(vd & Hx & Hd)])]; rewrite Hf; run_cli.
  - eexists. split; [reflexivity|]. cbn [fst]. auto.
  - destruct (args_save a); run_cli; rewrite Hx; run_cli;
      (eexists; split; [reflexivity|]); cbn [fst In]; intros r H; auto.
    destruct H as [H|H]; [discriminate H | exact H].
  - destruct (args_save a); run_cli; rewrite Hx; run_cli; rewrite Hd; run_cli;
      (eexists; split; [reflexivity|]); cbn [fst In]; intros r H; auto.
    destruct H as [H|H]; [discriminate H | exact H].
Qed.

Lemma display_failure_ends_the_run_witness :
  exists w,
    main net_one_listing args_A1 (Raise not_json)
      = inr (Raise (Exn "ValueError" "Cannot specify ',' with 's'."), w) /\
    forall r, In (EvGet r) (fst w) ->
              In (EvGet r)
                 [EvGet (autotrader_primary "A1" "12751"); EvSleep 1 3;
                  EvGet autotrader_bootstrap].
Proof.
  apply (display_failure_ends_the_run net_one_listing args_A1 (Raise not_json) "A1"
           one_listing
           [EvGet (autotrader_primary "A1" "12751"); EvSleep 1 3; EvGet autotrader_bootstrap]
           (Exn "ValueError" "Cannot specify ',' with 's'."));
    [ reflexivity | reflexivity | discriminate | right; reflexivity | reflexivity | ].
  right. split; [reflexivity|]. right. exists listing_live. split; reflexivity.
Defined.

End CliProps.
